(** * molview: a shallow embedding of the viewer core and its properties

    The development follows the Python sources
      - [molview/viewer.py]  (class [MolView]: format detection, model
        placement, display settings),
      - [molview/colors.py]  (colour themes, gradient utility),
      - [molview/query.py]   (remote fetch of structure files).

    Conventions of the embedding.
      - A Python [str] is a [string] of the code points below 256.
        Whitespace and [lower] are Python's on all of them.  [upper] is
        Python's on all but U+00B5, U+00DF and U+00FF, whose upper-case
        forms (U+039C, the two letters SS, U+0178) are not texts of one
        code point below 256; [upper] leaves these three as they are.
      - A Python [int] is a [Z]; a Python [float] is an IEEE binary64
        value, [spec_float] with precision 53 and maximal exponent 1024.
      - A raised exception is the [Raise] case of [result]; the payload
        of a [ValueError] records the raise site and the values that the
        source formats into the message.
      - Objects are records.  A method that only assigns attributes is a
        function from the object to the updated object ([return self]);
        a method that can raise is a [method]: it returns the object as
        it is when the call returns or raises, together with the
        outcome, so that what a failed call has already changed stays
        visible. *)

From Stdlib Require Import ZArith String Ascii List Bool Lia SpecFloat DecimalString.
From stdpp Require Import base option list strings gmap.

Import ListNotations.
#[local] Set Warnings "-register-all".
Local Open Scope string_scope.
Local Open Scope Z_scope.

(* ================================================================== *)
(** * Python values, exceptions and the error monad *)
(* ================================================================== *)

(** The dynamically typed values that reach the package through keyword
    arguments and that it stores in [color_params]: the JSON-like
    fragment of Python's objects.  A [dict] keeps its insertion order. *)
Inductive pyval : Type :=
  | PNone
  | PBool (b : bool)
  | PInt (n : Z)
  | PStr (s : string)
  | PList (l : list pyval)
  | PDict (d : list (string * pyval)).

(** Truth value of an object, as [or] and [if] test it. *)
Definition py_truthy (v : pyval) : bool :=
  match v with
  | PNone => false
  | PBool b => b
  | PInt n => negb (n =? 0)
  | PStr s => match s with EmptyString => false | _ => true end
  | PList l => match l with [] => false | _ => true end
  | PDict d => match d with [] => false | _ => true end
  end.

(** [a or b] *)
Definition py_or (a b : pyval) : pyval := if py_truthy a then a else b.

(** The [ValueError]s of the package, one constructor per [raise]. *)
Inductive value_error : Type :=
  | UnsupportedFormat (format : string)            (* viewer.py, addModel *)
  | OutOfBounds (row col rows cols : Z)            (* viewer.py, addModel *)
  | GridFull (rows cols : Z)                       (* viewer.py, _get_next_available_cell *)
  | UnknownPalette (palette : pyval)               (* colors.py, RainbowColorTheme *)
  | UnknownColorMode (mode : string)               (* colors.py, get_color_theme *)
  | InvalidLiteral (text : string)                 (* builtin int(text, 16) *)
  | FloatNaNToInt                                  (* builtin int(x), x a NaN *)
  | BadFetchFormat (format : string)               (* query.py, fetch_pdb *)
  | PdbIdNotFound (pdb_id : string)                (* query.py, fetch_pdb *)
  | UniprotIdNotFound (uniprot_id : string) (version : Z). (* query.py, fetch_alphafold *)

Inductive exn : Type :=
  | ValueError (v : value_error)
  | IndexError
  | TypeError
  | AttributeError
  | OverflowError
  | ZeroDivisionError
  | HTTPError (code : Z) (reason : string)
  | URLError (reason : string).

Inductive result (A : Type) : Type :=
  | Ok (a : A)
  | Raise (e : exn).
Arguments Ok {A} a.
Arguments Raise {A} e.

(** Sequencing: the first exception raised is the outcome.  The
    instances give [result] the notation [x ← m; k] of stdpp's monads. *)
#[global] Instance result_ret : MRet result := fun A a => Ok a.
#[global] Instance result_bind : MBind result := fun A B k m =>
  match m with
  | Ok a => k a
  | Raise e => Raise e
  end.

(** A [for] loop whose body may [return] (a [Some]), go on to the next
    element ([None]) or raise. *)
Fixpoint for_return {A R} (xs : list A) (body : A -> result (option R))
  : result (option R) :=
  match xs with
  | [] => Ok None
  | x :: xs' =>
      match body x with
      | Ok None => for_return xs' body
      | r => r
      end
  end.

(** [range(n)] *)
Definition py_range (n : Z) : list Z := map Z.of_nat (seq 0 (Z.to_nat n)).

(** [l[i]] on a list, negative indices counting from the end. *)
Definition py_index {A} (l : list A) (i : Z) : result A :=
  let n := Z.of_nat (length l) in
  let j := if i <? 0 then i + n else i in
  if (0 <=? j) && (j <? n)
  then match l !! Z.to_nat j with Some x => Ok x | None => Raise IndexError end
  else Raise IndexError.

(* ================================================================== *)
(** * Python string operations *)
(* ================================================================== *)

Module PyStr.

(** [str.isspace] on one character: the control characters 9 to 13 and
    28 to 31, the space, U+0085 and U+00A0. *)
Definition is_space (c : ascii) : bool :=
  let n := nat_of_ascii c in
  ((9 <=? n) && (n <=? 13) || (28 <=? n) && (n <=? 32)
   || (n =? 133) || (n =? 160))%nat.

(** The letters with a lower-case form: A to Z, and U+00C0 to U+00DE
    without the multiplication sign U+00D7. *)
Definition is_upper_letter (c : ascii) : bool :=
  let n := nat_of_ascii c in
  ((65 <=? n) && (n <=? 90)
   || (192 <=? n) && (n <=? 222) && negb (n =? 215))%nat.

(** The letters with an upper-case form of one code point below 256: a
    to z, and U+00E0 to U+00FE without the division sign U+00F7. *)
Definition is_lower_letter (c : ascii) : bool :=
  let n := nat_of_ascii c in
  ((97 <=? n) && (n <=? 122)
   || (224 <=? n) && (n <=? 254) && negb (n =? 247))%nat.

Definition lower_char (c : ascii) : ascii :=
  if is_upper_letter c then ascii_of_nat (nat_of_ascii c + 32) else c.

Definition upper_char (c : ascii) : ascii :=
  if is_lower_letter c then ascii_of_nat (nat_of_ascii c - 32) else c.

Fixpoint map_chars (f : ascii -> ascii) (s : string) : string :=
  match s with
  | EmptyString => EmptyString
  | String c s' => String (f c) (map_chars f s')
  end.

(** [s.lower()], [s.upper()] *)
Definition lower : string -> string := map_chars lower_char.
Definition upper : string -> string := map_chars upper_char.

Definition is_empty (s : string) : bool :=
  match s with EmptyString => true | String _ _ => false end.

(** [s.lstrip()] *)
Fixpoint lstrip (s : string) : string :=
  match s with
  | EmptyString => EmptyString
  | String c s' => if is_space c then lstrip s' else s
  end.

(** [s.rstrip()] *)
Fixpoint rstrip (s : string) : string :=
  match s with
  | EmptyString => EmptyString
  | String c s' =>
      let r := rstrip s' in
      if is_space c && is_empty r then EmptyString else String c r
  end.

(** [s.strip()] *)
Definition strip (s : string) : string := rstrip (lstrip s).

(** [s.lstrip(ch)] for a one-character argument. *)
Fixpoint lstrip_char (ch : ascii) (s : string) : string :=
  match s with
  | EmptyString => EmptyString
  | String c s' => if Ascii.eqb c ch then lstrip_char ch s' else s
  end.

(** [s.replace(ch, '')] for a one-character [ch]. *)
Fixpoint remove_char (ch : ascii) (s : string) : string :=
  match s with
  | EmptyString => EmptyString
  | String c s' =>
      if Ascii.eqb c ch then remove_char ch s' else String c (remove_char ch s')
  end.

(** [s.split(sep)] for a one-character separator: never the empty list. *)
Fixpoint split (sep : ascii) (s : string) : list string :=
  match s with
  | EmptyString => [EmptyString]
  | String c s' =>
      if Ascii.eqb c sep then EmptyString :: split sep s'
      else match split sep s' with
           | h :: t => String c h :: t
           | [] => [String c EmptyString]
           end
  end.

(** [s.startswith(p)] *)
Fixpoint startswith (p s : string) : bool :=
  match p, s with
  | EmptyString, _ => true
  | String _ _, EmptyString => false
  | String a p', String b s' => Ascii.eqb a b && startswith p' s'
  end.

(** [p in s] (substring test) *)
Fixpoint contains (p s : string) : bool :=
  startswith p s ||
  match s with
  | EmptyString => false
  | String _ s' => contains p s'
  end.

(** [s[:n]] for [n >= 0] *)
Fixpoint take (n : nat) (s : string) : string :=
  match n, s with
  | O, _ => EmptyString
  | S _, EmptyString => EmptyString
  | S n', String c s' => String c (take n' s')
  end.

(** [s[n:]] for [n >= 0] *)
Fixpoint drop (n : nat) (s : string) : string :=
  match n, s with
  | O, _ => s
  | S _, EmptyString => EmptyString
  | S n', String _ s' => drop n' s'
  end.

(** [len(s)] *)
Definition len (s : string) : Z := Z.of_nat (String.length s).

(** [x in l] for a list of strings *)
Definition in_list (x : string) (l : list string) : bool :=
  existsb (String.eqb x) l.

(** [str(n)] for an [int] *)
Definition of_int (n : Z) : string := NilZero.string_of_int (Z.to_int n).

End PyStr.

(* ================================================================== *)
(** * viewer.py: format detection *)
(* ================================================================== *)

Definition newline : ascii := ascii_of_nat 10.

Definition pdb_keywords : list string :=
  ["HEADER"; "TITLE"; "COMPND"; "SOURCE"; "KEYWDS"; "EXPDTA";
   "AUTHOR"; "REVDAT"; "REMARK"; "SEQRES"; "HELIX"; "SHEET";
   "ATOM"; "HETATM"; "MODEL"; "CRYST1"; "ORIGX"; "SCALE"; "MTRIX"].

(** [[line.strip() for line in data.strip().split('\n')[:50] if line.strip()]] *)
Definition scanned_lines (data : string) : list string :=
  map PyStr.strip
    (List.filter (fun line => negb (PyStr.is_empty (PyStr.strip line)))
       (firstn 50 (PyStr.split newline (PyStr.strip data)))).

(** The loops of [_detect_format] only ever [return]; an exhausted loop
    falls through to the code after it. *)
Fixpoint first_return {A R} (xs : list A) (body : A -> option R) : option R :=
  match xs with
  | [] => None
  | x :: xs' =>
      match body x with
      | Some r => Some r
      | None => first_return xs' body
      end
  end.

Definition _detect_format (data : string) : string :=
  let lines := scanned_lines data in
  match lines with
  | [] => "pdb"
  | line0 :: _ =>
      let first_line := PyStr.lower line0 in
      if PyStr.startswith "data_" first_line then "mmcif" else
      match first_return lines (fun line =>
              let line_lower := PyStr.lower line in
              if PyStr.startswith "loop_" line_lower
                 || PyStr.startswith "_atom_site" line_lower
                 || PyStr.startswith "_cell" line_lower
              then Some "mmcif" else None) with
      | Some r => r
      | None =>
      let data_upper := PyStr.upper data in
      if PyStr.contains "$$$$" data_upper || PyStr.contains "M  END" data_upper
      then "sdf" else
      if PyStr.contains "V2000" data_upper || PyStr.contains "V3000" data_upper
      then "sdf" else
      match first_return (firstn 20 lines) (fun line =>
              if (6 <=? PyStr.len line)
              then
                let record_type := PyStr.upper (PyStr.strip (PyStr.take 6 line)) in
                if PyStr.in_list record_type pdb_keywords then Some "pdb" else None
              else None) with
      | Some r => r
      | None =>
      match first_return lines (fun line =>
              if (4 <=? PyStr.len line)
              then
                let record_type := PyStr.upper (PyStr.strip (PyStr.take 6 line)) in
                if PyStr.in_list record_type ["ATOM"; "HETATM"] then Some "pdb" else None
              else None) with
      | Some r => r
      | None => "pdb"
      end
      end
      end
  end.


(* ================================================================== *)
(** * Builtins used by colors.py: [int(text, 16)], floats, formatting *)
(* ================================================================== *)

Module PyInt.

(** Whitespace that [int] skips around a literal: C's isspace (9 to 13
    and the space), and the two whitespace characters from 127 on, U+0085
    and U+00A0, which [int] turns into spaces first.  The separators 28
    to 31 are whitespace for [str.strip] but not for [int]. *)
Definition c_isspace (c : ascii) : bool :=
  let n := nat_of_ascii c in
  ((9 <=? n) && (n <=? 13) || (n =? 32) || (n =? 133) || (n =? 160))%nat.

Fixpoint skip_spaces (s : string) : string :=
  match s with
  | String c s' => if c_isspace c then skip_spaces s' else s
  | EmptyString => EmptyString
  end.

Definition hex_digit_value (c : ascii) : option Z :=
  let n := nat_of_ascii c in
  if ((48 <=? n) && (n <=? 57))%nat then Some (Z.of_nat n - 48)
  else if ((97 <=? n) && (n <=? 102))%nat then Some (Z.of_nat n - 87)
  else if ((65 <=? n) && (n <=? 70))%nat then Some (Z.of_nat n - 55)
  else None.

Definition underscore : ascii := ascii_of_nat 95.

(** What the scan of digits and underscores has just read. *)
Inductive scanned := Nothing | Digit | Underscore.

(** Digits with single underscores between them; the value read and the
    rest of the text, [None] for a doubled or trailing underscore or no
    digit at all. *)
Fixpoint scan_hex (acc : Z) (prev : scanned) (s : string) : option (Z * string) :=
  let finish :=
    match prev with
    | Digit => Some (acc, s)
    | Nothing | Underscore => None
    end in
  match s with
  | EmptyString => finish
  | String c s' =>
      if Ascii.eqb c underscore then
        match prev with
        | Underscore => None
        | _ => scan_hex acc Underscore s'
        end
      else
        match hex_digit_value c with
        | Some d => scan_hex (16 * acc + d) Digit s'
        | None => finish
        end
  end.

(** Optional sign. *)
Definition read_sign (s : string) : bool * string :=
  match s with
  | String "+" s' => (false, s')
  | String "-" s' => (true, s')
  | _ => (false, s)
  end.

(** Optional [0x] or [0X], after which one underscore may stand. *)
Definition read_prefix (s : string) : string :=
  match s with
  | String "0" (String x s') =>
      if Ascii.eqb x "x" || Ascii.eqb x "X" then
        match s' with
        | String "_" s'' => s''
        | _ => s'
        end
      else s
  | _ => s
  end.

(** [int(text, 16)] *)
Definition of_hex (text : string) : result Z :=
  let bad := Raise (ValueError (InvalidLiteral text)) in
  let '(neg, s1) := read_sign (skip_spaces text) in
  let s2 := read_prefix s1 in
  match s2 with
  | String "_" _ => bad
  | _ =>
      match scan_hex 0 Nothing s2 with
      | Some (v, rest) =>
          match skip_spaces rest with
          | EmptyString => Ok (if neg then - v else v)
          | String _ _ => bad
          end
      | None => bad
      end
  end.

Definition hex_char (d : Z) : ascii :=
  if d <? 10 then ascii_of_nat (Z.to_nat d + 48) else ascii_of_nat (Z.to_nat d + 87).

(** Lower-case hexadecimal digits of a positive number, most significant
    first, in front of [acc]. *)
Fixpoint hex_of_pos_fuel (fuel : nat) (p : Z) (acc : string) : string :=
  match fuel with
  | O => acc
  | S fuel' =>
      let acc' := String (hex_char (p mod 16)) acc in
      if p <? 16 then acc' else hex_of_pos_fuel fuel' (p / 16) acc'
  end.

Definition hex_of_nonneg (n : Z) : string :=
  hex_of_pos_fuel (S (Z.to_nat (Z.log2 n))) n EmptyString.

(** [format(n, '02x')]: sign-aware zero padding to width 2. *)
Definition format_02x (n : Z) : string :=
  if n <? 0 then String "-" (hex_of_nonneg (- n))
  else
    let h := hex_of_nonneg n in
    if (String.length h <? 2)%nat then String "0" h else h.

End PyInt.

Module PyFloat.

Definition prec : Z := 53.
Definition emax : Z := 1024.

(** [float(n)] for an [int]: the nearest binary64, [OverflowError] when
    it is out of range. *)
Definition of_int (n : Z) : result spec_float :=
  match binary_normalize prec emax n 0 false with
  | S754_infinity _ => Raise OverflowError
  | f => Ok f
  end.

Definition add : spec_float -> spec_float -> spec_float := SFadd prec emax.
Definition sub : spec_float -> spec_float -> spec_float := SFsub prec emax.
Definition mul : spec_float -> spec_float -> spec_float := SFmul prec emax.

(** [a / b] on two [int]s: the exact quotient rounded once to the nearest
    binary64, whatever the size of the operands; [OverflowError] when
    the quotient is out of range, a zero with the sign of the quotient
    when [a] is zero or the quotient rounds to zero. *)
Definition truediv_int (a b : Z) : result spec_float :=
  if b =? 0 then Raise ZeroDivisionError
  else
    let negative := xorb (a <? 0) (b <? 0) in
    if a =? 0 then Ok (S754_zero negative)
    else
      let '(mz, ez, lz) :=
        SFdiv_core_binary prec emax (Z.abs a) 0 (Z.abs b) 0 in
      match binary_round_aux prec emax negative mz ez lz with
      | S754_infinity _ => Raise OverflowError
      | f => Ok f
      end.

(** [x * n], [n + x], [x - n] with [n] an [int]. *)
Definition mul_int (x : spec_float) (n : Z) : result spec_float :=
  y ← of_int n; Ok (mul x y).
Definition int_add (n : Z) (x : spec_float) : result spec_float :=
  y ← of_int n; Ok (add y x).
Definition sub_int (x : spec_float) (n : Z) : result spec_float :=
  y ← of_int n; Ok (sub x y).

(** [int(x)]: truncation towards zero. *)
Definition to_int (x : spec_float) : result Z :=
  match x with
  | S754_zero _ => Ok 0
  | S754_infinity _ => Raise OverflowError
  | S754_nan => Raise (ValueError FloatNaNToInt)
  | S754_finite s m e =>
      let a := match e with
               | Z0 => Zpos m
               | Zpos k => Zpos m * 2 ^ Zpos k
               | Zneg k => Zpos m / 2 ^ Zpos k
               end in
      Ok (if s then - a else a)
  end.

End PyFloat.

(* ================================================================== *)
(** * colors.py *)
(* ================================================================== *)

(** A Python [dict] with string keys, in insertion order. *)
Abbreviation dict V := (list (string * V)).

(** [key in d] and [d[key]] *)
Fixpoint dict_get {V} (d : dict V) (key : string) : option V :=
  match d with
  | [] => None
  | (k, v) :: d' => if String.eqb k key then Some v else dict_get d' key
  end.

(** [d[key] = v]: an existing key keeps its place, a new one goes last. *)
Fixpoint dict_set {V} (d : dict V) (key : string) (v : V) : dict V :=
  match d with
  | [] => [(key, v)]
  | (k, w) :: d' =>
      if String.eqb k key then (k, v) :: d' else (k, w) :: dict_set d' key v
  end.

Definition RAINBOW_PALETTES : dict (list string) :=
  [ ("rainbow", ["#0000FF"; "#00FFFF"; "#00FF00"; "#FFFF00"; "#FF8000"; "#FF0000"]);
    ("viridis", ["#440154"; "#482878"; "#3e4989"; "#31688e"; "#26828e"; "#1f9e89";
                 "#35b779"; "#6ece58"; "#b5de2b"; "#fde724"]);
    ("plasma", ["#0d0887"; "#46039f"; "#7201a8"; "#9c179e"; "#bd3786"; "#d8576b";
                "#ed7953"; "#fb9f3a"; "#fdca26"; "#f0f921"]);
    ("magma", ["#000004"; "#1c1044"; "#4f127b"; "#812581"; "#b5367a"; "#e55964";
               "#fb8861"; "#fec287"; "#fcfdbf"]);
    ("blue-red", ["#0000FF"; "#FF0000"]);
    ("pastel", ["#FFB3BA"; "#FFDFBA"; "#FFFFBA"; "#BAFFC9"; "#BAE1FF"; "#E0BBE4"]) ].

Definition SECONDARY_STRUCTURE_COLORS : dict string :=
  [ ("helix", "#0FA3FF"); ("sheet", "#24B235"); ("coil", "#E8E8E8") ].

(** The theme classes, each constructor holding the attributes that its
    [__init__] sets besides [name]. *)
Inductive ColorTheme : Type :=
  | CustomColorTheme (color : pyval)
  | ElementColorTheme
  | ResidueColorTheme
  | ChainColorTheme (custom_colors : pyval)
  | SecondaryStructureTheme (helix_color sheet_color coil_color : pyval)
  | RainbowColorTheme (palette : string) (colors : list string)
  | PLDDTColorTheme.

(** [self.name], set by [super().__init__] *)
Definition theme_name (t : ColorTheme) : string :=
  match t with
  | CustomColorTheme _ => "custom"
  | ElementColorTheme => "element"
  | ResidueColorTheme => "residue"
  | ChainColorTheme _ => "chain"
  | SecondaryStructureTheme _ _ _ => "secondary"
  | RainbowColorTheme _ _ => "rainbow"
  | PLDDTColorTheme => "plddt"
  end.

Definition secondary_default (key : string) : pyval :=
  match dict_get SECONDARY_STRUCTURE_COLORS key with
  | Some c => PStr c
  | None => PNone
  end.

(** [ChainColorTheme.__init__] *)
Definition ChainColorTheme_init (custom_colors : pyval) : ColorTheme :=
  ChainColorTheme (py_or custom_colors (PDict [])).

(** [SecondaryStructureTheme.__init__] *)
Definition SecondaryStructureTheme_init (helix_color sheet_color coil_color : pyval)
  : ColorTheme :=
  SecondaryStructureTheme
    (py_or helix_color (secondary_default "helix"))
    (py_or sheet_color (secondary_default "sheet"))
    (py_or coil_color (secondary_default "coil")).

(** [RainbowColorTheme.__init__]; a list or dict cannot be hashed for the
    membership test. *)
Definition RainbowColorTheme_init (palette : pyval) : result ColorTheme :=
  match palette with
  | PStr p =>
      match dict_get RAINBOW_PALETTES p with
      | Some colors => Ok (RainbowColorTheme p colors)
      | None => Raise (ValueError (UnknownPalette palette))
      end
  | PList _ | PDict _ => Raise TypeError
  | PNone | PBool _ | PInt _ => Raise (ValueError (UnknownPalette palette))
  end.

(** [kwargs.get(key, default)] *)
Definition kwargs_get (kwargs : gmap string pyval) (key : string) (dflt : pyval)
  : pyval :=
  default dflt (kwargs !! key).

Definition get_color_theme (mode : string) (kwargs : gmap string pyval)
  : result ColorTheme :=
  let mode := PyStr.lower mode in
  if String.eqb mode "custom" then
    Ok (CustomColorTheme (kwargs_get kwargs "color" (PStr "#4ECDC4")))
  else if String.eqb mode "element" then Ok ElementColorTheme
  else if String.eqb mode "residue" then Ok ResidueColorTheme
  else if String.eqb mode "chain" then
    Ok (ChainColorTheme_init (kwargs_get kwargs "custom_colors" PNone))
  else if String.eqb mode "secondary" then
    Ok (SecondaryStructureTheme_init
          (kwargs_get kwargs "helix_color" PNone)
          (kwargs_get kwargs "sheet_color" PNone)
          (kwargs_get kwargs "coil_color" PNone))
  else if String.eqb mode "rainbow" then
    RainbowColorTheme_init (kwargs_get kwargs "palette" (PStr "rainbow"))
  else if String.eqb mode "plddt" then Ok PLDDTColorTheme
  else Raise (ValueError (UnknownColorMode mode)).

(** [_hex_to_int]: [int(hex_color.replace('#', ''), 16)]; only a [str]
    has [replace]. *)
Definition _hex_to_int (hex_color : pyval) : result Z :=
  match hex_color with
  | PStr s => PyInt.of_hex (PyStr.remove_char "#" s)
  | _ => Raise AttributeError
  end.

(** The dictionary [{'name': ..., 'params': ...}] of [to_molstar_config]. *)
Record config : Type := Config {
  config_name : string;
  config_params : dict pyval
}.

Definition to_molstar_config (t : ColorTheme) : result config :=
  match t with
  | CustomColorTheme color =>
      v ← _hex_to_int color;
      Ok (Config "uniform" [("value", PInt v)])
  | ElementColorTheme => Ok (Config "element-symbol" [])
  | ResidueColorTheme => Ok (Config "residue-name" [])
  | ChainColorTheme custom_colors =>
      if py_truthy custom_colors
      then Ok (Config "custom-chain-colors" [("colors", custom_colors)])
      else Ok (Config "chain-id" [])
  | SecondaryStructureTheme helix_color sheet_color coil_color =>
      h ← _hex_to_int helix_color;
      s ← _hex_to_int sheet_color;
      c ← _hex_to_int coil_color;
      Ok (Config "secondary-structure"
            [ ("colors",
               PDict [ ("name", PStr "custom");
                       ("params",
                        PDict [ ("alphaHelix", PInt h);
                                ("threeTenHelix", PInt h);
                                ("piHelix", PInt h);
                                ("betaStrand", PInt s);
                                ("betaTurn", PInt s);
                                ("coil", PInt c);
                                ("bend", PInt c);
                                ("turn", PInt c);
                                ("dna", PInt c);
                                ("rna", PInt c);
                                ("carbohydrate", PInt c) ]) ]);
              ("saturation", PInt (-1));
              ("lightness", PInt 0) ])
  | RainbowColorTheme palette colors =>
      Ok (Config "rainbow-sequence"
            [ ("palette", PStr palette); ("colors", PList (map PStr colors)) ])
  | PLDDTColorTheme => Ok (Config "plddt-confidence" [])
  end.

(** ** Colour utilities *)

(** [hex_to_rgb] *)
Definition hex_to_rgb (hex_color : string) : result (Z * Z * Z) :=
  let hex_color := PyStr.lstrip_char "#" hex_color in
  r ← PyInt.of_hex (PyStr.take 2 hex_color);
  g ← PyInt.of_hex (PyStr.take 2 (PyStr.drop 2 hex_color));
  b ← PyInt.of_hex (PyStr.take 2 (PyStr.drop 4 hex_color));
  Ok (r, g, b).

(** [rgb_to_hex] *)
Definition rgb_to_hex (r g b : Z) : string :=
  PyStr.upper
    (String "#" (PyInt.format_02x r ++ PyInt.format_02x g ++ PyInt.format_02x b)).

(** [int(c1 + factor * (c2 - c1))] *)
Definition blend_channel (c1 c2 : Z) (factor : spec_float) : result Z :=
  d ← PyFloat.mul_int factor (c2 - c1);
  x ← PyFloat.int_add c1 d;
  PyFloat.to_int x.

(** [interpolate_color] *)
Definition interpolate_color (color1 color2 : string) (factor : spec_float)
  : result string :=
  '(r1, g1, b1) ← hex_to_rgb color1;
  '(r2, g2, b2) ← hex_to_rgb color2;
  r ← blend_channel r1 r2 factor;
  g ← blend_channel g1 g2 factor;
  b ← blend_channel b1 b2 factor;
  Ok (rgb_to_hex r g b).

(** One turn of the loop of [generate_gradient]: the colour appended for
    index [i]. *)
Definition gradient_step (colors : list string) (steps segment_count i : Z)
  : result string :=
  q ← PyFloat.truediv_int i (steps - 1);
  position ← PyFloat.mul_int q segment_count;
  segment_index ← PyFloat.to_int position;
  segment_position ← PyFloat.sub_int position segment_index;
  if segment_count <=? segment_index then py_index colors (-1)
  else
    c1 ← py_index colors segment_index;
    c2 ← py_index colors (segment_index + 1);
    interpolate_color c1 c2 segment_position.

(** [generate_gradient] *)
Definition generate_gradient (colors : list string) (steps : Z)
  : result (list string) :=
  if steps <=? 0 then Ok []
  else if steps =? 1 then (c ← py_index colors 0; Ok [c])
  else if Z.of_nat (length colors) =? 0 then Ok []
  else if Z.of_nat (length colors) =? 1 then
    (c ← py_index colors 0; Ok (replicate (Z.to_nat steps) c))
  else
    let segment_count := Z.of_nat (length colors) - 1 in
    mapM (gradient_step colors steps segment_count) (py_range steps).

(* ================================================================== *)
(** * viewer.py: the viewer object *)
(* ================================================================== *)

(** The dictionary that [addModel] builds for one structure. *)
Record Model : Type := mkModel {
  data : string;
  format : string;
  keepH : bool;
  name : string
}.

(** The attributes of a [MolView].  [rows] and [cols] are [None] outside
    grid mode, where the object has no [grid_models] attribute at all. *)
Record MolView : Type := mkMolView {
  width : Z;
  height : Z;
  viewergrid : option (Z * Z);
  panel : bool;
  rows : option Z;
  cols : option Z;
  total_viewers : Z;
  grid_models : option (list (list (option Model)));
  models : list Model;
  current_model_index : Z;
  color_mode : string;
  color_params : dict pyval;
  background_color : string;
  surface_enabled : bool;
  surface_opacity : Z;
  illustrative_enabled : bool;
  spin_enabled : bool;
  spin_speed : spec_float;
  show_sequence : bool;
  show_animation : bool;
  remove_solvent : bool;
  style_settings : gmap string bool
}.

(** Attribute assignments, one function per group of attributes that a
    method assigns. *)
Definition set_models (self : MolView) (ms : list Model) : MolView :=
  mkMolView (width self) (height self) (viewergrid self) (panel self)
    (rows self) (cols self) (total_viewers self) (grid_models self)
    ms (current_model_index self)
    (color_mode self) (color_params self) (background_color self)
    (surface_enabled self) (surface_opacity self) (illustrative_enabled self)
    (spin_enabled self) (spin_speed self) (show_sequence self)
    (show_animation self) (remove_solvent self) (style_settings self).

Definition set_current_model_index (self : MolView) (idx : Z) : MolView :=
  mkMolView (width self) (height self) (viewergrid self) (panel self)
    (rows self) (cols self) (total_viewers self) (grid_models self)
    (models self) idx
    (color_mode self) (color_params self) (background_color self)
    (surface_enabled self) (surface_opacity self) (illustrative_enabled self)
    (spin_enabled self) (spin_speed self) (show_sequence self)
    (show_animation self) (remove_solvent self) (style_settings self).

Definition set_grid_models (self : MolView) (g : list (list (option Model)))
  : MolView :=
  mkMolView (width self) (height self) (viewergrid self) (panel self)
    (rows self) (cols self) (total_viewers self) (Some g)
    (models self) (current_model_index self)
    (color_mode self) (color_params self) (background_color self)
    (surface_enabled self) (surface_opacity self) (illustrative_enabled self)
    (spin_enabled self) (spin_speed self) (show_sequence self)
    (show_animation self) (remove_solvent self) (style_settings self).

Definition set_color_mode (self : MolView) (mode : string) : MolView :=
  mkMolView (width self) (height self) (viewergrid self) (panel self)
    (rows self) (cols self) (total_viewers self) (grid_models self)
    (models self) (current_model_index self)
    mode (color_params self) (background_color self)
    (surface_enabled self) (surface_opacity self) (illustrative_enabled self)
    (spin_enabled self) (spin_speed self) (show_sequence self)
    (show_animation self) (remove_solvent self) (style_settings self).

Definition set_color_params (self : MolView) (params : dict pyval) : MolView :=
  mkMolView (width self) (height self) (viewergrid self) (panel self)
    (rows self) (cols self) (total_viewers self) (grid_models self)
    (models self) (current_model_index self)
    (color_mode self) params (background_color self)
    (surface_enabled self) (surface_opacity self) (illustrative_enabled self)
    (spin_enabled self) (spin_speed self) (show_sequence self)
    (show_animation self) (remove_solvent self) (style_settings self).

Definition set_background_color (self : MolView) (color : string) : MolView :=
  mkMolView (width self) (height self) (viewergrid self) (panel self)
    (rows self) (cols self) (total_viewers self) (grid_models self)
    (models self) (current_model_index self)
    (color_mode self) (color_params self) color
    (surface_enabled self) (surface_opacity self) (illustrative_enabled self)
    (spin_enabled self) (spin_speed self) (show_sequence self)
    (show_animation self) (remove_solvent self) (style_settings self).

Definition set_surface (self : MolView) (enabled : bool) (opacity : Z) : MolView :=
  mkMolView (width self) (height self) (viewergrid self) (panel self)
    (rows self) (cols self) (total_viewers self) (grid_models self)
    (models self) (current_model_index self)
    (color_mode self) (color_params self) (background_color self)
    enabled opacity (illustrative_enabled self)
    (spin_enabled self) (spin_speed self) (show_sequence self)
    (show_animation self) (remove_solvent self) (style_settings self).

Definition set_illustrative_enabled (self : MolView) (enabled : bool) : MolView :=
  mkMolView (width self) (height self) (viewergrid self) (panel self)
    (rows self) (cols self) (total_viewers self) (grid_models self)
    (models self) (current_model_index self)
    (color_mode self) (color_params self) (background_color self)
    (surface_enabled self) (surface_opacity self) enabled
    (spin_enabled self) (spin_speed self) (show_sequence self)
    (show_animation self) (remove_solvent self) (style_settings self).

Definition set_spin (self : MolView) (enabled : bool) (speed : spec_float)
  : MolView :=
  mkMolView (width self) (height self) (viewergrid self) (panel self)
    (rows self) (cols self) (total_viewers self) (grid_models self)
    (models self) (current_model_index self)
    (color_mode self) (color_params self) (background_color self)
    (surface_enabled self) (surface_opacity self) (illustrative_enabled self)
    enabled speed (show_sequence self)
    (show_animation self) (remove_solvent self) (style_settings self).

Definition set_remove_solvent (self : MolView) (enabled : bool) : MolView :=
  mkMolView (width self) (height self) (viewergrid self) (panel self)
    (rows self) (cols self) (total_viewers self) (grid_models self)
    (models self) (current_model_index self)
    (color_mode self) (color_params self) (background_color self)
    (surface_enabled self) (surface_opacity self) (illustrative_enabled self)
    (spin_enabled self) (spin_speed self) (show_sequence self)
    (show_animation self) enabled (style_settings self).

Definition set_style_settings (self : MolView) (st : gmap string bool) : MolView :=
  mkMolView (width self) (height self) (viewergrid self) (panel self)
    (rows self) (cols self) (total_viewers self) (grid_models self)
    (models self) (current_model_index self)
    (color_mode self) (color_params self) (background_color self)
    (surface_enabled self) (surface_opacity self) (illustrative_enabled self)
    (spin_enabled self) (spin_speed self) (show_sequence self)
    (show_animation self) (remove_solvent self) st.

(** The float literal [0.2]: the binary64 nearest to 1/5. *)
Definition float_0_2 : spec_float := S754_finite false 7205759403792794 (-55).

(** [MolView.__init__].  The argument is typed as the tuple that the
    constructor insists on, so its [ValueError] cannot arise. *)
Definition __init__ (width height : Z) (viewergrid : option (Z * Z))
    (panel : bool) : MolView :=
  let '(rows, cols, total_viewers, grid_models) :=
    match viewergrid with
    | Some (rows, cols) =>
        (Some rows, Some cols, rows * cols,
         Some (map (fun _ => map (fun _ => @None Model) (py_range cols))
                   (py_range rows)))
    | None => (None, None, 1, None)
    end in
  mkMolView width height viewergrid panel rows cols total_viewers grid_models
    [] (-1)
    "element" [] "#FFFFFF" false 40 false false float_0_2 false false false
    {[ "cartoon" := true; "stick" := false; "sphere" := false; "line" := false ]}.

(** [view], the factory function, with its defaults. *)
Definition view (viewergrid : option (Z * Z)) : MolView :=
  __init__ 800 600 viewergrid false.

(** ** Methods

    A method that can raise runs on the object and leaves it in the state
    reached when it returned or raised: [method self = (self', outcome)].
    Assignments to attributes are steps of their own, so that an
    exception after an assignment keeps the assignment. *)
Definition method (A : Type) : Type := MolView -> MolView * result A.

#[global] Instance method_ret : MRet method := fun A a self => (self, Ok a).
#[global] Instance method_bind : MBind method := fun A B k m self =>
  match m self with
  | (self', Ok a) => k a self'
  | (self', Raise e) => (self', Raise e)
  end.

(** A computation that does not touch the object. *)
Definition lift {A} (r : result A) : method A := fun self => (self, r).

(** Reading the object. *)
Definition reads {A} (f : MolView -> result A) : method A :=
  fun self => (self, f self).

(** [self.attribute = value] *)
Definition assign (update : MolView -> MolView) : method unit :=
  fun self => (update self, Ok tt).

(** Reading an attribute that only grid mode sets. *)
Definition attr {A} (a : option A) : result A :=
  match a with
  | Some x => Ok x
  | None => Raise AttributeError
  end.

(** An operand that must be an [int] but may be [None]. *)
Definition int_operand (a : option Z) : result Z :=
  match a with
  | Some x => Ok x
  | None => Raise TypeError
  end.

(** [_get_next_available_cell] *)
Definition _get_next_available_cell (self : MolView) : result (Z * Z) :=
  nrows ← int_operand (rows self);
  found ← for_return (py_range nrows) (fun row =>
    ncols ← int_operand (cols self);
    for_return (py_range ncols) (fun col =>
      g ← attr (grid_models self);
      r ← py_index g row;
      cell ← py_index r col;
      match cell with
      | None => Ok (Some (row, col))
      | Some _ => Ok None
      end));
  match found with
  | Some cell => Ok cell
  | None =>
      ncols ← int_operand (cols self);
      Raise (ValueError (GridFull nrows ncols))
  end.

(** The normalisation of [format] at the head of [addModel]. *)
Definition normalize_format (format : string) : result string :=
  let format := PyStr.lower format in
  if PyStr.in_list format ["cif"; "mmcif"] then Ok "mmcif"
  else if negb (PyStr.in_list format ["pdb"; "sdf"])
  then Raise (ValueError (UnsupportedFormat format))
  else Ok format.

(** [sum(1 for row in self.grid_models for cell in row if cell is not None)] *)
Definition existing_count (g : list (list (option Model))) : Z :=
  Z.of_nat (length (List.filter (fun cell : option Model => bool_decide (cell <> None))
                                (concat g))).

(** [self.grid_models[row][col] = model] for indices already checked
    against [rows] and [cols]. *)
Definition grid_assign (g : list (list (option Model))) (row col : Z) (m : Model)
  : result (list (list (option Model))) :=
  r ← py_index g row;
  _ ← py_index r col;
  Ok (<[Z.to_nat row := <[Z.to_nat col := Some m]> r]> g).

(** [addModel] *)
Definition addModel (data : string) (format : option string)
    (keepH : bool) (viewer : option (Z * Z)) (name : option string)
  : method unit :=
  let format := match format with
                | None => _detect_format data
                | Some f => f
                end in
  format ← lift (normalize_format format);
  grid_mode ← reads (fun self => Ok (viewergrid self));
  match grid_mode with
  | Some _ =>
      name ← match name with
              | Some n => mret n
              | None =>
                  match viewer with
                  | None =>
                      g ← reads (fun self => attr (grid_models self));
                      mret ("Structure " ++ PyStr.of_int (existing_count g + 1))%string
                  | Some (row, col) =>
                      mret ("Structure (" ++ PyStr.of_int row ++ ","
                              ++ PyStr.of_int col ++ ")")%string
                  end
              end;
      let model := mkModel data format keepH name in
      '(row, col) ← match viewer with
                     | None => reads _get_next_available_cell
                     | Some cell => mret cell
                     end;
      nrows ← reads (fun self => int_operand (rows self));
      ncols ← reads (fun self => int_operand (cols self));
      if negb ((0 <=? row) && (row <? nrows) && (0 <=? col) && (col <? ncols))
      then lift (Raise (ValueError (OutOfBounds row col nrows ncols)))
      else
        g ← reads (fun self => attr (grid_models self));
        g' ← lift (grid_assign g row col model);
        assign (fun self => set_grid_models self g')
  | None =>
      name ← match name with
              | Some n => mret n
              | None =>
                  reads (fun self =>
                    Ok ("Structure "
                          ++ PyStr.of_int (Z.of_nat (length (models self)) + 1))%string)
              end;
      let model := mkModel data format keepH name in
      _ ← assign (fun self => set_models self (models self ++ [model])%list);
      assign (fun self =>
        set_current_model_index self (Z.of_nat (length (models self)) - 1))
  end.

(** [setStyle]; [style] is the optional py3dmol dictionary, of which only
    the keys are read. *)
Definition setStyle (self : MolView) (style : option (dict pyval)) : MolView :=
  match style with
  | None => self
  | Some style =>
      let has key := bool_decide (is_Some (dict_get style key)) in
      let st0 := style_settings self in
      let st1 := if has "cartoon" then <["cartoon" := true]> st0 else st0 in
      let st2 := if has "stick" then <["stick" := true]> st1 else st1 in
      let st3 := if has "sphere" then <["sphere" := true]> st2 else st2 in
      set_style_settings self st3
  end.

(** [setColorMode] *)
Definition setColorMode (mode : string) (kwargs : gmap string pyval)
  : method unit :=
  theme ← lift (get_color_theme mode kwargs);
  config ← lift (to_molstar_config theme);
  _ ← assign (fun self => set_color_mode self (config_name config));
  assign (fun self => set_color_params self (config_params config)).

(** [setBackgroundColor] *)
Definition setBackgroundColor (self : MolView) (color : string) : MolView :=
  set_background_color self color.

(** [setSurface] *)
Definition setSurface (self : MolView) (enabled : bool) (opacity : Z)
    (inherit_color : bool) (color : option string) : MolView :=
  let self := set_surface self enabled (Z.max 0 (Z.min 100 opacity)) in
  match color with
  | Some c =>
      if negb inherit_color && negb (PyStr.is_empty c)
      then set_color_params self (dict_set (color_params self) "surface_color" (PStr c))
      else self
  | None => self
  end.

(** [setIllustrativeStyle], [spin], [removeSolvent] *)
Definition setIllustrativeStyle (self : MolView) (enabled : bool) : MolView :=
  set_illustrative_enabled self enabled.

Definition spin (self : MolView) (enabled : bool) (speed : spec_float) : MolView :=
  set_spin self enabled speed.

Definition removeSolvent (self : MolView) (enabled : bool) : MolView :=
  set_remove_solvent self enabled.

(** [clear] *)
Definition clear (self : MolView) : MolView :=
  let self := set_models self [] in
  set_current_model_index self (-1).

(** [removeAllModels] *)
Definition removeAllModels (self : MolView) : MolView := clear self.

(* ================================================================== *)
(** * query.py: remote fetch *)
(* ================================================================== *)

Section Query.

(** The network.  [urlopen_read url] is the outcome of the block
    [with urllib.request.urlopen(url) as response:
       data = response.read().decode('utf-8')]:
    the decoded body, or the exception that the block raises. *)
Variable urlopen_read : string -> result string.

Definition rcsb_url (pdb_id extension : string) : string :=
  "https://files.rcsb.org/download/" ++ pdb_id ++ "." ++ extension.

Definition alphafold_url (uniprot_id : string) (version : Z) : string :=
  "https://alphafold.ebi.ac.uk/files/AF-" ++ uniprot_id ++ "-F1-model_v"
    ++ PyStr.of_int version ++ ".cif".

(** [fetch_pdb] *)
Definition fetch_pdb (pdb_id : string) (format : string) : result string :=
  let pdb_id := PyStr.upper (PyStr.strip pdb_id) in
  let format := PyStr.lower format in
  if negb (PyStr.in_list format ["pdb"; "mmcif"; "cif"])
  then Raise (ValueError (BadFetchFormat format))
  else
    let format := if String.eqb format "cif" then "mmcif" else format in
    let url := if String.eqb format "pdb"
               then rcsb_url pdb_id "pdb"
               else rcsb_url pdb_id "cif" in
    match urlopen_read url with
    | Ok data => Ok data
    | Raise (HTTPError code reason) =>
        if code =? 404
        then Raise (ValueError (PdbIdNotFound pdb_id))
        else Raise (HTTPError code reason)
    | Raise e => Raise e
    end.

(** [query], the alias of [fetch_pdb] *)
Definition query (pdb_id : string) (format : string) : result string :=
  fetch_pdb pdb_id format.

(** [fetch_alphafold] *)
Definition fetch_alphafold (uniprot_id : string) (version : Z) : result string :=
  let uniprot_id := PyStr.upper (PyStr.strip uniprot_id) in
  let url := alphafold_url uniprot_id version in
  match urlopen_read url with
  | Ok data => Ok data
  | Raise (HTTPError code reason) =>
      if code =? 404
      then Raise (ValueError (UniprotIdNotFound uniprot_id version))
      else Raise (HTTPError code reason)
  | Raise e => Raise e
  end.

End Query.

(* ================================================================== *)
(** * Vocabulary of the specification *)
(* ================================================================== *)

(** ** Texts and lines *)

(** A text of whitespace only. *)
Fixpoint all_space (s : string) : bool :=
  match s with
  | EmptyString => true
  | String c s' => PyStr.is_space c && all_space s'
  end.

(** The text up to the first line feed. *)
Fixpoint first_line (s : string) : string :=
  match s with
  | EmptyString => EmptyString
  | String c s' => if Ascii.eqb c newline then EmptyString else String c (first_line s')
  end.

(** A line feed, as a text. *)
Definition nl : string := String newline EmptyString.

(** A text without whitespace. *)
Fixpoint no_space (s : string) : bool :=
  match s with
  | EmptyString => true
  | String c s' => negb (PyStr.is_space c) && no_space s'
  end.

(** The first line of the text, as cut at line feeds, that is not blank. *)
Definition first_nonblank_line (data : string) : option string :=
  List.find (fun line => negb (all_space line)) (PyStr.split newline data).

(** [marker] occurs in [data] up to the case of letters. *)
Definition occurs_ci (marker data : string) : Prop :=
  exists pre w post,
    data = (pre ++ w ++ post)%string /\ PyStr.upper w = PyStr.upper marker.

Definition sdf_markers : list string := ["$$$$"; "M  END"; "V2000"; "V3000"].

Definition mmcif_keywords : list string := ["loop_"; "_atom_site"; "_cell"].

(** Rule 1: the first non-blank line, stripped, starts with [data_]. *)
Definition mmcif_data_line (data : string) : Prop :=
  exists line,
    first_nonblank_line data = Some line /\
    PyStr.startswith "data_" (PyStr.lower (PyStr.strip line)) = true.

(** Rule 2: one of the first 50 lines of the text, counted from the
    first character that is not whitespace, starts with an mmCIF keyword
    once its own outer whitespace is removed, whatever the case of its
    letters. *)
Definition mmcif_keyword_line (data : string) : Prop :=
  exists (i : nat) line k,
    (i < 50)%nat /\
    PyStr.split newline (PyStr.strip data) !! i = Some line /\
    In k mmcif_keywords /\
    PyStr.startswith k (PyStr.lower (PyStr.strip line)) = true.

(** Rule 2 in the words of the specification: one of the first 50
    non-blank lines starts with an mmCIF keyword. *)
Definition mmcif_keyword_nonblank (data : string) : Prop :=
  exists line k,
    In line (firstn 50 (List.filter (fun l => negb (all_space l))
                          (PyStr.split newline (PyStr.strip data)))) /\
    In k mmcif_keywords /\
    PyStr.startswith k (PyStr.lower (PyStr.strip line)) = true.

(** Rule 3: an SDF marker occurs somewhere in the text. *)
Definition sdf_marker (data : string) : Prop :=
  exists m, In m sdf_markers /\ occurs_ci m data.

(** The test of rule 2 on one line. *)
Definition starts_mmcif_keyword (line : string) : bool :=
  existsb (fun k => PyStr.startswith k (PyStr.lower line)) mmcif_keywords.

(** The test of rule 3. *)
Definition contains_sdf_marker (data : string) : bool :=
  existsb (fun m => PyStr.contains m (PyStr.upper data)) sdf_markers.

(** No line of the whole text, stripped, starts with an mmCIF keyword. *)
Definition no_mmcif_keyword (data : string) : Prop :=
  forall line,
    In line (PyStr.split newline data) ->
    starts_mmcif_keyword (PyStr.strip line) = false.

(** ** Grids *)

(** The content of a cell: [None] outside the lists, [Some None] for an
    empty cell. *)
Definition cell (g : list (list (option Model))) (row col : Z)
  : option (option Model) :=
  if (0 <=? row) && (0 <=? col)
  then r ← g !! Z.to_nat row; r !! Z.to_nat col
  else None.

Definition in_grid (nrows ncols row col : Z) : Prop :=
  0 <= row < nrows /\ 0 <= col < ncols.

Definition occupied (g : list (list (option Model))) (row col : Z) : Prop :=
  exists m, cell g row col = Some (Some m).

(** Row-major order of cells. *)
Definition row_major_before (row col row' col' : Z) : Prop :=
  row < row' \/ (row = row' /\ col < col').

Definition first_empty_cell (g : list (list (option Model)))
    (nrows ncols row col : Z) : Prop :=
  in_grid nrows ncols row col /\
  cell g row col = Some None /\
  forall r c, in_grid nrows ncols r c -> row_major_before r c row col ->
              occupied g r c.

Definition grid_full (g : list (list (option Model))) (nrows ncols : Z) : Prop :=
  forall r c, in_grid nrows ncols r c -> occupied g r c.

(** A viewer built in grid mode: the attributes that [__init__] sets
    together, and a grid of [nrows] lists of [ncols] cells. *)
Record grid_viewer (self : MolView) (nrows ncols : Z)
    (g : list (list (option Model))) : Prop := {
  gv_viewergrid : viewergrid self = Some (nrows, ncols);
  gv_rows : rows self = Some nrows;
  gv_cols : cols self = Some ncols;
  gv_grid : grid_models self = Some g;
  gv_length : length g = Z.to_nat nrows;
  gv_row_length : Forall (fun r => length r = Z.to_nat ncols) g
}.

(** The format that [addModel] stores for its arguments. *)
Definition resolved_format (data : string) (format : option string)
  : result string :=
  normalize_format (match format with
                    | None => _detect_format data
                    | Some f => f
                    end).

(** The name that [addModel] gives in grid mode when none is passed:
    numbered by the structures already in the grid for an automatic
    placement, by the cell for an explicit one. *)
Definition grid_default_name (g : list (list (option Model)))
    (viewer : option (Z * Z)) : string :=
  match viewer with
  | None => "Structure " ++ PyStr.of_int (existing_count g + 1)
  | Some (row, col) =>
      "Structure (" ++ PyStr.of_int row ++ "," ++ PyStr.of_int col ++ ")"
  end.

(** The name in linear mode: numbered by the structures already loaded. *)
Definition linear_default_name (ms : list Model) : string :=
  "Structure " ++ PyStr.of_int (Z.of_nat (length ms) + 1).

(** The structure stored for an automatic placement without format or
    name, as the [k]-th structure of a grid. *)
Definition auto_model (data : string) (k : Z) : Model :=
  mkModel data (_detect_format data) false ("Structure " ++ PyStr.of_int k).

(** [addModel(d)] for each [d] in turn, stopping at the first exception. *)
Fixpoint add_all (ds : list string) : method unit :=
  match ds with
  | [] => mret tt
  | d :: ds' => _ ← addModel d None false None None; add_all ds'
  end.

(** ** Remote fetch *)

(** The address that [fetch_pdb] requests for an accepted format. *)
Definition fetch_pdb_url (pdb_id format : string) : string :=
  rcsb_url (PyStr.upper (PyStr.strip pdb_id))
    (if String.eqb (PyStr.lower format) "pdb" then "pdb" else "cif").

(** The address that [fetch_alphafold] requests. *)
Definition fetch_alphafold_url (uniprot_id : string) (version : Z) : string :=
  alphafold_url (PyStr.upper (PyStr.strip uniprot_id)) version.

(** ** Colour modes *)

(** The mode names that [get_color_theme] knows. *)
Definition color_modes : list string :=
  ["custom"; "element"; "residue"; "chain"; "secondary"; "rainbow"; "plddt"].

(** ** Blending *)

(** The binary64 value 0.5. *)
Definition float_half : spec_float :=
  S754_finite false 4503599627370496 (-53).

(** [n] is the float [x] cut towards zero: the integer with the sign of
    [x] whose magnitude [a] satisfies [a <= |x| < a + 1], where [|x|] is
    [m * 2^e]. *)
Definition truncated (x : spec_float) (n : Z) : Prop :=
  match x with
  | S754_zero _ => n = 0
  | S754_finite s m e =>
      exists a,
        n = (if s then - a else a) /\
        a * 2 ^ Z.max 0 (- e) <= Zpos m * 2 ^ Z.max 0 e
          < (a + 1) * 2 ^ Z.max 0 (- e)
  | S754_infinity _ | S754_nan => False
  end.



(** Two viewers that differ at most in [color_mode] and [color_params]. *)
Definition same_but_color (a b : MolView) : Prop :=
  b = set_color_params (set_color_mode a (color_mode b)) (color_params b).

(** Running a method: the monad operations unfolded to their matches. *)
Ltac run_method :=
  unfold mbind, method_bind, result_bind, mret, method_ret, lift, reads, assign.

(** Case analysis on every test and outcome inside a call that is
    known to have raised or returned. *)
Ltac split_call H :=
  repeat (cbv beta iota in H;
          match type of H with
          | context [match ?x with _ => _ end] =>
              lazymatch x with
              | context [match _ with _ => _ end] => fail
              | _ => destruct x eqn:?
              end
          end);
  cbv beta iota in H.

(* ================================================================== *)
(** * viewer.py: the remaining methods *)
(* ================================================================== *)

(** [getModel] *)
Definition getModel (self : MolView) (model_id : Z) : result (option Model) :=
  if (0 <=? model_id) && (model_id <? Z.of_nat (length (models self)))
  then m ← py_index (models self) model_id; Ok (Some m)
  else Ok None.

(** [addSurface]: its arguments are not read; the call is
    [self.setSurface(True)] with the defaults of [setSurface]. *)
Definition addSurface (self : MolView) : MolView :=
  setSurface self true 40 true None.

(** [zoomTo], [setViewStyle], [addLabel]: they return [self] as it is. *)
Definition zoomTo (self : MolView) : MolView := self.
Definition setViewStyle (self : MolView) : MolView := self.
Definition addLabel (self : MolView) : MolView := self.

(** [setLayout]: [None] stands for its [ValueError], raised for a mode
    that is neither ['single'] nor ['grid']. *)
Definition setLayout (self : MolView) (mode : string) : option MolView :=
  if negb (PyStr.in_list mode ["single"; "grid"]) then None else Some self.

(** ** [_calculate_grid_dimensions] *)

(** What [math.sqrt], [math.ceil] and the division can raise there. *)
Inductive math_error : Type :=
  | MathDomainError            (* ValueError: math domain error *)
  | MathRaised (e : exn).      (* an exception of the conversions *)

Definition math_lift {A} (r : result A) : math_error + A :=
  match r with
  | Ok a => inr a
  | Raise e => inl (MathRaised e)
  end.

(** [math.sqrt(n)] for an [int]: the square root of [float(n)], correctly
    rounded. *)
Definition math_sqrt (n : Z) : math_error + spec_float :=
  match math_lift (PyFloat.of_int n) with
  | inl e => inl e
  | inr x =>
      match x with
      | S754_finite true _ _ => inl MathDomainError
      | _ => inr (SFsqrt PyFloat.prec PyFloat.emax x)
      end
  end.

(** [math.ceil(x)] for a [float]. *)
Definition math_ceil (x : spec_float) : math_error + Z :=
  match x with
  | S754_zero _ => inr 0
  | S754_infinity _ => inl (MathRaised OverflowError)
  | S754_nan => inl (MathRaised (ValueError FloatNaNToInt))
  | S754_finite s m e =>
      match e with
      | Z0 => inr (if s then Zneg m else Zpos m)
      | Zpos k => inr ((if s then Zneg m else Zpos m) * 2 ^ Zpos k)
      | Zneg k =>
          inr (if s then - (Zpos m / 2 ^ Zpos k)
               else (Zpos m + 2 ^ Zpos k - 1) / 2 ^ Zpos k)
      end
  end.

Definition _calculate_grid_dimensions (num_models : Z) : math_error + (Z * Z) :=
  if num_models =? 0 then inr (1, 1)
  else
    match math_sqrt num_models with
    | inl e => inl e
    | inr root =>
        match math_ceil root with
        | inl e => inl e
        | inr nrows =>
            match math_lift (PyFloat.truediv_int num_models nrows) with
            | inl e => inl e
            | inr q =>
                match math_ceil q with
                | inl e => inl e
                | inr ncols => inr (nrows, ncols)
                end
            end
        end
    end.

(** ** The structure that [_generate_single_html] substitutes *)

Definition backslash : ascii := ascii_of_nat 92.
Definition dquote : ascii := ascii_of_nat 34.
Definition carriage_return : ascii := ascii_of_nat 13.

(** [s.replace(old, new)] for a one-character [old]. *)
Fixpoint replace_char (old : ascii) (new : string) (s : string) : string :=
  match s with
  | EmptyString => EmptyString
  | String c s' =>
      if Ascii.eqb c old then new ++ replace_char old new s'
      else String c (replace_char old new s')
  end.

(** The four replacements on [model['data']], backslashes first. *)
Definition js_escape (data : string) : string :=
  replace_char carriage_return "\r"
    (replace_char newline "\n"
       (replace_char dquote (String backslash (String dquote EmptyString))
          (replace_char backslash "\\" data))).

(** [structure_data] and [structure_format] of [_generate_single_html]:
    the escaped text and the format of the current model, or the empty
    text and [pdb] when the index is outside the list. *)
Definition current_structure (self : MolView) : result (string * string) :=
  let idx := current_model_index self in
  if (0 <=? idx) && (idx <? Z.of_nat (length (models self)))
  then
    model ← py_index (models self) idx;
    Ok (js_escape (data model), format model)
  else Ok ("", "pdb").

(* ================================================================== *)
(** * query.py: search *)
(* ================================================================== *)

(** What [json.loads] returns. *)
Inductive json : Type :=
  | JNull
  | JBool (b : bool)
  | JInt (n : Z)
  | JFloat (x : spec_float)
  | JStr (s : string)
  | JArr (l : list json)
  | JObj (d : list (string * json)).

(** The exceptions that the handling of the response can raise. *)
Inductive lookup_error : Type :=
  | JTypeError
  | JKeyError (key : string).

(** What [search_pdb] prints: [Search failed: e] for an [HTTPError],
    [Search error: e] for any other exception. *)
Inductive search_log : Type :=
  | SearchFailed (e : exn)
  | SearchError (e : exn)
  | SearchErrorLookup (e : lookup_error).

Definition json_truthy (v : json) : bool :=
  match v with
  | JNull => false
  | JBool b => b
  | JInt n => negb (n =? 0)
  | JFloat x => match x with S754_zero _ => false | _ => true end
  | JStr s => negb (PyStr.is_empty s)
  | JArr l => match l with [] => false | _ => true end
  | JObj d => match d with [] => false | _ => true end
  end.

(** [key in v] for a string [key]. *)
Definition json_contains (key : string) (v : json) : lookup_error + bool :=
  match v with
  | JObj d => inr (bool_decide (is_Some (dict_get d key)))
  | JArr l =>
      inr (existsb (fun x => match x with
                             | JStr s => String.eqb s key
                             | _ => false
                             end) l)
  | JStr s => inr (PyStr.contains key s)
  | JNull | JBool _ | JInt _ | JFloat _ => inl JTypeError
  end.

(** [v[key]] for a string [key]. *)
Definition json_getitem (v : json) (key : string) : lookup_error + json :=
  match v with
  | JObj d =>
      match dict_get d key with
      | Some x => inr x
      | None => inl (JKeyError key)
      end
  | _ => inl JTypeError
  end.

Fixpoint chars_of (s : string) : list json :=
  match s with
  | EmptyString => []
  | String c s' => JStr (String c EmptyString) :: chars_of s'
  end.

(** The values that [for entry in v] runs through. *)
Definition json_iter (v : json) : lookup_error + list json :=
  match v with
  | JArr l => inr l
  | JObj d => inr (map (fun kv => JStr (fst kv)) d)
  | JStr s => inr (chars_of s)
  | JNull | JBool _ | JInt _ | JFloat _ => inl JTypeError
  end.

(** [[entry['identifier'] for entry in entries]] *)
Fixpoint identifiers (entries : list json) : lookup_error + list json :=
  match entries with
  | [] => inr []
  | entry :: rest =>
      match json_getitem entry "identifier" with
      | inl e => inl e
      | inr x =>
          match identifiers rest with
          | inl e => inl e
          | inr xs => inr (x :: xs)
          end
      end
  end.

(** The body of the [with] block of [search_pdb], on the parsed response. *)
Definition read_result_set (response : json) : lookup_error + list json :=
  match json_contains "result_set" response with
  | inl e => inl e
  | inr false => inr []
  | inr true =>
      match json_getitem response "result_set" with
      | inl e => inl e
      | inr entries =>
          if json_truthy entries then
            match json_iter entries with
            | inl e => inl e
            | inr l => identifiers l
            end
          else inr []
      end
  end.

Definition search_url : string := "https://search.rcsb.org/rcsbsearch/v2/query".

Section Search.

(** The network.  [post_query url value rows] is the outcome of the
    request to [url] with the text query for [value], paginated from 0
    with [rows] rows, followed by
    [json.loads(response.read().decode('utf-8'))]. *)
Variable post_query : string -> string -> Z -> result json.

(** [search_pdb]: the identifiers returned and the lines printed. *)
Definition search_pdb (query_text : string) (max_results : Z)
  : list json * list search_log :=
  match post_query search_url query_text max_results with
  | Raise (HTTPError code reason) => ([], [SearchFailed (HTTPError code reason)])
  | Raise e => ([], [SearchError e])
  | Ok response =>
      match read_result_set response with
      | inl e => ([], [SearchErrorLookup e])
      | inr ids => (ids, [])
      end
  end.

End Search.

(* ================================================================== *)
(** * Vocabulary for the viewer as a state machine *)
(* ================================================================== *)

(** One call of a method of the viewer. *)
Inductive call : Type :=
  | CallAddModel (data : string) (format : option string) (keepH : bool)
      (viewer : option (Z * Z)) (name : option string)
  | CallSetStyle (style : option (dict pyval))
  | CallSetColorMode (mode : string) (kwargs : gmap string pyval)
  | CallSetBackgroundColor (color : string)
  | CallSetSurface (enabled : bool) (opacity : Z) (inherit_color : bool)
      (color : option string)
  | CallSetIllustrativeStyle (enabled : bool)
  | CallSpin (enabled : bool) (speed : spec_float)
  | CallRemoveSolvent (enabled : bool)
  | CallClear
  | CallAddSurface.

(** The viewer after the call, whether it returned or raised. *)
Definition after (c : call) (self : MolView) : MolView :=
  match c with
  | CallAddModel data format keepH viewer name =>
      fst (addModel data format keepH viewer name self)
  | CallSetStyle style => setStyle self style
  | CallSetColorMode mode kwargs => fst (setColorMode mode kwargs self)
  | CallSetBackgroundColor color => setBackgroundColor self color
  | CallSetSurface enabled opacity inherit_color color =>
      setSurface self enabled opacity inherit_color color
  | CallSetIllustrativeStyle enabled => setIllustrativeStyle self enabled
  | CallSpin enabled speed => spin self enabled speed
  | CallRemoveSolvent enabled => removeSolvent self enabled
  | CallClear => clear self
  | CallAddSurface => addSurface self
  end.

(** The viewers that a program can hold: built by [__init__], then
    changed by calls. *)
Inductive reachable : MolView -> Prop :=
  | reachable_init width height viewergrid panel :
      reachable (__init__ width height viewergrid panel)
  | reachable_call c self :
      reachable self -> reachable (after c self).

Definition known_format (m : Model) : Prop :=
  In (format m) ["pdb"; "mmcif"; "sdf"].

Definition cell_known_format (c : option Model) : Prop :=
  match c with
  | Some m => known_format m
  | None => True
  end.

(** The names that [setColorMode] can store, and the one of [__init__]. *)
Definition config_names : list string :=
  ["uniform"; "element-symbol"; "residue-name"; "custom-chain-colors";
   "chain-id"; "secondary-structure"; "rainbow-sequence"; "plddt-confidence"].

(** What holds of every viewer a program can hold. *)
Record viewer_invariant (self : MolView) : Prop := {
  inv_index :
    current_model_index self = Z.of_nat (length (models self)) - 1;
  inv_mode :
    match viewergrid self with
    | Some (nrows, ncols) =>
        (exists g, grid_viewer self nrows ncols g /\
                   Forall (Forall cell_known_format) g) /\
        models self = [] /\ total_viewers self = nrows * ncols
    | None =>
        rows self = None /\ cols self = None /\ grid_models self = None /\
        total_viewers self = 1
    end;
  inv_formats : Forall known_format (models self);
  inv_opacity : 0 <= surface_opacity self <= 100;
  inv_cartoon : style_settings self !! "cartoon" = Some true;
  inv_color_mode : In (color_mode self) ("element" :: config_names)
}.

(** The number of cells of a grid of [nrows] lists of [ncols] cells. *)
Definition capacity (nrows ncols : Z) : Z := Z.max 0 nrows * Z.max 0 ncols.

(** Inverse of [js_escape]: reads the four escapes back; [None] on a
    backslash that starts none of them. *)
Fixpoint js_unescape (s : string) : option string :=
  match s with
  | EmptyString => Some EmptyString
  | String c s' =>
      if Ascii.eqb c backslash then
        match s' with
        | String d s'' =>
            let rest := js_unescape s'' in
            if Ascii.eqb d backslash then option_map (String backslash) rest
            else if Ascii.eqb d dquote then option_map (String dquote) rest
            else if Ascii.eqb d "n" then option_map (String newline) rest
            else if Ascii.eqb d "r" then option_map (String carriage_return) rest
            else None
        | EmptyString => None
        end
      else option_map (String c) (js_unescape s')
  end.

(* ================================================================== *)
(** * Properties of the string operations *)
(* ================================================================== *)

(** The builtins on the inputs that fix their corner cases. *)
Example of_hex_examples :
  PyInt.of_hex "4ECDC4" = Ok 5164484 /\
  PyInt.of_hex " 0x_Ff " = Ok 255 /\
  PyInt.of_hex "-f_f" = Ok (-255) /\
  PyInt.of_hex "f__f" = Raise (ValueError (InvalidLiteral "f__f")) /\
  PyInt.of_hex "0x" = Raise (ValueError (InvalidLiteral "0x")) /\
  PyInt.of_hex "" = Raise (ValueError (InvalidLiteral "")) /\
  PyInt.of_hex "#ff" = Raise (ValueError (InvalidLiteral "#ff")).
Proof. repeat split. Qed.

Example format_02x_examples :
  map PyInt.format_02x [0; 10; 127; 255; 256; -1; -255]
    = ["00"; "0a"; "7f"; "ff"; "100"; "-1"; "-ff"].
Proof. reflexivity. Qed.

Example of_int_examples :
  map PyStr.of_int [0; 12; -3] = ["0"; "12"; "-3"].
Proof. reflexivity. Qed.

Example float_examples :
  PyFloat.truediv_int 1 5 = Ok float_0_2 /\
  (x ← PyFloat.truediv_int 7 2; PyFloat.to_int x) = Ok 3 /\
  (x ← PyFloat.truediv_int (-7) 2; PyFloat.to_int x) = Ok (-3).
Proof. repeat split. Qed.

Example split_examples :
  PyStr.split newline "" = [""] /\
  PyStr.split newline ("a" ++ nl) = ["a"; ""] /\
  PyStr.strip (" " ++ nl ++ " a b " ++ nl) = "a b".
Proof. repeat split. Qed.

Module PyStrFacts.
Import PyStr.

Lemma is_empty_true s : is_empty s = true <-> s = "".
Proof. destruct s; simpl; split; congruence. Qed.

Lemma newline_is_space : is_space newline = true.
Proof. reflexivity. Qed.

Lemma eqb_newline_space c : Ascii.eqb c newline = true -> is_space c = true.
Proof. intros H. apply Ascii.eqb_eq in H. subst c. reflexivity. Qed.

Lemma rstrip_all_space s : is_empty (rstrip s) = all_space s.
Proof.
  induction s as [|c s IH]; simpl; [reflexivity|].
  rewrite IH. destruct (is_space c), (all_space s); reflexivity.
Qed.

Lemma lstrip_all_space s : is_empty (lstrip s) = all_space s.
Proof.
  induction s as [|c s IH]; simpl; [reflexivity|].
  destruct (is_space c); simpl; [exact IH | reflexivity].
Qed.

(** What [lstrip] leaves is empty or starts with a character that is not
    whitespace. *)
Lemma lstrip_head s :
  match lstrip s with
  | EmptyString => all_space s = true
  | String c _ => is_space c = false /\ all_space s = false
  end.
Proof.
  induction s as [|c s IH]; simpl; [reflexivity|].
  destruct (is_space c) eqn:Hc; simpl.
  - exact IH.
  - rewrite Hc. split; reflexivity.
Qed.

Lemma lstrip_id c s : is_space c = false -> lstrip (String c s) = String c s.
Proof. intros H. simpl. rewrite H. reflexivity. Qed.

Lemma rstrip_cons c s :
  is_space c = false -> rstrip (String c s) = String c (rstrip s).
Proof. intros H. simpl. rewrite H. reflexivity. Qed.

Lemma strip_all_space s : is_empty (strip s) = all_space s.
Proof.
  unfold strip. pose proof (lstrip_head s) as H.
  destruct (lstrip s) as [|c r] eqn:E.
  - simpl. symmetry. exact H.
  - destruct H as [Hc Hs]. rewrite rstrip_cons by exact Hc. simpl.
    symmetry. exact Hs.
Qed.

Lemma all_space_first_line s : all_space s = true -> all_space (first_line s) = true.
Proof.
  induction s as [|c s IH]; simpl; [reflexivity|].
  intros H. apply andb_true_iff in H as [Hc Hs].
  destruct (Ascii.eqb c newline); simpl; [reflexivity|].
  rewrite Hc. simpl. apply IH, Hs.
Qed.

Lemma split_head s : exists t, split newline s = first_line s :: t.
Proof.
  induction s as [|c s [t IH]]; simpl.
  - eexists. reflexivity.
  - destruct (Ascii.eqb c newline).
    + eexists. reflexivity.
    + rewrite IH. eexists. reflexivity.
Qed.

(** A first line without line feed is the first piece of the split. *)
Lemma split_line_app a b :
  first_line a = a ->
  split newline (a ++ String newline b)%string = a :: split newline b.
Proof.
  induction a as [|c a IH]; simpl; intros H.
  - reflexivity.
  - destruct (Ascii.eqb c newline); [discriminate|].
    injection H as H. rewrite (IH H). reflexivity.
Qed.

(** Stripping the text on the right does not change its first line, up
    to the whitespace at the end of that line. *)
Lemma rstrip_first_line s :
  rstrip (first_line (rstrip s)) = rstrip (first_line s).
Proof.
  induction s as [|c s IH]; [reflexivity|].
  simpl rstrip at 2. simpl first_line at 2.
  destruct (Ascii.eqb c newline) eqn:Hnl.
  - destruct (is_space c && is_empty (rstrip s)); simpl; [reflexivity|].
    rewrite Hnl. reflexivity.
  - destruct (is_space c && is_empty (rstrip s)) eqn:Hb.
    + apply andb_true_iff in Hb as [Hc He].
      rewrite rstrip_all_space in He.
      simpl. rewrite Hc, rstrip_all_space, (all_space_first_line _ He).
      reflexivity.
    + simpl first_line. rewrite Hnl. simpl rstrip. rewrite IH. reflexivity.
Qed.

Lemma strip_comm s : lstrip (rstrip s) = rstrip (lstrip s).
Proof.
  induction s as [|c s IH]; [reflexivity|].
  simpl. destruct (is_space c) eqn:Hc; simpl.
  - rewrite rstrip_all_space.
    destruct (all_space s) eqn:Hs; simpl.
    + pose proof (lstrip_all_space s) as Hl. rewrite Hs in Hl.
      apply is_empty_true in Hl. rewrite Hl. reflexivity.
    + rewrite ?Hc. exact IH.
  - rewrite ?Hc. simpl. rewrite ?Hc. reflexivity.
Qed.

(** What [strip] leaves depends on what [rstrip] leaves only. *)
Lemma strip_by_rstrip a b : rstrip a = rstrip b -> strip a = strip b.
Proof. intros H. unfold strip. rewrite <- !strip_comm, H. reflexivity. Qed.

Lemma rstrip_cons_congr c a b :
  rstrip a = rstrip b -> rstrip (String c a) = rstrip (String c b).
Proof. intros H. simpl. rewrite H. reflexivity. Qed.

Lemma all_space_lines s :
  all_space s = true -> forall l, In l (split newline s) -> all_space l = true.
Proof.
  induction s as [|c s IH]; simpl; intros Hs l Hl.
  - destruct Hl as [<-|[]]. reflexivity.
  - apply andb_true_iff in Hs as [Hc Hs].
    destruct (Ascii.eqb c newline).
    + destruct Hl as [<-|Hl]; [reflexivity | exact (IH Hs _ Hl)].
    + destruct (split_head s) as [t Ht]. rewrite Ht in IH, Hl.
      destruct Hl as [<-|Hl].
      * simpl. rewrite Hc. apply (IH Hs). left. reflexivity.
      * apply (IH Hs). right. exact Hl.
Qed.

(** The lines of the text stripped on the right are, place by place,
    lines of the text, up to whitespace at their end. *)
Lemma split_rstrip s : forall i l',
  split newline (rstrip s) !! i = Some l' ->
  exists l, split newline s !! i = Some l /\ rstrip l' = rstrip l.
Proof.
  induction s as [|c s IH]; intros i l' H.
  - exists l'. auto.
  - simpl rstrip in H.
    destruct (is_space c && is_empty (rstrip s)) eqn:E.
    + apply andb_true_iff in E as [Hc Hs]. rewrite rstrip_all_space in Hs.
      destruct i as [|i]; [|destruct i; discriminate].
      injection H as <-.
      destruct (split_head (String c s)) as [t Ht]. rewrite Ht.
      exists (first_line (String c s)). split; [reflexivity|].
      symmetry. apply is_empty_true. rewrite rstrip_all_space.
      apply all_space_first_line. simpl. rewrite Hc, Hs. reflexivity.
    + simpl in H |- *. destruct (Ascii.eqb c newline).
      * destruct i as [|i].
        -- injection H as <-. exists "". auto.
        -- apply IH, H.
      * destruct (split_head (rstrip s)) as [t' Ht'].
        destruct (split_head s) as [t Ht].
        rewrite Ht' in H. rewrite Ht.
        destruct i as [|i].
        -- injection H as <-. eexists. split; [reflexivity|].
           apply rstrip_cons_congr, rstrip_first_line.
        -- destruct (IH (S i) l') as (l & Hl & Hr).
           { rewrite Ht'. exact H. }
           rewrite Ht in Hl. exists l. auto.
Qed.

(** The lines of the text stripped on the left are lines of the text, up
    to whitespace at their start. *)
Lemma split_lstrip s : forall l',
  In l' (split newline (lstrip s)) ->
  exists l, In l (split newline s) /\ strip l = strip l'.
Proof.
  induction s as [|c s IH]; intros l' H.
  - exists l'. auto.
  - simpl lstrip in H. destruct (is_space c) eqn:Hc.
    + destruct (IH _ H) as (l & Hl & Hs).
      simpl. destruct (Ascii.eqb c newline).
      * exists l. split; [right; exact Hl | exact Hs].
      * destruct (split_head s) as [t Ht]. rewrite Ht in Hl |- *.
        destruct Hl as [<-|Hl].
        -- exists (String c (first_line s)). split; [left; reflexivity|].
           rewrite <- Hs. unfold strip. simpl. rewrite Hc. reflexivity.
        -- exists l. split; [right; exact Hl | exact Hs].
    + exists l'. auto.
Qed.

Lemma lower_char_space c : is_space (lower_char c) = is_space c.
Proof. destruct c as [[] [] [] [] [] [] [] []]; reflexivity. Qed.

Lemma startswith_lower_rstrip p : forall s,
  no_space p = true ->
  startswith p (lower s) = true -> startswith p (lower (rstrip s)) = true.
Proof.
  induction p as [|a p IH]; intros s Hp H; [reflexivity|].
  destruct s as [|b s]; [discriminate|].
  simpl in Hp, H. apply andb_true_iff in Hp as [Ha Hp].
  apply andb_true_iff in H as [Hab H].
  apply Ascii.eqb_eq in Hab. subst a.
  rewrite lower_char_space in Ha. apply negb_true_iff in Ha.
  rewrite (rstrip_cons _ _ Ha). simpl.
  rewrite Ascii.eqb_refl. simpl. apply IH; assumption.
Qed.

(** A line that starts with a keyword still does once stripped. *)
Lemma startswith_lower_strip a p s :
  no_space (String a p) = true ->
  startswith (String a p) (lower s) = true ->
  startswith (String a p) (lower (strip s)) = true.
Proof.
  intros Hp H. unfold strip.
  destruct s as [|b s]; [discriminate|].
  assert (Hb : is_space b = false).
  { simpl in Hp, H. apply andb_true_iff in Hp as [Ha _].
    apply andb_true_iff in H as [Hab _].
    apply Ascii.eqb_eq in Hab. subst a.
    rewrite lower_char_space in Ha. apply negb_true_iff in Ha. exact Ha. }
  rewrite (lstrip_id _ _ Hb). apply startswith_lower_rstrip; assumption.
Qed.

Lemma startswith_prefix p : forall s,
  startswith p s = true <-> exists post, s = (p ++ post)%string.
Proof.
  induction p as [|a p IH]; intros s; simpl.
  - split; [eauto | reflexivity].
  - destruct s as [|b s].
    + split; [discriminate | intros [post H]; discriminate].
    + rewrite andb_true_iff, Ascii.eqb_eq, IH. split.
      * intros [-> [post ->]]. eauto.
      * intros [post H]. injection H as -> ->. eauto.
Qed.

(** [contains] finds exactly the occurrences of a substring. *)
Lemma contains_occurs p : forall s,
  contains p s = true <-> exists pre post, s = (pre ++ p ++ post)%string.
Proof.
  induction s as [|c s IH].
  - simpl. rewrite orb_false_r, startswith_prefix. split.
    + intros [post H]. exists "", post. exact H.
    + intros (pre & post & H). destruct pre; [eauto | discriminate].
  - simpl contains. rewrite orb_true_iff, startswith_prefix, IH. split.
    + intros [[post H] | (pre & post & H)].
      * exists "", post. exact H.
      * exists (String c pre), post. simpl. rewrite H. reflexivity.
    + intros (pre & post & H). destruct pre as [|d pre].
      * left. eauto.
      * right. simpl in H. injection H as _ H. eauto.
Qed.

Lemma map_chars_app f a b :
  map_chars f (a ++ b)%string = (map_chars f a ++ map_chars f b)%string.
Proof. induction a as [|c a IH]; simpl; [reflexivity | rewrite IH; reflexivity]. Qed.

Lemma map_chars_app_inv f a : forall s b,
  map_chars f s = (a ++ b)%string ->
  exists a' b', s = (a' ++ b')%string /\ map_chars f a' = a /\ map_chars f b' = b.
Proof.
  induction a as [|c a IH]; intros s b H.
  - exists "", s. auto.
  - destruct s as [|d s]; [discriminate|].
    simpl in H. injection H as Hc H.
    destruct (IH _ _ H) as (a' & b' & -> & Ha & Hb).
    exists (String d a'), b'. simpl. rewrite Hc, Ha. auto.
Qed.

(** The test on the upper-cased text is the case-insensitive occurrence. *)
Lemma contains_upper_occurs_ci m data :
  contains (upper m) (upper data) = true <-> occurs_ci m data.
Proof.
  rewrite contains_occurs. unfold occurs_ci, upper. split.
  - intros (pre & post & H).
    destruct (map_chars_app_inv _ _ _ _ H) as (pre' & r & -> & Hpre & Hr).
    destruct (map_chars_app_inv _ _ _ _ Hr) as (w & post' & -> & Hw & Hpost).
    exists pre', w, post'. auto.
  - intros (pre & w & post & -> & Hw).
    exists (map_chars upper_char pre), (map_chars upper_char post).
    rewrite !map_chars_app, Hw. reflexivity.
Qed.

End PyStrFacts.

(* ================================================================== *)
(** * Format detection: the rules and their order *)
(* ================================================================== *)

Module DetectFacts.
Import PyStr PyStrFacts.

Lemma first_nonblank_lstrip data : forall line,
  first_nonblank_line data = Some line ->
  lstrip line = first_line (lstrip data) /\ all_space data = false.
Proof.
  unfold first_nonblank_line.
  induction data as [|c s IH]; intros line; simpl.
  - discriminate.
  - destruct (Ascii.eqb c newline) eqn:Hnl.
    + simpl. intros H. rewrite (eqb_newline_space _ Hnl). simpl.
      apply IH, H.
    + destruct (split_head s) as [t Hs]. rewrite Hs in IH |- *.
      simpl in IH |- *.
      destruct (is_space c) eqn:Hc; simpl.
      * destruct (all_space (first_line s)) eqn:Hf; simpl in IH |- *.
        -- intros H. apply IH, H.
        -- intros H. injection H as <-. simpl. rewrite Hc.
           apply (IH (first_line s)). reflexivity.
      * intros H. injection H as <-. simpl. rewrite Hc, Hnl. split; reflexivity.
Qed.

Lemma first_nonblank_none data :
  first_nonblank_line data = None -> all_space data = true.
Proof.
  unfold first_nonblank_line.
  induction data as [|c s IH]; simpl; [reflexivity|].
  destruct (Ascii.eqb c newline) eqn:Hnl.
  - simpl. intros H. rewrite (eqb_newline_space _ Hnl). apply IH, H.
  - destruct (split_head s) as [t Hs]. rewrite Hs in IH |- *.
    simpl in IH |- *.
    destruct (is_space c) eqn:Hc; simpl; [|discriminate].
    destruct (all_space (first_line s)) eqn:Hf; simpl in IH |- *; [|discriminate].
    exact IH.
Qed.

(** The first scanned line is the first non-blank line of the text,
    stripped. *)
Lemma scanned_lines_head data line :
  first_nonblank_line data = Some line ->
  exists rest, scanned_lines data = strip line :: rest.
Proof.
  intros H. destruct (first_nonblank_lstrip _ _ H) as [Hl Hs].
  unfold scanned_lines.
  assert (Hstrip : exists c r, strip data = String c r /\ is_space c = false).
  { unfold strip. pose proof (lstrip_head data) as Hh.
    destruct (lstrip data) as [|c r]; [congruence|].
    destruct Hh as [Hc _]. rewrite (rstrip_cons _ _ Hc). eauto. }
  destruct Hstrip as (c & r & Hd & Hc).
  destruct (split_head (strip data)) as [t Ht]. rewrite Ht.
  assert (Hnl : Ascii.eqb c newline = false).
  { destruct (Ascii.eqb c newline) eqn:Hnl; [|reflexivity].
    rewrite (eqb_newline_space _ Hnl) in Hc. discriminate. }
  assert (Hfl : strip (first_line (strip data)) = strip line).
  { transitivity (rstrip (first_line (strip data))).
    - rewrite Hd. simpl first_line. rewrite Hnl. unfold strip.
      rewrite (lstrip_id _ _ Hc). reflexivity.
    - unfold strip. rewrite rstrip_first_line, Hl. reflexivity. }
  simpl firstn. simpl List.filter.
  rewrite strip_all_space.
  assert (Hne : all_space (first_line (strip data)) = false).
  { rewrite Hd. simpl. rewrite Hnl. simpl. rewrite Hc. reflexivity. }
  rewrite Hne. simpl. rewrite Hfl. eexists. reflexivity.
Qed.

(** Every scanned line is a line of the text, stripped. *)
Lemma scanned_lines_sub data x :
  In x (scanned_lines data) ->
  exists line, In line (split newline data) /\ x = strip line.
Proof.
  unfold scanned_lines. intros H.
  apply in_map_iff in H as (l' & <- & H).
  apply filter_In in H as [H _].
  apply list_elem_of_In, elem_of_take in H as (i & H & _).
  unfold strip at 1 in H.
  destruct (split_rstrip _ _ _ H) as (l1 & H1 & Hr).
  assert (Hin1 : In l1 (split newline (lstrip data))).
  { apply list_elem_of_In. eapply list_elem_of_lookup_2, H1. }
  destruct (split_lstrip _ _ Hin1) as (l & Hl & Hs).
  exists l. split; [exact Hl|].
  rewrite Hs. apply strip_by_rstrip, Hr.
Qed.

Lemma scanned_lines_blank data :
  all_space data = true -> scanned_lines data = [].
Proof.
  intros H. unfold scanned_lines.
  assert (Hs : strip data = "").
  { apply is_empty_true. rewrite strip_all_space. exact H. }
  rewrite Hs. reflexivity.
Qed.

Lemma first_return_test {A R} (test : A -> bool) (r : R) xs :
  first_return xs (fun x => if test x then Some r else None)
  = if existsb test xs then Some r else None.
Proof.
  induction xs as [|x xs IH]; simpl; [reflexivity|].
  destruct (test x); simpl; [reflexivity | exact IH].
Qed.

Lemma first_return_ext {A R} xs (b1 b2 : A -> option R) :
  (forall x, b1 x = b2 x) -> first_return xs b1 = first_return xs b2.
Proof.
  intros H. induction xs as [|x xs IH]; simpl; [reflexivity|].
  rewrite H, IH. reflexivity.
Qed.

Lemma first_return_only {A R} (body : A -> option R) (r : R) xs :
  (forall x v, body x = Some v -> v = r) ->
  match first_return xs body with Some v => v | None => r end = r.
Proof.
  intros Hb. induction xs as [|x xs IH]; simpl; [reflexivity|].
  destruct (body x) as [v|] eqn:E; [exact (Hb _ _ E) | exact IH].
Qed.

(** [_detect_format] as a decision list over the three tests. *)
Lemma detect_format_rules data :
  _detect_format data =
    match scanned_lines data with
    | [] => "pdb"
    | line0 :: _ =>
        if startswith "data_" (lower line0) then "mmcif"
        else if existsb starts_mmcif_keyword (scanned_lines data) then "mmcif"
        else if contains_sdf_marker data then "sdf"
        else "pdb"
    end.
Proof.
  unfold _detect_format.
  destruct (scanned_lines data) as [|line0 lines] eqn:E; [reflexivity|].
  destruct (startswith "data_" (lower line0)); [reflexivity|].
  rewrite (first_return_ext (line0 :: lines) _
             (fun x => if starts_mmcif_keyword x then Some "mmcif" else None)).
  2:{ intros line. unfold starts_mmcif_keyword, mmcif_keywords.
      cbn [existsb]. rewrite orb_false_r, orb_assoc. reflexivity. }
  rewrite first_return_test.
  destruct (existsb starts_mmcif_keyword (line0 :: lines)); [reflexivity|].
  unfold contains_sdf_marker, sdf_markers. cbn [existsb]. rewrite orb_false_r.
  destruct (contains "$$$$" (upper data)); cbn [orb]; [reflexivity|].
  destruct (contains "M  END" (upper data)); cbn [orb]; [reflexivity|].
  destruct (contains "V2000" (upper data)); cbn [orb]; [reflexivity|].
  destruct (contains "V3000" (upper data)); cbn [orb]; [reflexivity|].
  match goal with
  | |- match ?a with Some r => r | None => ?rest end = _ =>
      assert (Hrest : rest = "pdb")
  end.
  { apply first_return_only. intros x v.
    destruct (4 <=? len x); [|discriminate].
    destruct (in_list _ _); [|discriminate]. congruence. }
  rewrite Hrest. apply first_return_only. intros x v.
  destruct (6 <=? len x); [|discriminate].
  destruct (in_list _ _); [|discriminate]. congruence.
Qed.

Lemma contains_sdf_marker_spec data :
  contains_sdf_marker data = true <-> sdf_marker data.
Proof.
  unfold contains_sdf_marker, sdf_marker. rewrite existsb_exists.
  split; intros (m & Hin & H); exists m; (split; [exact Hin|]).
  - apply contains_upper_occurs_ci.
    replace (upper m) with m; [exact H|].
    simpl in Hin. destruct Hin as [<-|[<-|[<-|[<-|[]]]]]; reflexivity.
  - apply contains_upper_occurs_ci in H.
    replace (upper m) with m in H; [exact H|].
    simpl in Hin. destruct Hin as [<-|[<-|[<-|[<-|[]]]]]; reflexivity.
Qed.

(** The scanned lines are the lines of the window that are not blank,
    each without its outer whitespace. *)
Lemma scanned_lines_window data x :
  In x (scanned_lines data) <->
  exists (i : nat) line,
    (i < 50)%nat /\ split newline (strip data) !! i = Some line /\
    x = strip line /\ is_empty (strip line) = false.
Proof.
  unfold scanned_lines. rewrite in_map_iff. split.
  - intros (l & <- & H). apply filter_In in H as [H Hne].
    apply list_elem_of_In, elem_of_take in H as (i & H & Hi).
    exists i, l. apply negb_true_iff in Hne. auto.
  - intros (i & l & Hi & Hl & -> & Hne). exists l. split; [reflexivity|].
    apply filter_In. split.
    + apply list_elem_of_In, elem_of_take. eauto.
    + rewrite Hne. reflexivity.
Qed.

Lemma keyword_line_not_blank line k :
  In k mmcif_keywords ->
  startswith k (lower (strip line)) = true ->
  is_empty (strip line) = false.
Proof.
  intros Hk H. destruct (strip line); [|reflexivity].
  cbn [In mmcif_keywords] in Hk.
  destruct Hk as [<-|[<-|[<-|[]]]]; vm_compute in H; discriminate H.
Qed.

Lemma starts_mmcif_keyword_spec data :
  existsb starts_mmcif_keyword (scanned_lines data) = true
  <-> mmcif_keyword_line data.
Proof.
  unfold mmcif_keyword_line, starts_mmcif_keyword. rewrite existsb_exists.
  split.
  - intros (x & Hin & H).
    apply scanned_lines_window in Hin as (i & line & Hi & Hl & -> & _).
    apply existsb_exists in H as (k & Hk & H). eauto 10.
  - intros (i & line & k & Hi & Hl & Hk & H). exists (strip line). split.
    + apply scanned_lines_window. exists i, line.
      pose proof (keyword_line_not_blank line k Hk H). auto.
    + apply existsb_exists. eauto.
Qed.

Lemma no_mmcif_keyword_scanned data :
  no_mmcif_keyword data -> ~ mmcif_keyword_line data.
Proof.
  intros Hno Hkey. apply starts_mmcif_keyword_spec in Hkey.
  apply existsb_exists in Hkey as (line & Hin & H).
  unfold starts_mmcif_keyword in H.
  apply existsb_exists in H as (k & Hk & H).
  destruct (scanned_lines_sub _ _ Hin) as (l & Hl & ->).
  specialize (Hno l Hl). unfold starts_mmcif_keyword in Hno.
  assert (Ht : existsb (fun k => startswith k (lower (strip l))) mmcif_keywords
               = true) by (apply existsb_exists; eauto).
  congruence.
Qed.

Lemma mmcif_data_line_spec data :
  match scanned_lines data with
  | [] => False
  | line0 :: _ => startswith "data_" (lower line0) = true
  end <-> mmcif_data_line data.
Proof.
  unfold mmcif_data_line.
  destruct (first_nonblank_line data) as [line|] eqn:E.
  - destruct (scanned_lines_head _ _ E) as [rest ->]. split.
    + intros H. eauto.
    + intros (l & Hl & H). congruence.
  - rewrite (scanned_lines_blank _ (first_nonblank_none _ E)). split.
    + intros [].
    + intros (l & Hl & _). discriminate.
Qed.

End DetectFacts.

Section DetectFormat.
Import PyStr PyStrFacts DetectFacts.

Lemma detect_format_range data :
  In (_detect_format data) ["pdb"; "mmcif"; "sdf"].
Proof.
  rewrite detect_format_rules.
  destruct (scanned_lines data) as [|line0 lines]; [cbn [In]; auto|].
  destruct (startswith "data_" (lower line0)); [cbn [In]; auto|].
  destruct (existsb starts_mmcif_keyword (line0 :: lines)); [cbn [In]; auto|].
  destruct (contains_sdf_marker data); cbn [In]; auto.
Qed.

Lemma detect_format_data_line data :
  mmcif_data_line data -> _detect_format data = "mmcif".
Proof.
  intros H. apply mmcif_data_line_spec in H.
  rewrite detect_format_rules.
  destruct (scanned_lines data); [contradiction|].
  rewrite H. reflexivity.
Qed.

Lemma detect_format_no_mmcif data :
  ~ mmcif_data_line data -> ~ mmcif_keyword_line data ->
  _detect_format data = if contains_sdf_marker data then "sdf" else "pdb".
Proof.
  intros H1 H2.
  rewrite <- mmcif_data_line_spec in H1.
  rewrite <- starts_mmcif_keyword_spec in H2.
  rewrite detect_format_rules.
  destruct (scanned_lines data) as [|line0 lines] eqn:E.
  - destruct (contains_sdf_marker data) eqn:Hs; [|reflexivity].
    exfalso. apply contains_sdf_marker_spec in Hs as (m & Hm & pre & w & post & Hd & Hw).
    assert (Hblank : all_space data = true).
    { destruct (first_nonblank_line data) as [line|] eqn:Hf.
      - destruct (scanned_lines_head _ _ Hf) as [rest Hr]. congruence.
      - apply first_nonblank_none, Hf. }
    assert (Hall : forall a b, all_space (a ++ b)%string = all_space a && all_space b).
    { intros a b. induction a as [|c a IH]; simpl; [reflexivity|].
      rewrite IH, andb_assoc. reflexivity. }
    rewrite Hd, !Hall in Hblank.
    apply andb_true_iff in Hblank as [_ Hblank].
    apply andb_true_iff in Hblank as [Hblank _].
    simpl in Hm.
    destruct Hm as [<-|[<-|[<-|[<-|[]]]]];
      (destruct w as [|c w]; [discriminate|]);
      simpl in Hw, Hblank; injection Hw as Hc _;
      apply andb_true_iff in Hblank as [Hblank _];
      destruct c as [[] [] [] [] [] [] [] []]; discriminate.
  - destruct (startswith "data_" (lower line0)); [contradiction H1; reflexivity|].
    destruct (existsb _ _); [contradiction H2; reflexivity|].
    reflexivity.
Qed.

(** The lines that are not blank among the first [n] are among the
    first [n] lines that are not blank. *)
Lemma filter_firstn_sub {A} (p : A -> bool) x : forall n l,
  In x (List.filter p (firstn n l)) -> In x (firstn n (List.filter p l)).
Proof.
  assert (Hmono : forall (m : list A) n, In x (firstn n m) -> In x (firstn (S n) m)).
  { induction m as [|y m IH]; intros [|n] H; simpl in *; try contradiction.
    destruct H as [H|H]; [left; exact H | right; apply IH, H]. }
  intros n l. revert n.
  induction l as [|y l IH]; intros [|n] H; simpl in *; try contradiction.
  destruct (p y).
  - simpl in *. destruct H as [H|H]; [left; exact H | right; apply IH, H].
  - apply Hmono, IH, H.
Qed.

(** The window of the code lies inside the window of the specification. *)
Lemma mmcif_keyword_line_nonblank data :
  mmcif_keyword_line data -> mmcif_keyword_nonblank data.
Proof.
  intros (i & line & k & Hi & Hl & Hk & H). exists line, k.
  split; [|split; assumption].
  apply filter_firstn_sub. apply filter_In. split.
  - apply list_elem_of_In, elem_of_take. eauto.
  - pose proof (keyword_line_not_blank line k Hk H) as Hne.
    rewrite strip_all_space in Hne. rewrite Hne. reflexivity.
Qed.

Lemma detect_format_keyword_line data :
  mmcif_keyword_line data -> _detect_format data = "mmcif".
Proof.
  intros H. apply starts_mmcif_keyword_spec in H.
  rewrite detect_format_rules.
  destruct (scanned_lines data) as [|line0 lines]; [discriminate H|].
  destruct (startswith "data_" (lower line0)); [reflexivity|].
  rewrite H. reflexivity.
Qed.

Lemma detect_format_mmcif_only data :
  _detect_format data = "mmcif" ->
  mmcif_data_line data \/ mmcif_keyword_line data.
Proof.
  rewrite detect_format_rules, <- mmcif_data_line_spec,
    <- starts_mmcif_keyword_spec.
  destruct (scanned_lines data) as [|line0 lines]; [discriminate|].
  destruct (startswith "data_" (lower line0)); [left; reflexivity|].
  destruct (existsb starts_mmcif_keyword (line0 :: lines));
    [right; reflexivity|].
  destruct (contains_sdf_marker data); discriminate.
Qed.

Lemma header_first_nonblank rest :
  first_nonblank_line ("HEADER    HYDROLASE" ++ String newline rest)
  = Some "HEADER    HYDROLASE".
Proof.
  unfold first_nonblank_line.
  rewrite split_line_app by reflexivity. reflexivity.
Qed.

Lemma header_not_data_line rest :
  ~ mmcif_data_line ("HEADER    HYDROLASE" ++ String newline rest).
Proof.
  intros (line & Hl & H). rewrite header_first_nonblank in Hl.
  injection Hl as <-. vm_compute in H. discriminate.
Qed.

(** C1.  [_detect_format] never fails and answers pdb, mmcif or sdf.
    The rules apply in the order of the specification: a first
    non-blank line that starts with [data_], whatever the case of its
    letters, gives mmcif whatever else the text holds; so does a line
    among the first 50 that starts with [loop_], [_atom_site] or [_cell],
    whatever SDF markers and PDB keywords the text holds, and the answer
    is mmcif for no other text; when no mmCIF rule
    applies, an SDF marker anywhere in the text, in any case, gives sdf
    whatever PDB keywords are present, in particular when no line of
    the text starts with [data_], [loop_], [_atom_site] or [_cell]; the
    text [HEADER    HYDROLASE] gives pdb, and so does every text with
    that first line in which no mmCIF keyword line and no SDF marker
    follows; the empty text gives pdb.  The SDF rule also holds when
    the mmCIF keywords are looked for among the first 50 non-blank
    lines, as the specification words the window. *)
Theorem detect_format_priority :
  (forall data, In (_detect_format data) ["pdb"; "mmcif"; "sdf"]) /\
  (forall data line,
     first_nonblank_line data = Some line ->
     startswith "data_" (lower line) = true
     \/ startswith "data_" (lower (strip line)) = true ->
     _detect_format data = "mmcif") /\
  (forall data,
     ~ mmcif_data_line data -> ~ mmcif_keyword_line data ->
     sdf_marker data -> _detect_format data = "sdf") /\
  (forall data,
     ~ mmcif_data_line data -> ~ mmcif_keyword_line data ->
     ~ sdf_marker data -> _detect_format data = "pdb") /\
  _detect_format "HEADER    HYDROLASE" = "pdb" /\
  (forall rest,
     let data := ("HEADER    HYDROLASE" ++ String newline rest)%string in
     ~ mmcif_keyword_line data -> ~ sdf_marker data ->
     _detect_format data = "pdb") /\
  _detect_format "" = "pdb" /\
  (forall data,
     ~ mmcif_data_line data -> no_mmcif_keyword data ->
     sdf_marker data -> _detect_format data = "sdf") /\
  (forall data, mmcif_keyword_line data -> _detect_format data = "mmcif") /\
  (forall data,
     _detect_format data = "mmcif" ->
     mmcif_data_line data \/ mmcif_keyword_line data) /\
  (forall data,
     ~ mmcif_data_line data -> ~ mmcif_keyword_nonblank data ->
     sdf_marker data -> _detect_format data = "sdf").
Proof.
  assert (Hpdb : forall data,
     ~ mmcif_data_line data -> ~ mmcif_keyword_line data ->
     ~ sdf_marker data -> _detect_format data = "pdb").
  { intros data H1 H2 H3. rewrite (detect_format_no_mmcif _ H1 H2).
    destruct (contains_sdf_marker data) eqn:E; [|reflexivity].
    contradiction H3. apply contains_sdf_marker_spec, E. }
  split; [exact detect_format_range|].
  split.
  { intros data line Hl H. apply detect_format_data_line.
    exists line. split; [exact Hl|].
    destruct H as [H|H]; [|exact H].
    apply startswith_lower_strip; [reflexivity | exact H]. }
  split.
  { intros data H1 H2 H3. rewrite (detect_format_no_mmcif _ H1 H2).
    apply contains_sdf_marker_spec in H3. rewrite H3. reflexivity. }
  split; [exact Hpdb|].
  split; [vm_compute; reflexivity|].
  split.
  { intros rest data H2 H3.
    apply Hpdb; [apply header_not_data_line | exact H2 | exact H3]. }
  split; [vm_compute; reflexivity|].
  split.
  { intros data H1 H2 H3.
    rewrite (detect_format_no_mmcif _ H1 (no_mmcif_keyword_scanned _ H2)).
    apply contains_sdf_marker_spec in H3. rewrite H3. reflexivity. }
  split; [exact detect_format_keyword_line|].
  split; [exact detect_format_mmcif_only|].
  intros data H1 H2 H3.
  assert (H2' : ~ mmcif_keyword_line data)
    by (intros H; apply H2, mmcif_keyword_line_nonblank, H).
  rewrite (detect_format_no_mmcif _ H1 H2').
  apply contains_sdf_marker_spec in H3. rewrite H3. reflexivity.
Qed.

(** The window of rule 2 is made of lines, blank ones included: a
    keyword line that follows 50 blank lines is the second line that is
    not blank, and is not seen. *)
Example detect_format_window_counts_blank_lines :
  _detect_format ("REMARK" ++ nl ++ "loop_" ++ nl ++ "$$$$") = "mmcif" /\
  _detect_format
    ("REMARK" ++ nl ++ string_of_list_ascii (List.repeat newline 50)
       ++ "loop_" ++ nl ++ "$$$$") = "sdf".
Proof. split; vm_compute; reflexivity. Qed.

End DetectFormat.

(* ================================================================== *)
(** * Loops and indexing *)
(* ================================================================== *)

Lemma for_return_spec {A R} (body : A -> result (option R)) xs :
  match for_return xs body with
  | Ok None => Forall (fun y => body y = Ok None) xs
  | r => exists pre x post,
           xs = (pre ++ x :: post)%list /\
           Forall (fun y => body y = Ok None) pre /\ body x = r
  end.
Proof.
  induction xs as [|x xs IH]; simpl.
  - constructor.
  - destruct (body x) as [[r|]|e] eqn:E.
    + exists [], x, xs. auto.
    + destruct (for_return xs body) as [[r|]|e].
      * destruct IH as (pre & y & post & -> & Hpre & Hy).
        exists (x :: pre), y, post. auto.
      * constructor; assumption.
      * destruct IH as (pre & y & post & -> & Hpre & Hy).
        exists (x :: pre), y, post. auto.
    + exists [], x, xs. auto.
Qed.

Lemma seq_split start : forall n pre x post,
  map Z.of_nat (seq start n) = (pre ++ x :: post)%list ->
  pre = map Z.of_nat (seq start (length pre)) /\
  x = Z.of_nat (start + length pre) /\ (length pre < n)%nat.
Proof.
  intros n pre. revert start n.
  induction pre as [|p pre IH]; intros start n x post H.
  - destruct n as [|n]; [discriminate|]. simpl in H. injection H as <- _.
    simpl. rewrite Nat.add_0_r. repeat split; lia.
  - destruct n as [|n]; [discriminate|]. simpl in H. injection H as <- H.
    destruct (IH _ _ _ _ H) as (Hpre & Hx & Hlen).
    simpl. rewrite <- Hpre. repeat split; [lia | lia].
Qed.

(** Where [range(n)] is cut, the indices before the cut are those below
    the one at the cut. *)
Lemma py_range_split n pre x post :
  py_range n = (pre ++ x :: post)%list ->
  0 <= x < n /\ forall y, 0 <= y < x -> In y pre.
Proof.
  unfold py_range. intros H.
  destruct (seq_split _ _ _ _ _ H) as (Hpre & Hx & Hlen).
  simpl in Hx. split; [lia|].
  intros y Hy. rewrite Hpre. apply in_map_iff.
  exists (Z.to_nat y). split; [lia|]. apply in_seq. lia.
Qed.

Lemma py_range_elem n x : 0 <= x < n -> In x (py_range n).
Proof.
  intros H. unfold py_range. apply in_map_iff.
  exists (Z.to_nat x). split; [lia|]. apply in_seq. lia.
Qed.

Lemma py_index_lookup {A} (l : list A) i x :
  0 <= i -> l !! Z.to_nat i = Some x -> py_index l i = Ok x.
Proof.
  intros Hi Hl. unfold py_index.
  assert (Hlt : (Z.to_nat i < length l)%nat) by (eapply lookup_lt_Some; eauto).
  destruct (i <? 0) eqn:E; [lia|].
  replace ((0 <=? i) && (i <? Z.of_nat (length l))) with true by lia.
  rewrite Hl. reflexivity.
Qed.

(* ================================================================== *)
(** * Grid placement *)
(* ================================================================== *)

Section Grid.

Variable self : MolView.
Variables nrows ncols : Z.
Variable g : list (list (option Model)).
Hypothesis Hgv : grid_viewer self nrows ncols g.

Lemma cell_in_grid row col :
  in_grid nrows ncols row col ->
  exists r x,
    g !! Z.to_nat row = Some r /\ r !! Z.to_nat col = Some x /\
    cell g row col = Some x.
Proof.
  intros [Hr Hc]. destruct Hgv as [_ _ _ _ Hlen Hrows].
  destruct (lookup_lt_is_Some_2 g (Z.to_nat row)) as [r Hg]; [lia|].
  assert (Hrl : length r = Z.to_nat ncols).
  { rewrite Forall_forall in Hrows. apply Hrows.
    eapply list_elem_of_lookup_2, Hg. }
  destruct (lookup_lt_is_Some_2 r (Z.to_nat col)) as [x Hx]; [lia|].
  exists r, x. repeat split; try assumption.
  unfold cell. replace ((0 <=? row) && (0 <=? col)) with true by lia.
  rewrite Hg. simpl. exact Hx.
Qed.

(** The test that the loops of [_get_next_available_cell] run on a cell. *)
Lemma cell_test row col :
  in_grid nrows ncols row col ->
  (g0 ← attr (grid_models self);
   r ← py_index g0 row;
   c ← py_index r col;
   match c with
   | None => Ok (Some (row, col))
   | Some _ => Ok None
   end)
  = match cell g row col with
    | Some None => Ok (Some (row, col))
    | _ => Ok None
    end.
Proof.
  intros Hin. destruct (cell_in_grid _ _ Hin) as (r & x & Hg & Hx & Hc).
  rewrite (gv_grid _ _ _ _ Hgv). simpl.
  rewrite (py_index_lookup _ _ _ (proj1 (proj1 Hin)) Hg). simpl.
  rewrite (py_index_lookup _ _ _ (proj1 (proj2 Hin)) Hx). simpl.
  rewrite Hc. destruct x; reflexivity.
Qed.

Lemma cell_occupied row col :
  in_grid nrows ncols row col ->
  cell g row col <> Some None -> occupied g row col.
Proof.
  intros Hin H. destruct (cell_in_grid _ _ Hin) as (r & x & _ & _ & Hc).
  destruct x as [m|]; [exists m; exact Hc | contradiction]. 
Qed.

(** The inner loop, over the columns of one row. *)
Lemma scan_row row :
  0 <= row < nrows ->
  match for_return (py_range ncols) (fun col =>
          g0 ← attr (grid_models self);
          r ← py_index g0 row;
          c ← py_index r col;
          match c with
          | None => Ok (Some (row, col))
          | Some _ => Ok None
          end) with
  | Ok None => forall c, 0 <= c < ncols -> occupied g row c
  | Ok (Some (row', col)) =>
      row' = row /\ 0 <= col < ncols /\ cell g row col = Some None /\
      forall c, 0 <= c < col -> occupied g row c
  | Raise _ => False
  end.
Proof.
  intros Hrow.
  match goal with |- match for_return ?xs ?b with _ => _ end =>
    pose proof (for_return_spec b xs) as Hspec;
    destruct (for_return xs b) as [[[row' col]|]|e]
  end.
  - destruct Hspec as (pre & x & post & Hcut & Hpre & Hx).
    destruct (py_range_split _ _ _ _ Hcut) as [Hxr Hbefore].
    rewrite cell_test in Hx by (split; assumption).
    destruct (cell g row x) as [[m|]|] eqn:Hc; try discriminate.
    injection Hx as <- <-. repeat split; try lia.
    + exact Hc.
    + intros c Hcl. apply cell_occupied; [split; lia|].
      rewrite List.Forall_forall in Hpre. specialize (Hpre c (Hbefore c Hcl)).
      rewrite cell_test in Hpre by (split; lia).
      intros Hn. rewrite Hn in Hpre. discriminate.
  - intros c Hc. apply cell_occupied; [split; assumption|].
    rewrite List.Forall_forall in Hspec.
    specialize (Hspec c (py_range_elem _ _ Hc)).
    rewrite cell_test in Hspec by (split; assumption).
    intros Hn. rewrite Hn in Hspec. discriminate.
  - destruct Hspec as (pre & x & post & Hcut & Hpre & Hx).
    destruct (py_range_split _ _ _ _ Hcut) as [Hxr Hbefore].
    rewrite cell_test in Hx by (split; assumption).
    destruct (cell g row x) as [[m|]|]; discriminate.
Qed.

(** [_get_next_available_cell] returns the first empty cell in
    row-major order, and raises on a full grid only. *)
Lemma next_available_cell_spec :
  match _get_next_available_cell self with
  | Ok (row, col) => first_empty_cell g nrows ncols row col
  | Raise e => e = ValueError (GridFull nrows ncols) /\ grid_full g nrows ncols
  end.
Proof.
  unfold _get_next_available_cell.
  rewrite (gv_rows _ _ _ _ Hgv), (gv_cols _ _ _ _ Hgv). simpl.
  match goal with |- context [for_return ?xs ?b] =>
    pose proof (for_return_spec b xs) as Hspec;
    destruct (for_return xs b) as [[[row col]|]|e]
  end; simpl.
  - destruct Hspec as (pre & x & post & Hcut & Hpre & Hx).
    destruct (py_range_split _ _ _ _ Hcut) as [Hxr Hbefore].
    pose proof (scan_row x Hxr) as Hrow. rewrite Hx in Hrow.
    destruct Hrow as (-> & Hcol & Hc & Hleft).
    split; [split; assumption|]. split; [exact Hc|].
    intros r c [Hr Hcc] [Hlt | [-> Hlt]].
    + rewrite List.Forall_forall in Hpre.
      assert (Hr' : 0 <= r < x) by lia.
      specialize (Hpre r (Hbefore r Hr')).
      assert (Hr'' : 0 <= r < nrows) by lia.
      pose proof (scan_row r Hr'') as Hfull. rewrite Hpre in Hfull.
      apply Hfull, Hcc.
    + apply Hleft. lia.
  - split; [reflexivity|]. intros r c [Hr Hc].
    rewrite List.Forall_forall in Hspec.
    specialize (Hspec r (py_range_elem _ _ Hr)).
    pose proof (scan_row r Hr) as Hfull. rewrite Hspec in Hfull.
    apply Hfull, Hc.
  - destruct Hspec as (pre & x & post & Hcut & Hpre & Hx).
    destruct (py_range_split _ _ _ _ Hcut) as [Hxr Hbefore].
    pose proof (scan_row x Hxr) as Hrow. rewrite Hx in Hrow. contradiction.
Qed.

Lemma first_empty_cell_unique row col row' col' :
  first_empty_cell g nrows ncols row col ->
  first_empty_cell g nrows ncols row' col' ->
  row' = row /\ col' = col.
Proof.
  intros (Hin & He & Hb) (Hin' & He' & Hb').
  assert (Hno : forall r c r0 c0,
            cell g r c = Some None ->
            (forall r1 c1, in_grid nrows ncols r1 c1 ->
               row_major_before r1 c1 r0 c0 -> occupied g r1 c1) ->
            in_grid nrows ncols r c -> ~ row_major_before r c r0 c0).
  { intros r c r0 c0 Hc Hall Hi Hlt. destruct (Hall _ _ Hi Hlt) as [m Hm].
    congruence. }
  pose proof (Hno _ _ _ _ He Hb' Hin) as H1.
  pose proof (Hno _ _ _ _ He' Hb Hin') as H2.
  unfold row_major_before in H1, H2. lia.
Qed.

Lemma next_available_cell_first row col :
  first_empty_cell g nrows ncols row col ->
  _get_next_available_cell self = Ok (row, col).
Proof.
  intros H. pose proof next_available_cell_spec as Hs.
  destruct (_get_next_available_cell self) as [[r c]|e].
  - destruct (first_empty_cell_unique _ _ _ _ H Hs) as [-> ->]. reflexivity.
  - destruct Hs as [_ Hfull]. destruct H as (Hin & He & _).
    destruct (Hfull _ _ Hin) as [m Hm]. congruence.
Qed.

Lemma next_available_cell_full :
  grid_full g nrows ncols ->
  _get_next_available_cell self = Raise (ValueError (GridFull nrows ncols)).
Proof.
  intros H. pose proof next_available_cell_spec as Hs.
  destruct (_get_next_available_cell self) as [[r c]|e].
  - destruct Hs as (Hin & He & _). destruct (H _ _ Hin) as [m Hm]. congruence.
  - destruct Hs as [-> _]. reflexivity.
Qed.

(** The assignment to a cell inside the grid. *)
Lemma grid_assign_in_grid row col m :
  in_grid nrows ncols row col ->
  exists g',
    grid_assign g row col m = Ok g' /\
    grid_viewer (set_grid_models self g') nrows ncols g' /\
    cell g' row col = Some (Some m) /\
    forall r c, (r, c) <> (row, col) -> cell g' r c = cell g r c.
Proof.
  intros Hin. destruct (cell_in_grid _ _ Hin) as (r & x & Hg & Hx & Hc).
  destruct Hin as [Hrow Hcol].
  pose proof (lookup_lt_Some _ _ _ Hg) as Hlt.
  pose proof (lookup_lt_Some _ _ _ Hx) as Hlt'.
  exists (<[Z.to_nat row := <[Z.to_nat col := Some m]> r]> g).
  split; [|split; [|split]].
  - unfold grid_assign.
    rewrite (py_index_lookup _ _ _ (proj1 Hrow) Hg). simpl.
    rewrite (py_index_lookup _ _ _ (proj1 Hcol) Hx). reflexivity.
  - destruct Hgv as [H1 H2 H3 H4 H5 H6]. constructor; simpl; try assumption.
    + reflexivity.
    + rewrite length_insert. exact H5.
    + apply Forall_insert; [exact H6|]. rewrite length_insert.
      rewrite Forall_forall in H6. apply H6.
      eapply list_elem_of_lookup_2, Hg.
  - unfold cell. replace ((0 <=? row) && (0 <=? col)) with true by lia.
    rewrite list_lookup_insert_eq by exact Hlt. simpl.
    rewrite list_lookup_insert_eq by exact Hlt'. reflexivity.
  - intros r0 c0 Hne. unfold cell.
    destruct ((0 <=? r0) && (0 <=? c0)) eqn:E; [|reflexivity].
    destruct (decide (Z.to_nat r0 = Z.to_nat row)) as [Heq|Hneq].
    + assert (r0 = row) by lia. subst r0.
      rewrite list_lookup_insert_eq by exact Hlt. rewrite Hg. simpl.
      apply list_lookup_insert_ne. intros Hcc.
      apply Hne. f_equal. lia.
    + rewrite list_lookup_insert_ne by congruence. reflexivity.
Qed.

(** [addModel] in grid mode, step by step. *)
Lemma addModel_grid data format keepH viewer name fmt :
  resolved_format data format = Ok fmt ->
  addModel data format keepH viewer name self =
    let model := mkModel data fmt keepH
                   (match name with
                    | Some n => n
                    | None => grid_default_name g viewer
                    end) in
    match (match viewer with
           | None => _get_next_available_cell self
           | Some c => Ok c
           end) with
    | Raise e => (self, Raise e)
    | Ok (row, col) =>
        if (0 <=? row) && (row <? nrows) && (0 <=? col) && (col <? ncols)
        then match grid_assign g row col model with
             | Ok g' => (set_grid_models self g', Ok tt)
             | Raise e => (self, Raise e)
             end
        else (self, Raise (ValueError (OutOfBounds row col nrows ncols)))
    end.
Proof.
  intros Hf. unfold addModel. unfold resolved_format in Hf.
  destruct Hgv as [H1 H2 H3 H4 H5 H6].
  unfold mbind, method_bind, lift, reads, mret, method_ret, assign.
  rewrite Hf, H1.
  destruct name as [n|]; destruct viewer as [[row col]|];
    cbn -[_get_next_available_cell grid_assign Z.leb Z.ltb];
    rewrite ?H4, ?H2, ?H3;
    cbn -[_get_next_available_cell grid_assign Z.leb Z.ltb].
  all: try (destruct (_get_next_available_cell self) as [[row col]|e];
            cbn -[grid_assign Z.leb Z.ltb]; [|reflexivity]).
  all: rewrite ?H4, ?H2, ?H3; cbn -[grid_assign Z.leb Z.ltb].
  all: destruct ((0 <=? row) && (row <? nrows) && (0 <=? col) && (col <? ncols));
    cbn -[grid_assign]; [|reflexivity].
  all: rewrite ?H4; reflexivity.
Qed.

End Grid.

Lemma normalize_detect data :
  normalize_format (_detect_format data) = Ok (_detect_format data).
Proof.
  pose proof (detect_format_range data) as H. cbn [In] in H.
  destruct H as [<-|[<-|[<-|[]]]]; reflexivity.
Qed.

Lemma resolved_format_auto data :
  resolved_format data None = Ok (_detect_format data).
Proof. apply normalize_detect. Qed.

Lemma init_grid_viewer w h nrows ncols p :
  grid_viewer (__init__ w h (Some (nrows, ncols)) p) nrows ncols
    (map (fun _ => map (fun _ => None) (py_range ncols)) (py_range nrows)).
Proof.
  constructor; simpl; try reflexivity.
  - unfold py_range. rewrite !length_map, length_seq. reflexivity.
  - apply Forall_forall. intros r Hr. apply list_elem_of_In, in_map_iff in Hr.
    destruct Hr as (x & <- & _).
    unfold py_range. rewrite !length_map, length_seq. reflexivity.
Qed.

(** Four automatic placements and a fifth on an empty 2 x 2 grid, for
    whatever the other attributes of the viewer hold. *)
Lemma add_all_2x2_any w h p tv ms idx cm cp bg se so ie sp ss sq sa rs st
    d1 d2 d3 d4 d5 :
  let v0 := mkMolView w h (Some (2, 2)) p (Some 2) (Some 2) tv
              (Some [[None; None]; [None; None]])
              ms idx cm cp bg se so ie sp ss sq sa rs st in
  let m1 := auto_model d1 1 in
  let m2 := auto_model d2 2 in
  let m3 := auto_model d3 3 in
  let m4 := auto_model d4 4 in
  add_all [d1] v0
    = (set_grid_models v0 [[Some m1; None]; [None; None]], Ok tt) /\
  add_all [d1; d2] v0
    = (set_grid_models v0 [[Some m1; Some m2]; [None; None]], Ok tt) /\
  add_all [d1; d2; d3] v0
    = (set_grid_models v0 [[Some m1; Some m2]; [Some m3; None]], Ok tt) /\
  add_all [d1; d2; d3; d4] v0
    = (set_grid_models v0 [[Some m1; Some m2]; [Some m3; Some m4]], Ok tt) /\
  add_all [d1; d2; d3; d4; d5] v0
    = (set_grid_models v0 [[Some m1; Some m2]; [Some m3; Some m4]],
       Raise (ValueError (GridFull 2 2))).
Proof.
  unfold add_all, addModel. rewrite !normalize_detect.
  lazy -[_detect_format]. repeat split; reflexivity.
Qed.

(** C2.  In grid mode [addModel] without a placement puts the structure
    in the first empty cell in row-major order and leaves every other
    cell as it was; on a full grid it raises the capacity error; with a
    placement outside the grid it raises the out-of-bounds error.  On a
    2 x 2 grid four automatic placements fill (0,0), (0,1), (1,0), (1,1)
    in that order, the fifth raises the capacity error, and the
    placement (2,0) is out of bounds. *)
Theorem addModel_grid_placement :
  (forall self nrows ncols g text format keepH name fmt,
     grid_viewer self nrows ncols g ->
     resolved_format text format = Ok fmt ->
     (forall row col,
        first_empty_cell g nrows ncols row col ->
        exists g' m,
          addModel text format keepH None name self
            = (set_grid_models self g', Ok tt) /\
          grid_viewer (set_grid_models self g') nrows ncols g' /\
          cell g' row col = Some (Some m) /\ data m = text /\
          (forall r c, (r, c) <> (row, col) -> cell g' r c = cell g r c)) /\
     (grid_full g nrows ncols ->
        addModel text format keepH None name self
          = (self, Raise (ValueError (GridFull nrows ncols)))) /\
     (forall row col,
        ~ in_grid nrows ncols row col ->
        addModel text format keepH (Some (row, col)) name self
          = (self, Raise (ValueError (OutOfBounds row col nrows ncols))))) /\
  (forall d1 d2 d3 d4 d5,
     let v0 := view (Some (2, 2)) in
     let m1 := auto_model d1 1 in
     let m2 := auto_model d2 2 in
     let m3 := auto_model d3 3 in
     let m4 := auto_model d4 4 in
     add_all [d1] v0
       = (set_grid_models v0 [[Some m1; None]; [None; None]], Ok tt) /\
     add_all [d1; d2] v0
       = (set_grid_models v0 [[Some m1; Some m2]; [None; None]], Ok tt) /\
     add_all [d1; d2; d3] v0
       = (set_grid_models v0 [[Some m1; Some m2]; [Some m3; None]], Ok tt) /\
     add_all [d1; d2; d3; d4] v0
       = (set_grid_models v0 [[Some m1; Some m2]; [Some m3; Some m4]], Ok tt) /\
     add_all [d1; d2; d3; d4; d5] v0
       = (set_grid_models v0 [[Some m1; Some m2]; [Some m3; Some m4]],
          Raise (ValueError (GridFull 2 2)))) /\
  (forall self g text format keepH name fmt,
     grid_viewer self 2 2 g ->
     resolved_format text format = Ok fmt ->
     addModel text format keepH (Some (2, 0)) name self
       = (self, Raise (ValueError (OutOfBounds 2 0 2 2)))).
Proof.
  assert (Hout : forall self nrows ncols g text format keepH name fmt row col,
     grid_viewer self nrows ncols g ->
     resolved_format text format = Ok fmt ->
     ~ in_grid nrows ncols row col ->
     addModel text format keepH (Some (row, col)) name self
       = (self, Raise (ValueError (OutOfBounds row col nrows ncols)))).
  { intros self nrows ncols g text format keepH name fmt row col Hgv Hf Hin.
    rewrite (addModel_grid _ _ _ _ Hgv _ _ _ _ _ _ Hf). cbn zeta.
    destruct ((0 <=? row) && (row <? nrows) && (0 <=? col) && (col <? ncols))
      eqn:E; [|reflexivity].
    contradiction Hin. unfold in_grid. lia. }
  split; [|split].
  - intros self nrows ncols g text format keepH name fmt Hgv Hf.
    split; [|split].
    + intros row col Hfirst.
      rewrite (addModel_grid _ _ _ _ Hgv _ _ _ _ _ _ Hf). cbn zeta.
      rewrite (next_available_cell_first _ _ _ _ Hgv _ _ Hfirst).
      destruct Hfirst as (Hin & _ & _).
      replace ((0 <=? row) && (row <? nrows) && (0 <=? col) && (col <? ncols))
        with true by (unfold in_grid in Hin; lia).
      match goal with |- context [grid_assign g row col ?m] =>
        destruct (grid_assign_in_grid _ _ _ _ Hgv row col m Hin)
          as (g' & -> & Hgv' & Hc & Hother);
        exists g', m
      end.
      split; [reflexivity|]. split; [exact Hgv'|]. split; [exact Hc|].
      split; [reflexivity | exact Hother].
    + intros Hfull.
      rewrite (addModel_grid _ _ _ _ Hgv _ _ _ _ _ _ Hf). cbn zeta.
      rewrite (next_available_cell_full _ _ _ _ Hgv Hfull). reflexivity.
    + intros row col Hin. eapply Hout; eassumption.
  - intros d1 d2 d3 d4 d5. apply add_all_2x2_any.
  - intros self g text format keepH name fmt Hgv Hf.
    eapply Hout; try eassumption. unfold in_grid. lia.
Qed.

(** [addModel] in linear mode, step by step. *)
Lemma addModel_linear self text format keepH viewer name fmt :
  viewergrid self = None ->
  resolved_format text format = Ok fmt ->
  addModel text format keepH viewer name self =
    let m := mkModel text fmt keepH
               (match name with
                | Some n => n
                | None => linear_default_name (models self)
                end) in
    let self1 := set_models self (models self ++ [m])%list in
    (set_current_model_index self1 (Z.of_nat (length (models self1)) - 1), Ok tt).
Proof.
  intros Hv Hf. unfold addModel. unfold resolved_format in Hf.
  run_method. rewrite Hf, Hv. destruct name; reflexivity.
Qed.

(** C3, the claim as stated fails: on an empty 2 x 2 grid the structure
    placed automatically in cell (0,0) is named [Structure 1], not
    [Structure (0,0)]. *)
Lemma grid_auto_name_not_cell :
  let self' := fst (addModel "ATOM" None false None None (view (Some (2, 2)))) in
  grid_models self'
    = Some [[Some (mkModel "ATOM" "pdb" false "Structure 1"); None]; [None; None]]
  /\ "Structure 1" <> "Structure (0,0)".
Proof. split; [vm_compute; reflexivity | discriminate]. Qed.

(** C3, amended.  Without a name, [addModel] names the structure
    [Structure n+1], where [n] is the number of structures held so far:
    the length of the model list in linear mode, the number of occupied
    cells for an automatic placement in grid mode.  Only a structure
    with an explicit placement in grid mode is named after its cell,
    [Structure (row,col)]. *)
Theorem addModel_default_name :
  (forall self text format keepH viewer fmt,
     viewergrid self = None ->
     resolved_format text format = Ok fmt ->
     exists self',
       addModel text format keepH viewer None self = (self', Ok tt) /\
       models self'
         = (models self
              ++ [mkModel text fmt keepH
                    ("Structure " ++ PyStr.of_int (Z.of_nat (length (models self)) + 1))])%list) /\
  (forall self nrows ncols g text format keepH fmt row col,
     grid_viewer self nrows ncols g ->
     resolved_format text format = Ok fmt ->
     first_empty_cell g nrows ncols row col ->
     exists g',
       addModel text format keepH None None self
         = (set_grid_models self g', Ok tt) /\
       cell g' row col
         = Some (Some (mkModel text fmt keepH
                         ("Structure " ++ PyStr.of_int (existing_count g + 1))))) /\
  (forall self nrows ncols g text format keepH fmt row col,
     grid_viewer self nrows ncols g ->
     resolved_format text format = Ok fmt ->
     in_grid nrows ncols row col ->
     exists g',
       addModel text format keepH (Some (row, col)) None self
         = (set_grid_models self g', Ok tt) /\
       cell g' row col
         = Some (Some (mkModel text fmt keepH
                         ("Structure (" ++ PyStr.of_int row ++ ","
                            ++ PyStr.of_int col ++ ")")))).
Proof.
  split; [|split].
  - intros self text format keepH viewer fmt Hv Hf.
    rewrite (addModel_linear _ _ _ _ _ _ _ Hv Hf). cbn zeta.
    eexists. split; reflexivity.
  - intros self nrows ncols g text format keepH fmt row col Hgv Hf Hfirst.
    rewrite (addModel_grid _ _ _ _ Hgv _ _ _ _ _ _ Hf). cbn zeta.
    rewrite (next_available_cell_first _ _ _ _ Hgv _ _ Hfirst).
    destruct Hfirst as (Hin & _ & _).
    replace ((0 <=? row) && (row <? nrows) && (0 <=? col) && (col <? ncols))
      with true by (unfold in_grid in Hin; lia).
    match goal with |- context [grid_assign g row col ?m] =>
      destruct (grid_assign_in_grid _ _ _ _ Hgv row col m Hin)
        as (g' & -> & _ & Hc & _)
    end.
    exists g'. split; [reflexivity | exact Hc].
  - intros self nrows ncols g text format keepH fmt row col Hgv Hf Hin.
    rewrite (addModel_grid _ _ _ _ Hgv _ _ _ _ _ _ Hf). cbn zeta.
    replace ((0 <=? row) && (row <? nrows) && (0 <=? col) && (col <? ncols))
      with true by (unfold in_grid in Hin; lia).
    match goal with |- context [grid_assign g row col ?m] =>
      destruct (grid_assign_in_grid _ _ _ _ Hgv row col m Hin)
        as (g' & -> & _ & Hc & _)
    end.
    exists g'. split; [reflexivity | exact Hc].
Qed.

(* ================================================================== *)
(** * Colour themes *)
(* ================================================================== *)

(** C4, the claim as stated fails: the mode name [uniform] is not
    accepted, with or without a colour. *)
Lemma uniform_mode_rejected :
  get_color_theme "uniform" ∅ = Raise (ValueError (UnknownColorMode "uniform")) /\
  get_color_theme "uniform" {[ "color" := PStr "#FF0000" ]}
    = Raise (ValueError (UnknownColorMode "uniform")).
Proof. split; reflexivity. Qed.

(** C4, amended.  The resolver accepts the mode name [custom], in any
    case of letters, and builds the single-colour theme, whose renderer
    configuration is named [uniform]; the colour is the fixed teal
    [#4ECDC4] when none is passed.  The mode name [uniform] itself is
    rejected as unknown. *)
Theorem get_color_theme_custom :
  (forall mode kwargs,
     PyStr.lower mode = "custom" ->
     get_color_theme mode kwargs
       = Ok (CustomColorTheme (default (PStr "#4ECDC4") (kwargs !! "color")))) /\
  (forall color v,
     _hex_to_int color = Ok v ->
     to_molstar_config (CustomColorTheme color)
       = Ok (Config "uniform" [("value", PInt v)])) /\
  (forall mode kwargs,
     PyStr.lower mode = "custom" ->
     kwargs !! "color" = None ->
     get_color_theme mode kwargs ≫= to_molstar_config
       = Ok (Config "uniform" [("value", PInt 5164484)])) /\
  (forall mode kwargs,
     PyStr.lower mode = "uniform" ->
     get_color_theme mode kwargs = Raise (ValueError (UnknownColorMode "uniform"))).
Proof.
  split; [|split; [|split]].
  - intros mode kwargs H. unfold get_color_theme. rewrite H. reflexivity.
  - intros color v H. simpl. rewrite H. reflexivity.
  - intros mode kwargs H Hc. unfold get_color_theme, kwargs_get.
    rewrite H, Hc. reflexivity.
  - intros mode kwargs H. unfold get_color_theme. rewrite H. reflexivity.
Qed.

(** [setColorMode] resolves the theme and its configuration before it
    assigns anything. *)
Lemma setColorMode_outcome self mode kwargs :
  setColorMode mode kwargs self =
    match get_color_theme mode kwargs ≫= to_molstar_config with
    | Ok config =>
        (set_color_params (set_color_mode self (config_name config))
           (config_params config), Ok tt)
    | Raise e => (self, Raise e)
    end.
Proof.
  unfold setColorMode. run_method.
  destruct (get_color_theme mode kwargs) as [theme|e]; [|reflexivity].
  destruct (to_molstar_config theme) as [config|e]; reflexivity.
Qed.

Lemma get_color_theme_unknown mode kwargs :
  ~ In (PyStr.lower mode) color_modes ->
  get_color_theme mode kwargs
    = Raise (ValueError (UnknownColorMode (PyStr.lower mode))).
Proof.
  intros H. unfold get_color_theme. cbn [In color_modes] in H.
  repeat match goal with
  | |- context [String.eqb (PyStr.lower mode) ?k] =>
      destruct (String.eqb_spec (PyStr.lower mode) k) as [Heq|_];
      [exfalso; apply H; rewrite Heq; tauto|]
  end.
  reflexivity.
Qed.

(** C5.  [setColorMode] is atomic.  When the theme and its configuration
    resolve, the call replaces [color_mode] and [color_params] together
    and nothing else; when they do not, the call raises and the viewer
    is exactly as before, the stored mode and parameters included.  An
    unknown mode name and [rainbow] with a palette name outside the
    registry both raise a [ValueError]. *)
Theorem setColorMode_atomic :
  (forall self mode kwargs self' e,
     setColorMode mode kwargs self = (self', Raise e) ->
     self' = self /\
     color_mode self' = color_mode self /\
     color_params self' = color_params self) /\
  (forall self mode kwargs self',
     setColorMode mode kwargs self = (self', Ok tt) ->
     exists config,
       get_color_theme mode kwargs ≫= to_molstar_config = Ok config /\
       color_mode self' = config_name config /\
       color_params self' = config_params config /\
       same_but_color self self') /\
  (forall self mode kwargs,
     ~ In (PyStr.lower mode) color_modes ->
     setColorMode mode kwargs self
       = (self, Raise (ValueError (UnknownColorMode (PyStr.lower mode))))) /\
  (forall self mode kwargs palette,
     PyStr.lower mode = "rainbow" ->
     kwargs !! "palette" = Some (PStr palette) ->
     dict_get RAINBOW_PALETTES palette = None ->
     setColorMode mode kwargs self
       = (self, Raise (ValueError (UnknownPalette (PStr palette))))).
Proof.
  split; [|split; [|split]].
  - intros self mode kwargs self' e H. rewrite setColorMode_outcome in H.
    destruct (get_color_theme mode kwargs ≫= to_molstar_config);
      [discriminate|].
    injection H as <- _. auto.
  - intros self mode kwargs self' H. rewrite setColorMode_outcome in H.
    destruct (get_color_theme mode kwargs ≫= to_molstar_config) as [config|e];
      [|discriminate].
    injection H as <-. exists config. repeat split.
  - intros self mode kwargs H. rewrite setColorMode_outcome.
    rewrite (get_color_theme_unknown _ _ H). reflexivity.
  - intros self mode kwargs palette Hm Hp Hd. rewrite setColorMode_outcome.
    unfold get_color_theme, kwargs_get. rewrite Hm, Hp.
    cbn -[dict_get RAINBOW_PALETTES]. rewrite Hd. reflexivity.
Qed.






(* ================================================================== *)
(** * Gradient *)
(* ================================================================== *)

(** C7.  With no colours and one step, [generate_gradient] indexes the
    empty list: the test for one step comes before the test for an
    empty list.  The other edge cases are as specified. *)
Theorem generate_gradient_edge_cases :
  generate_gradient [] 1 = Raise IndexError /\
  (forall colors steps, steps <= 0 -> generate_gradient colors steps = Ok []) /\
  (forall c colors, generate_gradient (c :: colors) 1 = Ok [c]) /\
  (forall steps, steps <> 1 -> generate_gradient [] steps = Ok []) /\
  (forall c steps,
     generate_gradient [c] steps = Ok (replicate (Z.to_nat steps) c)).
Proof.
  split; [reflexivity|].
  split.
  { intros colors steps H. unfold generate_gradient.
    replace (steps <=? 0) with true by lia. reflexivity. }
  split.
  { intros c colors. reflexivity. }
  split.
  { intros steps H. unfold generate_gradient.
    destruct (steps <=? 0); [reflexivity|].
    replace (steps =? 1) with false by lia. reflexivity. }
  intros c steps. unfold generate_gradient.
  destruct (steps <=? 0) eqn:E.
  - replace (Z.to_nat steps) with 0%nat by lia. reflexivity.
  - destruct (steps =? 1) eqn:E1.
    + replace steps with 1 by lia. reflexivity.
    + reflexivity.
Qed.

(* ================================================================== *)
(** * Remote fetch *)
(* ================================================================== *)

(** C9.  For every identifier, [fetch_pdb] and [fetch_alphafold] turn
    an HTTP error with code 404 into the [ValueError] that says the
    identifier was not found, which is not an [HTTPError]; an HTTP error
    with another code, and any other exception of the request, reaches
    the caller as it was raised. *)
Theorem fetch_not_found :
  forall urlopen_read : string -> result string,
  (forall pdb_id format code reason,
     PyStr.in_list (PyStr.lower format) ["pdb"; "mmcif"; "cif"] = true ->
     urlopen_read (fetch_pdb_url pdb_id format) = Raise (HTTPError code reason) ->
     fetch_pdb urlopen_read pdb_id format =
       if code =? 404
       then Raise (ValueError (PdbIdNotFound (PyStr.upper (PyStr.strip pdb_id))))
       else Raise (HTTPError code reason)) /\
  (forall uniprot_id version code reason,
     urlopen_read (fetch_alphafold_url uniprot_id version)
       = Raise (HTTPError code reason) ->
     fetch_alphafold urlopen_read uniprot_id version =
       if code =? 404
       then Raise (ValueError
                     (UniprotIdNotFound (PyStr.upper (PyStr.strip uniprot_id)) version))
       else Raise (HTTPError code reason)) /\
  (forall pdb_id format e,
     PyStr.in_list (PyStr.lower format) ["pdb"; "mmcif"; "cif"] = true ->
     urlopen_read (fetch_pdb_url pdb_id format) = Raise e ->
     (forall code reason, e <> HTTPError code reason) ->
     fetch_pdb urlopen_read pdb_id format = Raise e) /\
  (forall uniprot_id version e,
     urlopen_read (fetch_alphafold_url uniprot_id version) = Raise e ->
     (forall code reason, e <> HTTPError code reason) ->
     fetch_alphafold urlopen_read uniprot_id version = Raise e) /\
  (forall v code reason, ValueError v <> HTTPError code reason).
Proof.
  intros urlopen_read.
  assert (Hurl : forall pdb_id format,
    PyStr.in_list (PyStr.lower format) ["pdb"; "mmcif"; "cif"] = true ->
    fetch_pdb urlopen_read pdb_id format =
      match urlopen_read (fetch_pdb_url pdb_id format) with
      | Ok d => Ok d
      | Raise (HTTPError code reason) =>
          if code =? 404
          then Raise (ValueError (PdbIdNotFound (PyStr.upper (PyStr.strip pdb_id))))
          else Raise (HTTPError code reason)
      | Raise e => Raise e
      end).
  { intros pdb_id format Hf. unfold fetch_pdb, fetch_pdb_url. rewrite Hf.
    cbn [negb].
    assert (Hext : (if String.eqb
                         (if String.eqb (PyStr.lower format) "cif"
                          then "mmcif" else PyStr.lower format) "pdb"
                    then rcsb_url (PyStr.upper (PyStr.strip pdb_id)) "pdb"
                    else rcsb_url (PyStr.upper (PyStr.strip pdb_id)) "cif")
                   = rcsb_url (PyStr.upper (PyStr.strip pdb_id))
                       (if String.eqb (PyStr.lower format) "pdb"
                        then "pdb" else "cif")).
    { destruct (String.eqb_spec (PyStr.lower format) "cif") as [->|_];
        [reflexivity|].
      destruct (String.eqb (PyStr.lower format) "pdb"); reflexivity. }
    rewrite Hext. reflexivity. }
  split; [|split; [|split; [|split]]].
  - intros pdb_id format code reason Hf H. rewrite (Hurl _ _ Hf), H. reflexivity.
  - intros uniprot_id version code reason H.
    unfold fetch_alphafold. unfold fetch_alphafold_url in H. rewrite H.
    reflexivity.
  - intros pdb_id format e Hf H Hne. rewrite (Hurl _ _ Hf), H.
    destruct e; try reflexivity. exfalso. eapply Hne. reflexivity.
  - intros uniprot_id version e H Hne.
    unfold fetch_alphafold. unfold fetch_alphafold_url in H. rewrite H.
    destruct e; try reflexivity. exfalso. eapply Hne. reflexivity.
  - intros v code reason. discriminate.
Qed.

(* ================================================================== *)
(** * clear *)
(* ================================================================== *)

(** C10.  [clear] empties [models] and sets [current_model_index] to -1;
    every other attribute keeps its value: the grid cells of a viewer in
    grid mode, and all display settings. *)
Theorem clear_frame :
  forall self,
    models (clear self) = [] /\
    current_model_index (clear self) = -1 /\
    grid_models (clear self) = grid_models self /\
    viewergrid (clear self) = viewergrid self /\
    rows (clear self) = rows self /\
    cols (clear self) = cols self /\
    total_viewers (clear self) = total_viewers self /\
    width (clear self) = width self /\
    height (clear self) = height self /\
    panel (clear self) = panel self /\
    color_mode (clear self) = color_mode self /\
    color_params (clear self) = color_params self /\
    background_color (clear self) = background_color self /\
    surface_enabled (clear self) = surface_enabled self /\
    surface_opacity (clear self) = surface_opacity self /\
    illustrative_enabled (clear self) = illustrative_enabled self /\
    spin_enabled (clear self) = spin_enabled self /\
    spin_speed (clear self) = spin_speed self /\
    show_sequence (clear self) = show_sequence self /\
    show_animation (clear self) = show_animation self /\
    remove_solvent (clear self) = remove_solvent self /\
    style_settings (clear self) = style_settings self /\
    removeAllModels self = clear self.
Proof. intros self. repeat split. Qed.

(* ================================================================== *)
(** * The theorems at concrete inputs *)
(* ================================================================== *)

(** C1 at concrete inputs: texts that carry markers of several formats. *)
Lemma detect_format_priority_witness :
  _detect_format ("data_1ABC" ++ nl ++ "ATOM      1" ++ nl ++ "$$$$") = "mmcif" /\
  _detect_format ("HEADER    X" ++ nl ++ "m  end") = "sdf" /\
  _detect_format ("HEADER    HYDROLASE" ++ nl ++ "ATOM      1") = "pdb" /\
  _detect_format ("ATOM      1" ++ nl ++ "  v2000") = "sdf" /\
  _detect_format ("ATOM      1" ++ nl ++ "  Loop_" ++ nl ++ "$$$$") = "mmcif".
Proof.
  destruct detect_format_priority
    as (_ & H1 & H3 & _ & _ & H6 & _ & H8 & H9 & _ & _).
  split; [|split; [|split; [|split]]].
  - apply (H1 _ "data_1ABC"); [vm_compute; reflexivity|].
    left. vm_compute. reflexivity.
  - apply H3.
    + intros H. apply DetectFacts.mmcif_data_line_spec in H.
      vm_compute in H. discriminate.
    + intros H. apply DetectFacts.starts_mmcif_keyword_spec in H.
      vm_compute in H. discriminate.
    + apply DetectFacts.contains_sdf_marker_spec. vm_compute. reflexivity.
  - apply (H6 "ATOM      1").
    + intros H. apply DetectFacts.starts_mmcif_keyword_spec in H.
      vm_compute in H. discriminate.
    + intros H. apply DetectFacts.contains_sdf_marker_spec in H.
      vm_compute in H. discriminate.
  - apply H8.
    + intros H. apply DetectFacts.mmcif_data_line_spec in H.
      vm_compute in H. discriminate.
    + intros line Hl. vm_compute in Hl.
      destruct Hl as [<-|[<-|[]]]; reflexivity.
    + apply DetectFacts.contains_sdf_marker_spec. vm_compute. reflexivity.
  - apply H9. exists 1%nat, "  Loop_", "loop_".
    split; [lia|]. split; [reflexivity|]. split; [cbn; tauto | reflexivity].
Defined.

Lemma empty_2x2_first_cell :
  first_empty_cell [[None; None]; [None; None]] 2 2 0 0.
Proof.
  split; [unfold in_grid; lia|]. split; [reflexivity|].
  intros r c [Hr Hc] [H|[H1 H2]]; lia.
Qed.

(** C2 at concrete inputs: the empty 2 x 2 grid. *)
Lemma addModel_grid_placement_witness :
  (exists g',
     addModel "ATOM" None false None None (view (Some (2, 2)))
       = (set_grid_models (view (Some (2, 2))) g', Ok tt) /\
     exists m, cell g' 0 0 = Some (Some m) /\ data m = "ATOM") /\
  addModel "ATOM" (Some "pdb") false (Some (2, 0)) None (view (Some (2, 2)))
    = (view (Some (2, 2)), Raise (ValueError (OutOfBounds 2 0 2 2))).
Proof.
  destruct addModel_grid_placement as (Hgen & _ & Hout).
  split.
  - destruct (Hgen (view (Some (2, 2))) 2 2 _ "ATOM" None false None "pdb"
                (init_grid_viewer 800 600 2 2 false) eq_refl)
      as (Hfirst & _ & _).
    destruct (Hfirst 0 0 empty_2x2_first_cell) as (g' & m & Ha & _ & Hc & Hd & _).
    exists g'. split; [exact Ha|]. exists m. split; assumption.
  - apply (Hout _ _ "ATOM" (Some "pdb") false None "pdb"
             (init_grid_viewer 800 600 2 2 false) eq_refl).
Defined.

(** C3 at concrete inputs: a linear viewer and a 2 x 2 grid. *)
Lemma addModel_default_name_witness :
  (exists self',
     addModel "ATOM" None false None None (view None) = (self', Ok tt) /\
     models self' = [mkModel "ATOM" "pdb" false "Structure 1"]) /\
  (exists g',
     addModel "ATOM" None false (Some (1, 0)) None (view (Some (2, 2)))
       = (set_grid_models (view (Some (2, 2))) g', Ok tt) /\
     cell g' 1 0 = Some (Some (mkModel "ATOM" "pdb" false "Structure (1,0)"))).
Proof.
  destruct addModel_default_name as (Hlin & _ & Hcell).
  split.
  - apply (Hlin (view None) "ATOM" None false None "pdb"); reflexivity.
  - apply (Hcell (view (Some (2, 2))) 2 2 _ "ATOM" None false "pdb" 1 0
             (init_grid_viewer 800 600 2 2 false) eq_refl).
    unfold in_grid. lia.
Defined.

(** C4 at concrete inputs: the mode names [CUSTOM], [Custom] and [Uniform]. *)
Lemma get_color_theme_custom_witness :
  get_color_theme "CUSTOM" ∅ = Ok (CustomColorTheme (PStr "#4ECDC4")) /\
  get_color_theme "Custom" ∅ ≫= to_molstar_config
    = Ok (Config "uniform" [("value", PInt 5164484)]) /\
  get_color_theme "Uniform" ∅ = Raise (ValueError (UnknownColorMode "uniform")).
Proof.
  destruct get_color_theme_custom as (H1 & _ & H3 & H4).
  split; [|split].
  - rewrite (H1 "CUSTOM" ∅ eq_refl), lookup_empty. reflexivity.
  - apply (H3 "Custom" ∅); [reflexivity | apply lookup_empty].
  - apply (H4 "Uniform" ∅). reflexivity.
Defined.

(** C5 at concrete inputs: an unknown palette and an unknown mode. *)
Lemma setColorMode_atomic_witness :
  setColorMode "rainbow" {[ "palette" := PStr "nonexistent" ]} (view None)
    = (view None, Raise (ValueError (UnknownPalette (PStr "nonexistent")))) /\
  setColorMode "sparkle" ∅ (view None)
    = (view None, Raise (ValueError (UnknownColorMode "sparkle"))).
Proof.
  destruct setColorMode_atomic as (_ & _ & Hmode & Hpal).
  split.
  - apply (Hpal (view None) "rainbow" _ "nonexistent"); reflexivity.
  - apply (Hmode (view None) "sparkle" ∅).
    cbn. intros H.
    repeat (destruct H as [H|H]; [discriminate|]). exact H.
Defined.


(** C7 at concrete inputs: a negative step count and an empty list of colours. *)
Lemma generate_gradient_edge_cases_witness :
  generate_gradient ["#000000"; "#FFFFFF"] (-2) = Ok [] /\
  generate_gradient [] 5 = Ok [].
Proof.
  destruct generate_gradient_edge_cases as (_ & H0 & _ & Hn & _).
  split.
  - apply H0. lia.
  - apply Hn. lia.
Defined.

(** C9 at concrete inputs: servers that answer 404 and 503. *)
Lemma fetch_not_found_witness :
  fetch_pdb (fun _ => Raise (HTTPError 404 "Not Found")) " 1ubq " "pdb"
    = Raise (ValueError (PdbIdNotFound "1UBQ")) /\
  fetch_pdb (fun _ => Raise (HTTPError 503 "Service Unavailable")) "1ubq" "CIF"
    = Raise (HTTPError 503 "Service Unavailable") /\
  fetch_alphafold (fun _ => Raise (HTTPError 404 "Not Found")) "p00520" 4
    = Raise (ValueError (UniprotIdNotFound "P00520" 4)).
Proof.
  split; [|split].
  - destruct (fetch_not_found (fun _ => Raise (HTTPError 404 "Not Found")))
      as (H & _).
    apply (H " 1ubq " "pdb" 404 "Not Found"); reflexivity.
  - destruct (fetch_not_found (fun _ => Raise (HTTPError 503 "Service Unavailable")))
      as (H & _).
    apply (H "1ubq" "CIF" 503 "Service Unavailable"); reflexivity.
  - destruct (fetch_not_found (fun _ => Raise (HTTPError 404 "Not Found")))
      as (_ & H & _).
    apply (H "p00520" 4 404 "Not Found"). reflexivity.
Defined.

(* ================================================================== *)
(** * The viewer as a state machine *)
(* ================================================================== *)

Lemma normalize_format_known f fmt :
  normalize_format f = Ok fmt -> In fmt ["pdb"; "mmcif"; "sdf"].
Proof.
  unfold normalize_format.
  destruct (PyStr.in_list (PyStr.lower f) ["cif"; "mmcif"]).
  - intros H. injection H as <-. cbn [In]. auto.
  - destruct (PyStr.in_list (PyStr.lower f) ["pdb"; "sdf"]) eqn:E;
      cbn [negb]; [|discriminate].
    intros H. injection H as <-.
    unfold PyStr.in_list in E. cbn [existsb] in E.
    rewrite orb_false_r in E. apply orb_true_iff in E.
    destruct E as [E|E]; apply String.eqb_eq in E; rewrite E; cbn [In]; auto.
Qed.

(** X1.  A call of [addModel] that raises, whatever the exception and
    whatever the viewer, leaves the viewer as it was: every check comes
    before the first assignment. *)
Theorem addModel_raise_unchanged text format keepH viewer name self self' e :
  addModel text format keepH viewer name self = (self', Raise e) ->
  self' = self.
Proof.
  intros H. unfold addModel in H.
  unfold mbind, method_bind, mret, method_ret, lift, reads, assign in H.
  destruct name as [n|]; destruct viewer as [[row col]|];
    split_call H; try discriminate; injection H as <- _; reflexivity.
Qed.

Lemma addModel_bad_format text format keepH viewer name self e :
  resolved_format text format = Raise e ->
  addModel text format keepH viewer name self = (self, Raise e).
Proof.
  unfold resolved_format, addModel. intros H.
  unfold mbind, method_bind, lift. rewrite H. reflexivity.
Qed.

Lemma py_index_elem {A} (l : list A) i x : py_index l i = Ok x -> x ∈ l.
Proof.
  unfold py_index. destruct (_ && _); [|discriminate].
  destruct (l !! _) as [y|] eqn:E; [|discriminate].
  intros H. injection H as <-. eapply list_elem_of_lookup_2, E.
Qed.

(** An assignment to a cell keeps the shape of the grid and what holds
    of all its cells. *)
Lemma grid_assign_shape (P : option Model -> Prop) g row col m g' n :
  grid_assign g row col m = Ok g' ->
  Forall (fun r => length r = n) g ->
  Forall (Forall P) g -> P (Some m) ->
  length g' = length g /\
  Forall (fun r => length r = n) g' /\
  Forall (Forall P) g'.
Proof.
  unfold grid_assign. unfold mbind, result_bind.
  destruct (py_index g row) as [r|] eqn:Hr; [|discriminate].
  destruct (py_index r col); [|discriminate].
  intros H Hlen HP Hm. injection H as <-.
  apply py_index_elem in Hr.
  rewrite Forall_forall in Hlen, HP.
  split; [apply length_insert|]. split.
  - apply Forall_insert; [apply Forall_forall, Hlen|].
    rewrite length_insert. apply Hlen, Hr.
  - apply Forall_insert; [apply Forall_forall, HP|].
    apply Forall_insert; [apply HP, Hr | exact Hm].
Qed.

Lemma to_molstar_config_name t c :
  to_molstar_config t = Ok c -> In (config_name c) config_names.
Proof.
  destruct t; cbn -[In config_names]; unfold mbind, result_bind;
    repeat match goal with
    | |- context [match ?x with _ => _ end] => destruct x; [|discriminate]
    | |- context [if ?b then _ else _] => destruct b
    end;
    intros H; injection H as <-; cbn; auto 10.
Qed.

Lemma init_invariant w h vg p : viewer_invariant (__init__ w h vg p).
Proof.
  destruct vg as [[nrows ncols]|]; constructor; cbn -[Z.mul];
    try reflexivity; try lia; auto.
  - split; [|auto]. eexists. split.
    + exact (init_grid_viewer w h nrows ncols p).
    + apply Forall_forall. intros r Hr.
      apply list_elem_of_In, in_map_iff in Hr as (x & <- & _).
      apply Forall_forall. intros c Hc.
      apply list_elem_of_In, in_map_iff in Hc as (y & <- & _). exact I.
Qed.

Lemma addModel_invariant text format keepH viewer name self :
  viewer_invariant self ->
  viewer_invariant (fst (addModel text format keepH viewer name self)).
Proof.
  intros Hinv.
  destruct (resolved_format text format) as [fmt|e] eqn:Hf.
  2:{ rewrite (addModel_bad_format _ _ _ _ _ _ _ Hf). exact Hinv. }
  assert (Hknown : In fmt ["pdb"; "mmcif"; "sdf"])
    by (eapply normalize_format_known, Hf).
  pose proof Hinv as Hinv0.
  destruct Hinv as [Hidx Hmode Hfmt Hop Hcart Hcol].
  destruct (viewergrid self) as [[nrows ncols]|] eqn:Hvg.
  - destruct Hmode as ((g & Hgv & Hcells) & Hms & Htot).
    rewrite (addModel_grid _ _ _ _ Hgv _ _ _ _ _ _ Hf). cbn zeta.
    destruct (match viewer with
              | Some c => Ok c
              | None => _get_next_available_cell self
              end) as [[row col]|e];
      [|exact Hinv0].
    destruct ((0 <=? row) && (row <? nrows) && (0 <=? col) && (col <? ncols));
      [|exact Hinv0].
    match goal with |- context [grid_assign g row col ?m] =>
      destruct (grid_assign g row col m) as [g'|e] eqn:Hg;
        [pose proof (grid_assign_shape cell_known_format _ _ _ _ _ _ Hg
                       (gv_row_length _ _ _ _ Hgv) Hcells Hknown)
           as (Hl1 & Hl2 & Hl3)
        |exact Hinv0]
    end.
    destruct Hgv as [H1 H2 H3 H4 H5 H6].
    constructor; cbn; try assumption.
    rewrite Hvg. split; [|auto].
    exists g'. split; [|exact Hl3].
    constructor; cbn; try assumption; [reflexivity | congruence].
  - rewrite (addModel_linear _ _ _ _ _ _ _ Hvg Hf). cbn zeta.
    constructor; cbn; try assumption.
    + reflexivity.
    + rewrite Hvg. exact Hmode.
    + apply Forall_app. split; [exact Hfmt|].
      apply Forall_cons. split; [exact Hknown | constructor].
Qed.

(** The layout part of the invariant reads six attributes only. *)
Lemma layout_transfer self self' :
  viewergrid self' = viewergrid self ->
  rows self' = rows self -> cols self' = cols self ->
  total_viewers self' = total_viewers self ->
  grid_models self' = grid_models self ->
  (models self = [] -> models self' = []) ->
  match viewergrid self with
  | Some (nrows, ncols) =>
      (exists g, grid_viewer self nrows ncols g /\
                 Forall (Forall cell_known_format) g) /\
      models self = [] /\ total_viewers self = nrows * ncols
  | None =>
      rows self = None /\ cols self = None /\ grid_models self = None /\
      total_viewers self = 1
  end ->
  match viewergrid self' with
  | Some (nrows, ncols) =>
      (exists g, grid_viewer self' nrows ncols g /\
                 Forall (Forall cell_known_format) g) /\
      models self' = [] /\ total_viewers self' = nrows * ncols
  | None =>
      rows self' = None /\ cols self' = None /\ grid_models self' = None /\
      total_viewers self' = 1
  end.
Proof.
  intros Hv Hr Hc Ht Hg Hm. rewrite Hv, Hr, Hc, Ht, Hg.
  destruct (viewergrid self) as [[nrows ncols]|]; [|tauto].
  intros ((g & Hgv & Hcells) & Hms & Htot).
  split; [|auto]. exists g. split; [|exact Hcells].
  destruct Hgv as [H1 H2 H3 H4 H5 H6].
  constructor; congruence.
Qed.

(** The invariant carries over to a viewer with the same structures and
    layout whose display settings are in range. *)
Lemma invariant_transfer self self' :
  viewergrid self' = viewergrid self ->
  rows self' = rows self -> cols self' = cols self ->
  total_viewers self' = total_viewers self ->
  grid_models self' = grid_models self ->
  models self' = models self ->
  current_model_index self' = current_model_index self ->
  0 <= surface_opacity self' <= 100 ->
  style_settings self' !! "cartoon" = Some true ->
  In (color_mode self') ("element" :: config_names) ->
  viewer_invariant self -> viewer_invariant self'.
Proof.
  intros Hv Hr Hc Ht Hg Hm Hi Hop Hst Hcm [Hidx Hmode Hfmt _ _ _].
  constructor; try assumption.
  - rewrite Hi, Hm. exact Hidx.
  - apply (layout_transfer self); try assumption. congruence.
  - rewrite Hm. exact Hfmt.
Qed.

Lemma setColorMode_invariant mode kwargs self :
  viewer_invariant self ->
  viewer_invariant (fst (setColorMode mode kwargs self)).
Proof.
  intros Hinv. rewrite setColorMode_outcome.
  destruct (get_color_theme mode kwargs ≫= to_molstar_config) as [c|e] eqn:E;
    [|exact Hinv].
  assert (Hname : In (config_name c) config_names).
  { unfold mbind, result_bind in E.
    destruct (get_color_theme mode kwargs) as [t|]; [|discriminate].
    eapply to_molstar_config_name, E. }
  apply (invariant_transfer self); try reflexivity; try apply Hinv.
  right. exact Hname.
Qed.

Lemma setStyle_invariant style self :
  viewer_invariant self -> viewer_invariant (setStyle self style).
Proof.
  intros Hinv. destruct style as [style|]; [|exact Hinv].
  apply (invariant_transfer self); try reflexivity; try apply Hinv.
  pose proof (inv_cartoon _ Hinv) as Hcart.
  unfold setStyle. cbn.
  repeat match goal with
  | |- context [bool_decide ?P] => destruct (bool_decide P)
  end;
  repeat first [ rewrite lookup_insert_eq
               | rewrite lookup_insert_ne by discriminate ];
  first [reflexivity | exact Hcart].
Qed.

Lemma setSurface_invariant enabled opacity inherit_color color self :
  viewer_invariant self ->
  viewer_invariant (setSurface self enabled opacity inherit_color color).
Proof.
  intros Hinv. unfold setSurface.
  destruct color as [c|]; [destruct (negb inherit_color && negb (PyStr.is_empty c))|];
    apply (invariant_transfer self); try reflexivity; try apply Hinv; cbn; lia.
Qed.

(** X2.  Every viewer that a program can hold, built by [__init__] and
    changed by any sequence of calls that return or raise, keeps its
    layout and its ranges: the current index is the last index of
    [models]; a viewer built in grid mode stays in grid mode with a grid
    of [rows] lists of [cols] cells and an empty [models], one built in
    linear mode never gets a grid; every stored structure has format
    pdb, mmcif or sdf; the surface opacity is between 0 and 100; the
    cartoon style stays on; the colour mode is [element] or a name that
    [setColorMode] stores. *)
Theorem reachable_invariant self :
  reachable self -> viewer_invariant self.
Proof.
  induction 1 as [w h vg p | c self Hr IH].
  - apply init_invariant.
  - destruct c; cbn [after].
    + apply addModel_invariant, IH.
    + apply setStyle_invariant, IH.
    + apply setColorMode_invariant, IH.
    + apply (invariant_transfer self); try reflexivity; apply IH.
    + apply setSurface_invariant, IH.
    + apply (invariant_transfer self); try reflexivity; apply IH.
    + apply (invariant_transfer self); try reflexivity; apply IH.
    + apply (invariant_transfer self); try reflexivity; apply IH.
    + destruct IH as [Hidx Hmode Hfmt Hop Hcart Hcol].
      constructor; try assumption; try reflexivity.
      * apply (layout_transfer self); try reflexivity; assumption.
      * constructor.
    + apply setSurface_invariant, IH.
Qed.

Lemma getModel_in_range self model_id :
  0 <= model_id < Z.of_nat (length (models self)) ->
  getModel self model_id = Ok (models self !! Z.to_nat model_id) /\
  is_Some (models self !! Z.to_nat model_id).
Proof.
  intros H. unfold getModel.
  replace ((0 <=? model_id) && (model_id <? Z.of_nat (length (models self))))
    with true by lia.
  destruct (lookup_lt_is_Some_2 (models self) (Z.to_nat model_id)) as [m Hm];
    [lia|].
  rewrite (py_index_lookup _ _ _ (proj1 H) Hm), Hm. split; [reflexivity | eauto].
Qed.

(** X3.  [getModel] never raises: inside [0, len(models)) it returns the
    structure at that index, and everywhere else, negative indices
    included, it returns [None].  After [addModel] has returned in
    linear mode, [getModel] at the current index returns the structure
    just added, with the text passed and the format resolved, and the
    structures added before are still at their indices. *)
Theorem getModel_after_addModel :
  (forall self model_id,
     0 <= model_id < Z.of_nat (length (models self)) ->
     exists m, getModel self model_id = Ok (Some m) /\
               models self !! Z.to_nat model_id = Some m) /\
  (forall self model_id,
     ~ 0 <= model_id < Z.of_nat (length (models self)) ->
     getModel self model_id = Ok None) /\
  (forall self text fmt_arg keep viewer name fmt,
     viewergrid self = None ->
     resolved_format text fmt_arg = Ok fmt ->
     let self' := fst (addModel text fmt_arg keep viewer name self) in
     (exists m,
        getModel self' (current_model_index self') = Ok (Some m) /\
        data m = text /\ format m = fmt /\ keepH m = keep) /\
     (forall i, 0 <= i < Z.of_nat (length (models self)) ->
                getModel self' i = getModel self i)).
Proof.
  split; [|split].
  - intros self model_id H.
    destruct (getModel_in_range self model_id H) as [Hg [m Hm]].
    exists m. rewrite Hg, Hm. auto.
  - intros self model_id H. unfold getModel.
    replace ((0 <=? model_id) && (model_id <? Z.of_nat (length (models self))))
      with false by lia.
    reflexivity.
  - intros self text fmt_arg keep viewer name fmt Hv Hf self'.
    subst self'. rewrite (addModel_linear _ _ _ _ _ _ _ Hv Hf). cbn zeta.
    cbn [fst]. split.
    + eexists. split.
      { match goal with |- getModel ?s ?i = _ =>
          destruct (getModel_in_range s i) as [Hg _];
            [cbn; rewrite length_app; cbn; lia | rewrite Hg]
        end.
        cbn. rewrite length_app. cbn [length].
        replace (Z.to_nat (Z.of_nat (length (models self) + 1) - 1))
          with (length (models self) + 0)%nat by lia.
        rewrite lookup_app_r by lia.
        replace (length (models self) + 0 - length (models self))%nat
          with 0%nat by lia.
        reflexivity. }
      repeat split.
    + intros i Hi.
      match goal with |- getModel ?s i = _ =>
        destruct (getModel_in_range s i) as [Hg _];
          [cbn; rewrite length_app; cbn; lia | rewrite Hg]
      end.
      destruct (getModel_in_range self i Hi) as [Hg' _]. rewrite Hg'.
      cbn. rewrite lookup_app_l by lia. reflexivity.
Qed.

(** X3 at concrete inputs: two structures added to a linear viewer. *)
Lemma getModel_after_addModel_witness :
  let self := fst (addModel "ATOM" None false None None (view None)) in
  let self' := fst (addModel "data_x" (Some "CIF") true None None self) in
  (exists m, getModel self' (current_model_index self') = Ok (Some m) /\
             data m = "data_x" /\ format m = "mmcif" /\ keepH m = true) /\
  getModel self' 0 = getModel self 0 /\
  getModel self' (-1) = Ok None.
Proof.
  destruct getModel_after_addModel as (_ & Hout & Hadd).
  set (self := fst (addModel "ATOM" None false None None (view None))).
  destruct (Hadd self "data_x" (Some "CIF") true None None "mmcif"
              eq_refl eq_refl) as [Hlast Hkeep].
  split; [exact Hlast|]. split.
  - apply Hkeep. vm_compute. split; [discriminate | reflexivity].
  - apply Hout. vm_compute. intros [H _]. apply H. reflexivity.
Defined.

(** X4.  [setSurface] stores an opacity between 0 and 100 whatever it is
    given: the value itself inside the range, 0 below it, 100 above it.
    [addSurface] turns the surface on with the opacity back at 40 and
    leaves the colour parameters alone. *)
Theorem setSurface_clamps self enabled opacity inherit_color color :
  let self' := setSurface self enabled opacity inherit_color color in
  0 <= surface_opacity self' <= 100 /\
  (0 <= opacity <= 100 -> surface_opacity self' = opacity) /\
  (opacity < 0 -> surface_opacity self' = 0) /\
  (100 < opacity -> surface_opacity self' = 100) /\
  surface_enabled self' = enabled /\
  surface_opacity (addSurface self) = 40 /\
  surface_enabled (addSurface self) = true /\
  color_params (addSurface self) = color_params self.
Proof.
  cbn zeta. unfold addSurface, setSurface.
  destruct color as [c|];
    [destruct (negb inherit_color && negb (PyStr.is_empty c))|];
    cbn; repeat split; lia.
Qed.

Lemma dict_get_set_eq {V} (d : dict V) key v :
  dict_get (dict_set d key v) key = Some v.
Proof.
  induction d as [|[k w] d IH]; simpl.
  - rewrite String.eqb_refl. reflexivity.
  - destruct (String.eqb k key) eqn:E; simpl; rewrite E; [reflexivity | exact IH].
Qed.

Lemma dict_get_set_ne {V} (d : dict V) key key' v :
  key <> key' -> dict_get (dict_set d key v) key' = dict_get d key'.
Proof.
  intros Hne. induction d as [|[k w] d IH]; simpl.
  - destruct (String.eqb_spec key key'); [contradiction | reflexivity].
  - destruct (String.eqb_spec k key) as [->|Hk]; simpl.
    + destruct (String.eqb_spec key key'); [contradiction | reflexivity].
    + rewrite IH. reflexivity.
Qed.

Lemma config_has_no_surface_color t c :
  to_molstar_config t = Ok c ->
  dict_get (config_params c) "surface_color" = None.
Proof.
  destruct t; cbn -[dict_get]; unfold mbind, result_bind;
    repeat match goal with
    | |- context [match ?x with _ => _ end] => destruct x; [|discriminate]
    | |- context [if ?b then _ else _] => destruct b
    end;
    intros H; injection H as <-; reflexivity.
Qed.

(** X5.  A surface colour lives in [color_params]: [setSurface] with
    [inherit_color=False] and a non-empty colour stores it under
    [surface_color] beside the parameters of the theme, which it keeps;
    with [inherit_color=True], or without a colour, it leaves
    [color_params] alone.  Every later [setColorMode] that returns
    replaces [color_params], so the surface colour is gone. *)
Theorem surface_color_in_color_params :
  (forall self enabled opacity c,
     c <> "" ->
     let self' := setSurface self enabled opacity false (Some c) in
     dict_get (color_params self') "surface_color" = Some (PStr c) /\
     forall key, key <> "surface_color" ->
       dict_get (color_params self') key = dict_get (color_params self) key) /\
  (forall self enabled opacity inherit_color color,
     inherit_color = true \/ color = None \/ color = Some "" ->
     color_params (setSurface self enabled opacity inherit_color color)
       = color_params self) /\
  (forall self mode kwargs self',
     setColorMode mode kwargs self = (self', Ok tt) ->
     dict_get (color_params self') "surface_color" = None).
Proof.
  split; [|split].
  - intros self enabled opacity c Hc self'. subst self'. unfold setSurface.
    destruct c as [|a c]; [contradiction|]. cbn.
    split; [apply dict_get_set_eq|].
    intros key Hk. apply dict_get_set_ne. congruence.
  - intros self enabled opacity inherit_color color H. unfold setSurface.
    destruct color as [c|]; [|reflexivity].
    destruct H as [->|[H|H]]; [reflexivity | discriminate |].
    injection H as ->. rewrite andb_false_r. reflexivity.
  - intros self mode kwargs self' H. rewrite setColorMode_outcome in H.
    destruct (get_color_theme mode kwargs ≫= to_molstar_config) as [c|e] eqn:E;
      [|discriminate].
    injection H as <-. cbn.
    unfold mbind, result_bind in E.
    destruct (get_color_theme mode kwargs) as [t|]; [|discriminate].
    eapply config_has_no_surface_color, E.
Qed.

(** X5 at concrete inputs: a red surface, then the rainbow mode. *)
Lemma surface_color_in_color_params_witness :
  let self := setSurface (view None) true 30 false (Some "#FF0000") in
  dict_get (color_params self) "surface_color" = Some (PStr "#FF0000") /\
  dict_get (color_params (fst (setColorMode "rainbow" ∅ self))) "surface_color"
    = None.
Proof.
  destruct surface_color_in_color_params as (Hset & _ & Hmode).
  split.
  - apply (Hset (view None) true 30 "#FF0000"). discriminate.
  - apply (Hmode (setSurface (view None) true 30 false (Some "#FF0000"))
             "rainbow" ∅).
    vm_compute. reflexivity.
Defined.

(** X6.  [setStyle] only ever turns styles on.  A style that is on stays
    on, so [cartoon] cannot be switched off; [line] is never changed;
    without a dictionary nothing changes. *)
Theorem setStyle_only_turns_on self style :
  (forall key, style_settings self !! key = Some true ->
               style_settings (setStyle self style) !! key = Some true) /\
  style_settings (setStyle self style) !! "line" = style_settings self !! "line" /\
  (forall key, is_Some (style_settings (setStyle self style) !! key) ->
               is_Some (style_settings self !! key)
               \/ In key ["cartoon"; "stick"; "sphere"]) /\
  setStyle self None = self.
Proof.
  split; [|split; [|split]]; [| | |reflexivity].
  - intros key Hk. destruct style as [style|]; [|exact Hk].
    unfold setStyle. cbn.
    repeat match goal with
    | |- context [bool_decide ?P] => destruct (bool_decide P)
    end;
    repeat match goal with
    | |- context [<[?k := true]> _ !! key] =>
        destruct (decide (k = key)) as [->|];
          [rewrite lookup_insert_eq; reflexivity
          |rewrite lookup_insert_ne by assumption]
    end; exact Hk.
  - destruct style as [style|]; [|reflexivity].
    unfold setStyle. cbn.
    repeat match goal with
    | |- context [bool_decide ?P] => destruct (bool_decide P)
    end;
    repeat rewrite lookup_insert_ne by discriminate; reflexivity.
  - intros key Hk. destruct style as [style|]; [|left; exact Hk].
    unfold setStyle in Hk. cbn in Hk. cbn [In].
    destruct (decide (key = "cartoon")) as [->|H1]; [auto|].
    destruct (decide (key = "stick")) as [->|H2]; [auto|].
    destruct (decide (key = "sphere")) as [->|H3]; [auto|].
    left.
    repeat match type of Hk with
    | context [bool_decide ?P] => destruct (bool_decide P)
    end;
    repeat rewrite lookup_insert_ne in Hk by congruence; exact Hk.
Qed.

(* ================================================================== *)
(** * The capacity of a grid *)
(* ================================================================== *)

Lemma count_le (l : list (option Model)) :
  (length (List.filter (fun c => bool_decide (c <> None)) l) <= length l)%nat.
Proof.
  induction l as [|c l IH]; simpl; [lia|].
  destruct (bool_decide (c <> None)); simpl; lia.
Qed.

Lemma count_all (l : list (option Model)) :
  length (List.filter (fun c => bool_decide (c <> None)) l) = length l <->
  forall c, c ∈ l -> c <> None.
Proof.
  induction l as [|c l IH]; simpl.
  - split; [|reflexivity]. intros _ c Hc. inversion Hc.
  - pose proof (count_le l) as Hle.
    destruct (bool_decide (c <> None)) eqn:E; simpl.
    + apply bool_decide_eq_true in E. split.
      * intros H x Hx. apply elem_of_cons in Hx as [->|Hx]; [exact E|].
        apply IH; [lia | exact Hx].
      * intros H. f_equal. apply IH. intros x Hx. apply H. right. exact Hx.
    + apply bool_decide_eq_false in E. split; [lia|].
      intros H. exfalso. apply E, H. left.
Qed.

Lemma count_insert (l : list (option Model)) j x m :
  l !! j = Some x ->
  (length (List.filter (fun c => bool_decide (c <> None)) (<[j := Some m]> l))
   = length (List.filter (fun c => bool_decide (c <> None)) l)
     + match x with None => 1 | Some _ => 0 end)%nat.
Proof.
  revert j. induction l as [|c l IH]; intros j H; [discriminate|].
  destruct j as [|j]; simpl in H |- *.
  - injection H as ->. destruct x; simpl; lia.
  - specialize (IH _ H).
    destruct (bool_decide (c <> None)); simpl; lia.
Qed.

Lemma count_concat_insert (g : list (list (option Model))) i r r' :
  g !! i = Some r ->
  (length (List.filter (fun c => bool_decide (c <> None)) (concat (<[i := r']> g)))
   + length (List.filter (fun c => bool_decide (c <> None)) r)
   = length (List.filter (fun c => bool_decide (c <> None)) (concat g))
     + length (List.filter (fun c => bool_decide (c <> None)) r'))%nat.
Proof.
  revert i. induction g as [|r0 g IH]; intros i H; [discriminate|].
  destruct i as [|i]; simpl in H |- *.
  - injection H as ->. rewrite !List.filter_app, !length_app. lia.
  - specialize (IH _ H). rewrite !List.filter_app, !length_app. lia.
Qed.

Lemma length_concat_grid (g : list (list (option Model))) k :
  Forall (fun r => length r = k) g ->
  length (concat g) = (length g * k)%nat.
Proof.
  induction 1 as [|r g Hr _ IH]; simpl; [reflexivity|].
  rewrite length_app, IH, Hr. reflexivity.
Qed.

Lemma existing_count_le self nrows ncols g :
  grid_viewer self nrows ncols g ->
  existing_count g <= capacity nrows ncols.
Proof.
  intros [_ _ _ _ Hlen Hrows]. unfold existing_count, capacity.
  pose proof (count_le (concat g)) as Hle.
  rewrite (length_concat_grid _ _ Hrows), Hlen in Hle. nia.
Qed.

(** A grid is full when its count of structures is its capacity. *)
Lemma grid_full_count self nrows ncols g :
  grid_viewer self nrows ncols g ->
  grid_full g nrows ncols <-> existing_count g = capacity nrows ncols.
Proof.
  intros Hgv. pose proof Hgv as [_ _ _ _ Hlen Hrows].
  assert (Hcap : Z.of_nat (length (concat g)) = capacity nrows ncols).
  { rewrite (length_concat_grid _ _ Hrows), Hlen. unfold capacity. nia. }
  unfold existing_count. rewrite <- Hcap.
  rewrite Nat2Z.inj_iff, count_all. split.
  - intros Hfull c Hc.
    apply list_elem_of_In, in_concat in Hc as (r & Hr & Hcr).
    apply (proj2 (list_elem_of_In _ _)) in Hr, Hcr.
    apply list_elem_of_lookup in Hr as [i Hi].
    apply list_elem_of_lookup in Hcr as [j Hj].
    assert (Hin : in_grid nrows ncols (Z.of_nat i) (Z.of_nat j)).
    { pose proof (lookup_lt_Some _ _ _ Hi). pose proof (lookup_lt_Some _ _ _ Hj).
      rewrite Forall_forall in Hrows.
      assert (length r = Z.to_nat ncols)
        by (apply Hrows; eapply list_elem_of_lookup_2, Hi).
      unfold in_grid. lia. }
    destruct (Hfull _ _ Hin) as [m Hm].
    unfold cell in Hm.
    rewrite !(proj2 (Z.leb_le _ _)) in Hm by apply Nat2Z.is_nonneg.
    cbn [andb] in Hm.
    rewrite !Nat2Z.id, Hi in Hm. simpl in Hm. congruence.
  - intros Hall row col Hin.
    apply (cell_occupied _ _ _ _ Hgv _ _ Hin).
    destruct (cell_in_grid _ _ _ _ Hgv _ _ Hin) as (r & x & Hr & Hx & Hc).
    rewrite Hc. intros Heq. injection Heq as ->.
    apply (Hall None); [|reflexivity].
    apply list_elem_of_In, in_concat. exists r. split.
    + apply list_elem_of_In. eapply list_elem_of_lookup_2, Hr.
    + apply list_elem_of_In. eapply list_elem_of_lookup_2, Hx.
Qed.

(** The count after an assignment to a cell of the grid. *)
Lemma grid_assign_count self nrows ncols g row col m g' x :
  grid_viewer self nrows ncols g ->
  in_grid nrows ncols row col ->
  cell g row col = Some x ->
  grid_assign g row col m = Ok g' ->
  existing_count g'
    = existing_count g + match x with None => 1 | Some _ => 0 end.
Proof.
  intros Hgv Hin Hx Hg.
  destruct (cell_in_grid _ _ _ _ Hgv _ _ Hin) as (r & x' & Hr & Hx' & Hc).
  assert (x' = x) by congruence. subst x'.
  unfold grid_assign in Hg.
  rewrite (py_index_lookup _ _ _ (proj1 (proj1 Hin)) Hr) in Hg. simpl in Hg.
  rewrite (py_index_lookup _ _ _ (proj1 (proj2 Hin)) Hx') in Hg. simpl in Hg.
  injection Hg as <-. unfold existing_count.
  pose proof (count_concat_insert g _ r (<[Z.to_nat col := Some m]> r) Hr) as H1.
  pose proof (count_insert r _ x m Hx') as H2.
  destruct x; lia.
Qed.

Lemma addModel_auto_room self nrows ncols g text fmt_arg keep name fmt :
  grid_viewer self nrows ncols g ->
  resolved_format text fmt_arg = Ok fmt ->
  existing_count g < capacity nrows ncols ->
  exists g',
    addModel text fmt_arg keep None name self
      = (set_grid_models self g', Ok tt) /\
    grid_viewer (set_grid_models self g') nrows ncols g' /\
    existing_count g' = existing_count g + 1.
Proof.
  intros Hgv Hf Hlt.
  pose proof (next_available_cell_spec _ _ _ _ Hgv) as Hs.
  rewrite (addModel_grid _ _ _ _ Hgv _ _ _ _ _ _ Hf). cbn zeta.
  destruct (_get_next_available_cell self) as [[row col]|e].
  - destruct Hs as (Hin & Hc & _).
    replace ((0 <=? row) && (row <? nrows) && (0 <=? col) && (col <? ncols))
      with true by (unfold in_grid in Hin; lia).
    match goal with |- context [grid_assign g row col ?m] =>
      destruct (grid_assign_in_grid _ _ _ _ Hgv row col m Hin)
        as (g' & Hg & Hgv' & _ & _); rewrite Hg
    end.
    exists g'. split; [reflexivity|]. split; [exact Hgv'|].
    rewrite (grid_assign_count _ _ _ _ _ _ _ _ _ Hgv Hin Hc Hg). reflexivity.
  - destruct Hs as [_ Hfull].
    apply (grid_full_count _ _ _ _ Hgv) in Hfull. lia.
Qed.

Lemma addModel_auto_full self nrows ncols g text fmt_arg keep name fmt :
  grid_viewer self nrows ncols g ->
  resolved_format text fmt_arg = Ok fmt ->
  existing_count g = capacity nrows ncols ->
  addModel text fmt_arg keep None name self
    = (self, Raise (ValueError (GridFull nrows ncols))).
Proof.
  intros Hgv Hf Heq. apply (grid_full_count _ _ _ _ Hgv) in Heq.
  rewrite (addModel_grid _ _ _ _ Hgv _ _ _ _ _ _ Hf). cbn zeta.
  rewrite (next_available_cell_full _ _ _ _ Hgv Heq). reflexivity.
Qed.

(** X7.  A grid holds as many structures as it has cells.  While the
    count of structures is below [rows * cols], [addModel] without a
    placement returns and the count goes up by one; at [rows * cols] it
    raises the capacity error.  A placement given explicitly inside the
    grid always returns: into an empty cell it adds one to the count,
    into an occupied cell it replaces the structure there and the count
    stays. *)
Theorem grid_capacity self nrows ncols g text fmt_arg keep name fmt :
  grid_viewer self nrows ncols g ->
  resolved_format text fmt_arg = Ok fmt ->
  existing_count g <= capacity nrows ncols /\
  (existing_count g < capacity nrows ncols ->
   exists g',
     addModel text fmt_arg keep None name self
       = (set_grid_models self g', Ok tt) /\
     grid_viewer (set_grid_models self g') nrows ncols g' /\
     existing_count g' = existing_count g + 1) /\
  (existing_count g = capacity nrows ncols ->
   addModel text fmt_arg keep None name self
     = (self, Raise (ValueError (GridFull nrows ncols)))) /\
  (forall row col x,
     in_grid nrows ncols row col -> cell g row col = Some x ->
     exists g',
       addModel text fmt_arg keep (Some (row, col)) name self
         = (set_grid_models self g', Ok tt) /\
       existing_count g'
         = existing_count g + match x with None => 1 | Some _ => 0 end).
Proof.
  intros Hgv Hf.
  split; [exact (existing_count_le _ _ _ _ Hgv)|].
  split; [|split].
  - intros Hlt. eapply addModel_auto_room; eassumption.
  - intros Heq. eapply addModel_auto_full; eassumption.
  - intros row col x Hin Hc.
    rewrite (addModel_grid _ _ _ _ Hgv _ _ _ _ _ _ Hf). cbn zeta.
    replace ((0 <=? row) && (row <? nrows) && (0 <=? col) && (col <? ncols))
      with true by (unfold in_grid in Hin; lia).
    match goal with |- context [grid_assign g row col ?m] =>
      destruct (grid_assign_in_grid _ _ _ _ Hgv row col m Hin)
        as (g' & Hg & _ & _ & _); rewrite Hg
    end.
    exists g'. split; [reflexivity|].
    exact (grid_assign_count _ _ _ _ _ _ _ _ _ Hgv Hin Hc Hg).
Qed.

Lemma existing_count_init nrows ncols :
  existing_count (map (fun _ => map (fun _ => None) (py_range ncols))
                      (py_range nrows)) = 0.
Proof.
  unfold existing_count.
  assert (H : forall l : list (option Model),
            (forall c, c ∈ l -> c = None) ->
            List.filter (fun c => bool_decide (c <> None)) l = []).
  { induction l as [|c l IH]; intros Hl; [reflexivity|]. simpl.
    rewrite (Hl c) by left. simpl. apply IH. intros x Hx. apply Hl. right.
    exact Hx. }
  rewrite H; [reflexivity|].
  intros c Hc. apply list_elem_of_In, in_concat in Hc as (r & Hr & Hcr).
  apply in_map_iff in Hr as (x & <- & _).
  apply in_map_iff in Hcr as (y & <- & _). reflexivity.
Qed.

Lemma add_all_cons d ds self :
  add_all (d :: ds) self =
    match addModel d None false None None self with
    | (self', Ok _) => add_all ds self'
    | (self', Raise e) => (self', Raise e)
    end.
Proof. reflexivity. Qed.

(** X8.  A sequence of automatic placements succeeds as long as the grid
    has room: started on a grid that holds [n] structures, it returns
    without an exception exactly when [n] plus the number of placements
    is at most [rows * cols].  A viewer just built with a grid of
    [rows] by [cols] therefore takes [rows * cols] structures and no more. *)
Theorem add_all_capacity :
  (forall ds self nrows ncols g,
     grid_viewer self nrows ncols g ->
     snd (add_all ds self) = Ok tt <->
     existing_count g + Z.of_nat (length ds) <= capacity nrows ncols) /\
  (forall ds width height nrows ncols panel,
     snd (add_all ds (__init__ width height (Some (nrows, ncols)) panel)) = Ok tt
     <-> Z.of_nat (length ds) <= capacity nrows ncols).
Proof.
  assert (Hgen : forall ds self nrows ncols g,
     grid_viewer self nrows ncols g ->
     snd (add_all ds self) = Ok tt <->
     existing_count g + Z.of_nat (length ds) <= capacity nrows ncols).
  { induction ds as [|d ds IH]; intros self nrows ncols g Hgv.
    - pose proof (existing_count_le _ _ _ _ Hgv). cbn. split; [lia | reflexivity].
    - rewrite add_all_cons.
      pose proof (existing_count_le _ _ _ _ Hgv) as Hle.
      destruct (Z.eq_dec (existing_count g) (capacity nrows ncols)) as [Heq|Hne].
      + rewrite (addModel_auto_full self nrows ncols g d None false None
                   (_detect_format d) Hgv (resolved_format_auto d) Heq).
        cbn [snd length]. split; [discriminate | lia].
      + destruct (addModel_auto_room self nrows ncols g d None false None
                    (_detect_format d) Hgv (resolved_format_auto d))
          as (g' & -> & Hgv' & Hcount); [lia|].
        rewrite (IH _ _ _ _ Hgv'), Hcount. cbn [length]. lia. }
  split; [exact Hgen|].
  intros ds width height nrows ncols panel.
  rewrite (Hgen _ _ _ _ _ (init_grid_viewer width height nrows ncols panel)).
  rewrite existing_count_init. lia.
Qed.

(** X1 at a concrete input: a placement outside a 2 x 2 grid. *)
Lemma addModel_raise_unchanged_witness :
  fst (addModel "ATOM" None false (Some (2, 0)) None (view (Some (2, 2))))
    = view (Some (2, 2)).
Proof.
  apply (addModel_raise_unchanged "ATOM" None false (Some (2, 0)) None
           (view (Some (2, 2))) _ (ValueError (OutOfBounds 2 0 2 2))).
  reflexivity.
Defined.

(** X2 at a concrete input: a structure added, then the viewer cleared. *)
Lemma reachable_invariant_witness :
  viewer_invariant
    (after CallClear
       (after (CallAddModel "ATOM" None false None None) (view None))).
Proof.
  apply reachable_invariant.
  apply reachable_call, reachable_call.
  exact (reachable_init 800 600 None false).
Defined.

(** X7 at a concrete input: the first structure of a 2 x 2 grid. *)
Lemma grid_capacity_witness :
  exists g',
    addModel "ATOM" None false None None (view (Some (2, 2)))
      = (set_grid_models (view (Some (2, 2))) g', Ok tt) /\
    existing_count g' = 1.
Proof.
  destruct (grid_capacity (view (Some (2, 2))) 2 2 _ "ATOM" None false None
              "pdb" (init_grid_viewer 800 600 2 2 false) eq_refl)
    as (_ & Hroom & _).
  destruct Hroom as (g' & H1 & _ & H2); [reflexivity|].
  exists g'. split; [exact H1 | exact H2].
Defined.

(** X8 at concrete inputs: a 1 x 2 grid takes two structures, not three. *)
Lemma add_all_capacity_witness :
  snd (add_all ["ATOM"; "HETATM"] (view (Some (1, 2)))) = Ok tt /\
  snd (add_all ["ATOM"; "HETATM"; "ATOM"] (view (Some (1, 2)))) <> Ok tt.
Proof.
  destruct add_all_capacity as [_ H]. split.
  - apply (H ["ATOM"; "HETATM"] 800 600 1 2 false). unfold capacity. simpl. lia.
  - intros Hok.
    apply (H ["ATOM"; "HETATM"; "ATOM"] 800 600 1 2 false) in Hok.
    unfold capacity in Hok. simpl in Hok. lia.
Defined.

(* ================================================================== *)
(** * colors.py: which modes are checked, and how *)
(* ================================================================== *)

(** X9.  [get_color_theme] returns a theme exactly for the seven mode
    names, compared after lower-casing, and the theme returned carries
    the lower-cased mode as its name.  It raises in two cases only: the
    mode is none of the seven, and the exception names the lower-cased
    mode; or the mode is rainbow and the palette is not a key of
    [RAINBOW_PALETTES] (an unhashable palette raises [TypeError]). *)
Theorem get_color_theme_outcome mode kwargs :
  match get_color_theme mode kwargs with
  | Ok theme =>
      In (PyStr.lower mode) color_modes /\
      theme_name theme = PyStr.lower mode
  | Raise e =>
      (~ In (PyStr.lower mode) color_modes /\
       e = ValueError (UnknownColorMode (PyStr.lower mode))) \/
      (PyStr.lower mode = "rainbow" /\
       match kwargs_get kwargs "palette" (PStr "rainbow") with
       | PStr p =>
           dict_get RAINBOW_PALETTES p = None /\
           e = ValueError (UnknownPalette (PStr p))
       | PList _ | PDict _ => e = TypeError
       | v => e = ValueError (UnknownPalette v)
       end)
  end.
Proof.
  unfold get_color_theme.
  repeat match goal with
  | |- context [String.eqb (PyStr.lower mode) ?k] =>
      destruct (String.eqb_spec (PyStr.lower mode) k) as [Heq|?]
  end;
  try (split; [rewrite Heq; cbn; tauto | symmetry; exact Heq]).
  - unfold RainbowColorTheme_init.
    destruct (kwargs_get kwargs "palette" (PStr "rainbow")) as [| | |p| |];
      try (right; split; [exact Heq | reflexivity]).
    destruct (dict_get RAINBOW_PALETTES p) eqn:Hp.
    + split; [rewrite Heq; cbn; tauto | symmetry; exact Heq].
    + right. split; [exact Heq | split; reflexivity].
  - left. split; [|reflexivity].
    cbn [In color_modes]. intros Hin.
    repeat (destruct Hin as [Hin|Hin]; [congruence|]). exact Hin.
Qed.

(** X10.  Four modes never raise, whatever the keyword arguments:
    element, residue, chain and plddt.  [setColorMode] stores no
    parameters for them, except that for chain a truthy [custom_colors]
    is stored as it is, without any check of its shape or of the colours
    in it. *)
Theorem setColorMode_unchecked_modes self mode kwargs :
  In (PyStr.lower mode) ["element"; "residue"; "chain"; "plddt"] ->
  exists name,
    setColorMode mode kwargs self
      = (set_color_params (set_color_mode self name)
           (if String.eqb (PyStr.lower mode) "chain" &&
               py_truthy (kwargs_get kwargs "custom_colors" PNone)
            then [("colors", kwargs_get kwargs "custom_colors" PNone)]
            else []),
         Ok tt).
Proof.
  intros Hin. rewrite setColorMode_outcome. unfold get_color_theme.
  cbn [In] in Hin.
  destruct Hin as [H|[H|[H|[H|[]]]]]; rewrite <- H; cbn [String.eqb Ascii.eqb Bool.eqb andb];
    try (eexists; reflexivity).
  unfold ChainColorTheme_init, py_or.
  generalize (kwargs_get kwargs "custom_colors" PNone). intros cc.
  destruct (py_truthy cc) eqn:T; cbn [to_molstar_config mbind result_bind];
    [rewrite T|]; eexists; reflexivity.
Qed.

(** X10 at a concrete input: a number given as the chain colours. *)
Lemma setColorMode_unchecked_modes_witness :
  exists name,
    setColorMode "Chain" {[ "custom_colors" := PInt 7 ]} (view None)
      = (set_color_params (set_color_mode (view None) name)
           [("colors", PInt 7)], Ok tt).
Proof.
  destruct (setColorMode_unchecked_modes (view None) "Chain"
              {[ "custom_colors" := PInt 7 ]}) as (name & H).
  - cbn. tauto.
  - exists name. rewrite H. reflexivity.
Defined.

(** X11.  In secondary mode a colour that is falsy ([None], the empty
    string, [0], an empty list) is replaced by the default of
    [SECONDARY_STRUCTURE_COLORS] before any check: the call then does
    what a call without colours does, and returns. *)
Theorem secondary_falsy_defaults self mode kwargs :
  PyStr.lower mode = "secondary" ->
  (forall key, In key ["helix_color"; "sheet_color"; "coil_color"] ->
     py_truthy (kwargs_get kwargs key PNone) = false) ->
  get_color_theme mode kwargs
    = Ok (SecondaryStructureTheme
            (PStr "#0FA3FF") (PStr "#24B235") (PStr "#E8E8E8")) /\
  setColorMode mode kwargs self = setColorMode "secondary" ∅ self /\
  snd (setColorMode mode kwargs self) = Ok tt.
Proof.
  intros Hmode Hfalsy.
  assert (Htheme : get_color_theme mode kwargs
    = Ok (SecondaryStructureTheme
            (PStr "#0FA3FF") (PStr "#24B235") (PStr "#E8E8E8"))).
  { unfold get_color_theme. rewrite Hmode. cbn [String.eqb Ascii.eqb Bool.eqb].
    unfold SecondaryStructureTheme_init, py_or.
    rewrite !Hfalsy by (cbn; tauto). reflexivity. }
  split; [exact Htheme|].
  assert (Hdef : get_color_theme "secondary" ∅
    = Ok (SecondaryStructureTheme
            (PStr "#0FA3FF") (PStr "#24B235") (PStr "#E8E8E8"))).
  { unfold get_color_theme, kwargs_get. rewrite !lookup_empty. reflexivity. }
  rewrite !setColorMode_outcome, Htheme, Hdef.
  split; reflexivity.
Qed.

(** X11 at a concrete input: an empty string as the helix colour. *)
Lemma secondary_falsy_defaults_witness :
  snd (setColorMode "Secondary" {[ "helix_color" := PStr "" ]} (view None))
    = Ok tt.
Proof.
  apply (secondary_falsy_defaults (view None) "Secondary"
           {[ "helix_color" := PStr "" ]}); [reflexivity|].
  intros key Hkey. cbn [In] in Hkey.
  destruct Hkey as [<-|[<-|[<-|[]]]]; reflexivity.
Defined.

(* ================================================================== *)
(** * colors.py: hexadecimal colours *)
(* ================================================================== *)

(** A hexadecimal digit is none of the characters that [int] treats
    specially, and is not [#]. *)
Lemma hex_digit_plain c d :
  PyInt.hex_digit_value c = Some d ->
  PyInt.c_isspace c = false /\ Ascii.eqb c PyInt.underscore = false /\
  Ascii.eqb c "+" = false /\ Ascii.eqb c "-" = false /\
  Ascii.eqb c "x" = false /\ Ascii.eqb c "X" = false /\
  Ascii.eqb c "#" = false.
Proof.
  destruct c as [[] [] [] [] [] [] [] []]; intros H;
    solve [discriminate H | repeat split].
Qed.

Lemma scan_hex_step acc prev c d s :
  PyInt.hex_digit_value c = Some d ->
  PyInt.scan_hex acc prev (String c s) = PyInt.scan_hex (16 * acc + d) PyInt.Digit s.
Proof.
  intros H. destruct (hex_digit_plain c d H) as (_ & Hu & _).
  cbn [PyInt.scan_hex]. rewrite Hu, H. reflexivity.
Qed.

Lemma read_sign_plain c s :
  Ascii.eqb c "+" = false -> Ascii.eqb c "-" = false ->
  PyInt.read_sign (String c s) = (false, String c s).
Proof.
  destruct c as [[] [] [] [] [] [] [] []]; intros H1 H2;
    solve [reflexivity | discriminate].
Qed.

Lemma read_prefix_plain h l s :
  Ascii.eqb l "x" = false -> Ascii.eqb l "X" = false ->
  PyInt.read_prefix (String h (String l s)) = String h (String l s).
Proof.
  intros H1 H2. unfold PyInt.read_prefix.
  destruct h as [[] [] [] [] [] [] [] []]; try reflexivity.
  rewrite H1, H2. reflexivity.
Qed.

(** [int(text, 16)] on a text that begins with two hexadecimal digits. *)
Lemma of_hex_plain h l rest a b :
  PyInt.hex_digit_value h = Some a ->
  PyInt.hex_digit_value l = Some b ->
  PyInt.of_hex (String h (String l rest)) =
    match PyInt.scan_hex (16 * a + b) PyInt.Digit rest with
    | Some (v, r) =>
        match PyInt.skip_spaces r with
        | EmptyString => Ok v
        | String _ _ =>
            Raise (ValueError (InvalidLiteral (String h (String l rest))))
        end
    | None => Raise (ValueError (InvalidLiteral (String h (String l rest))))
    end.
Proof.
  intros Ha Hb.
  destruct (hex_digit_plain h a Ha) as (Hs & Hu & Hp & Hm & _).
  destruct (hex_digit_plain l b Hb) as (_ & _ & _ & _ & Hx & HX & _).
  unfold PyInt.of_hex. cbn [PyInt.skip_spaces]. rewrite Hs.
  rewrite (read_sign_plain h _ Hp Hm), (read_prefix_plain h l rest Hx HX).
  rewrite (scan_hex_step 0 _ h a _ Ha), (scan_hex_step _ _ l b _ Hb).
  replace (16 * (16 * 0 + a) + b) with (16 * a + b) by lia.
  destruct h as [[] [] [] [] [] [] [] []]; try reflexivity.
  discriminate Hu.
Qed.

Lemma of_hex_two h l a b :
  PyInt.hex_digit_value h = Some a ->
  PyInt.hex_digit_value l = Some b ->
  PyInt.of_hex (String h (String l "")) = Ok (16 * a + b).
Proof. intros Ha Hb. rewrite (of_hex_plain h l "" a b Ha Hb). reflexivity. Qed.

(** The two characters that [rgb_to_hex] writes for a channel. *)
Lemma channel_digits n :
  0 <= n <= 255 ->
  exists h l,
    PyStr.upper (PyInt.format_02x n) = String h (String l "") /\
    PyInt.hex_digit_value h = Some (n / 16) /\
    PyInt.hex_digit_value l = Some (n mod 16).
Proof.
  intros Hn.
  assert (Hall : forallb (fun n =>
            match PyStr.upper (PyInt.format_02x n) with
            | String h (String l EmptyString) =>
                match PyInt.hex_digit_value h, PyInt.hex_digit_value l with
                | Some a, Some b => (a =? n / 16) && (b =? n mod 16)
                | _, _ => false
                end
            | _ => false
            end) (py_range 256) = true) by (vm_compute; reflexivity).
  rewrite forallb_forall in Hall.
  specialize (Hall n (py_range_elem 256 n ltac:(lia))).
  destruct (PyStr.upper (PyInt.format_02x n)) as [|h [|l [|]]]; try discriminate.
  destruct (PyInt.hex_digit_value h) as [a|] eqn:Ha; [|discriminate].
  destruct (PyInt.hex_digit_value l) as [b|] eqn:Hb; [|discriminate].
  apply andb_true_iff in Hall as [H1 H2].
  apply Z.eqb_eq in H1, H2. subst a b. exists h, l. repeat split; assumption.
Qed.

Lemma rgb_to_hex_digits r g b :
  0 <= r <= 255 -> 0 <= g <= 255 -> 0 <= b <= 255 ->
  exists h1 l1 h2 l2 h3 l3,
    rgb_to_hex r g b
      = String "#" (String h1 (String l1 (String h2 (String l2
                      (String h3 (String l3 "")))))) /\
    PyInt.hex_digit_value h1 = Some (r / 16) /\
    PyInt.hex_digit_value l1 = Some (r mod 16) /\
    PyInt.hex_digit_value h2 = Some (g / 16) /\
    PyInt.hex_digit_value l2 = Some (g mod 16) /\
    PyInt.hex_digit_value h3 = Some (b / 16) /\
    PyInt.hex_digit_value l3 = Some (b mod 16).
Proof.
  intros Hr Hg Hb.
  destruct (channel_digits r Hr) as (h1 & l1 & E1 & ? & ?).
  destruct (channel_digits g Hg) as (h2 & l2 & E2 & ? & ?).
  destruct (channel_digits b Hb) as (h3 & l3 & E3 & ? & ?).
  exists h1, l1, h2, l2, h3, l3. repeat split; try assumption.
  unfold rgb_to_hex, PyStr.upper in *. cbn [PyStr.map_chars].
  rewrite !PyStrFacts.map_chars_app, E1, E2, E3. reflexivity.
Qed.

Lemma hex_to_rgb_of_rgb_to_hex r g b :
  0 <= r <= 255 -> 0 <= g <= 255 -> 0 <= b <= 255 ->
  hex_to_rgb (rgb_to_hex r g b) = Ok (r, g, b).
Proof.
  intros Hr Hg Hb.
  destruct (rgb_to_hex_digits r g b Hr Hg Hb)
    as (h1 & l1 & h2 & l2 & h3 & l3 & -> & A1 & B1 & A2 & B2 & A3 & B3).
  pose proof (hex_digit_plain _ _ A1) as (_ & _ & _ & _ & _ & _ & N1).
  pose proof (Z.div_mod r 16 ltac:(lia)) as Dr.
  pose proof (Z.div_mod g 16 ltac:(lia)) as Dg.
  pose proof (Z.div_mod b 16 ltac:(lia)) as Db.
  unfold hex_to_rgb. cbn [PyStr.lstrip_char Ascii.eqb Bool.eqb].
  rewrite N1. cbn [PyStr.take PyStr.drop].
  rewrite (of_hex_two _ _ _ _ A1 B1), (of_hex_two _ _ _ _ A2 B2),
    (of_hex_two _ _ _ _ A3 B3).
  cbn [mbind result_bind]. rewrite <- Dr, <- Dg, <- Db. reflexivity.
Qed.

(** X12.  Colours written by [rgb_to_hex] are read back unchanged: for
    channels between 0 and 255, [hex_to_rgb] returns the three channels,
    and [_hex_to_int], which [setColorMode] applies to a colour, returns
    the 24-bit number with red in the high byte. *)
Theorem rgb_to_hex_round_trip r g b :
  0 <= r <= 255 -> 0 <= g <= 255 -> 0 <= b <= 255 ->
  hex_to_rgb (rgb_to_hex r g b) = Ok (r, g, b) /\
  _hex_to_int (PStr (rgb_to_hex r g b)) = Ok (65536 * r + 256 * g + b).
Proof.
  intros Hr Hg Hb.
  split; [exact (hex_to_rgb_of_rgb_to_hex r g b Hr Hg Hb)|].
  destruct (rgb_to_hex_digits r g b Hr Hg Hb)
    as (h1 & l1 & h2 & l2 & h3 & l3 & -> & A1 & B1 & A2 & B2 & A3 & B3).
  pose proof (hex_digit_plain _ _ A1) as (_ & _ & _ & _ & _ & _ & N1).
  pose proof (hex_digit_plain _ _ B1) as (_ & _ & _ & _ & _ & _ & M1).
  pose proof (hex_digit_plain _ _ A2) as (_ & _ & _ & _ & _ & _ & N2).
  pose proof (hex_digit_plain _ _ B2) as (_ & _ & _ & _ & _ & _ & M2).
  pose proof (hex_digit_plain _ _ A3) as (_ & _ & _ & _ & _ & _ & N3).
  pose proof (hex_digit_plain _ _ B3) as (_ & _ & _ & _ & _ & _ & M3).
  pose proof (Z.div_mod r 16 ltac:(lia)) as Dr.
  pose proof (Z.div_mod g 16 ltac:(lia)) as Dg.
  pose proof (Z.div_mod b 16 ltac:(lia)) as Db.
  unfold _hex_to_int. cbn [PyStr.remove_char Ascii.eqb Bool.eqb].
  rewrite N1, M1, N2, M2, N3, M3.
  rewrite (of_hex_plain _ _ _ _ _ A1 B1).
  rewrite (scan_hex_step _ _ _ _ _ A2), (scan_hex_step _ _ _ _ _ B2),
    (scan_hex_step _ _ _ _ _ A3), (scan_hex_step _ _ _ _ _ B3).
  cbn [PyInt.scan_hex PyInt.skip_spaces]. f_equal. lia.
Qed.

(** X12 at a concrete input. *)
Lemma rgb_to_hex_round_trip_witness :
  hex_to_rgb (rgb_to_hex 255 128 0) = Ok (255, 128, 0) /\
  _hex_to_int (PStr (rgb_to_hex 255 128 0)) = Ok 16744448.
Proof. apply (rgb_to_hex_round_trip 255 128 0); lia. Defined.

(** Every failure of [int(text, 16)] is the [ValueError] on [text]. *)
Lemma of_hex_raise t e :
  PyInt.of_hex t = Raise e -> e = ValueError (InvalidLiteral t).
Proof.
  unfold PyInt.of_hex. intros H.
  destruct (PyInt.read_sign (PyInt.skip_spaces t)) as [neg s1].
  split_call H; congruence.
Qed.

Lemma drop_short k : forall s,
  (String.length s <= k)%nat -> PyStr.drop k s = "".
Proof.
  induction k as [|k IH]; intros [|c s] H; simpl in *;
    try reflexivity; try lia.
  apply IH. lia.
Qed.

Lemma take_app_le n : forall s t,
  (n <= String.length s)%nat -> PyStr.take n (s ++ t) = PyStr.take n s.
Proof.
  induction n as [|n IH]; intros [|c s] t H; simpl in *;
    try reflexivity; try lia.
  rewrite IH by lia. reflexivity.
Qed.

Lemma drop_app_le n : forall s t,
  (n <= String.length s)%nat -> PyStr.drop n (s ++ t) = PyStr.drop n s ++ t.
Proof.
  induction n as [|n IH]; intros [|c s] t H; simpl in *;
    try reflexivity; try lia.
  apply IH. lia.
Qed.

Lemma length_drop n : forall s,
  String.length (PyStr.drop n s) = (String.length s - n)%nat.
Proof.
  induction n as [|n IH]; intros [|c s]; simpl; try reflexivity; try lia.
  apply IH.
Qed.

Lemma lstrip_char_app c s t :
  PyStr.lstrip_char c s <> "" ->
  PyStr.lstrip_char c (s ++ t) = PyStr.lstrip_char c s ++ t.
Proof.
  induction s as [|x s IH]; simpl; [congruence|].
  destruct (Ascii.eqb x c); [exact IH | reflexivity].
Qed.

(** X13.  [hex_to_rgb] reads exactly the first six characters after the
    leading [#] signs.  A colour with fewer than five characters there,
    such as the three-digit shorthand [#FFF], raises the [ValueError] of
    [int]; whatever follows six characters, such as the alpha digits of
    [#RRGGBBAA], is ignored. *)
Theorem hex_to_rgb_six_characters :
  (forall s,
     (String.length (PyStr.lstrip_char "#" s) < 5)%nat ->
     exists t, hex_to_rgb s = Raise (ValueError (InvalidLiteral t))) /\
  (forall s extra,
     (6 <= String.length (PyStr.lstrip_char "#" s))%nat ->
     hex_to_rgb (s ++ extra) = hex_to_rgb s).
Proof.
  split.
  - intros s Hlen. unfold hex_to_rgb. cbn zeta.
    rewrite (drop_short 4 (PyStr.lstrip_char "#" s)) by lia.
    destruct (PyInt.of_hex (PyStr.take 2 (PyStr.lstrip_char "#" s)))
      as [r|e] eqn:Er.
    + destruct (PyInt.of_hex
                  (PyStr.take 2 (PyStr.drop 2 (PyStr.lstrip_char "#" s))))
        as [g|e] eqn:Eg.
      * exists "". reflexivity.
      * apply of_hex_raise in Eg. subst e. eexists. reflexivity.
    + apply of_hex_raise in Er. subst e. eexists. reflexivity.
  - intros s extra Hlen. unfold hex_to_rgb. cbn zeta.
    rewrite lstrip_char_app
      by (destruct (PyStr.lstrip_char "#" s); [simpl in Hlen; lia | discriminate]).
    rewrite !drop_app_le by lia.
    rewrite !take_app_le by (rewrite ?length_drop; lia).
    reflexivity.
Qed.

(** X13 at concrete inputs. *)
Lemma hex_to_rgb_six_characters_witness :
  (exists t, hex_to_rgb "#FFF" = Raise (ValueError (InvalidLiteral t))) /\
  hex_to_rgb "#FF8000CC" = hex_to_rgb "#FF8000".
Proof.
  destruct hex_to_rgb_six_characters as [Hshort Hlong]. split.
  - apply (Hshort "#FFF"). simpl. lia.
  - apply (Hlong "#FF8000" "CC"). simpl. lia.
Defined.

Lemma mapM_result_length {A B} (f : A -> result B) xs : forall ys,
  mapM f xs = Ok ys -> length ys = length xs.
Proof.
  induction xs as [|x xs IH]; intros ys H; simpl in H.
  - injection H as <-. reflexivity.
  - unfold mbind, result_bind in H. fold (mapM f xs) in H.
    destruct (f x) as [y|e]; [|discriminate].
    destruct (mapM f xs) as [k|e]; [|discriminate].
    injection H as <-. simpl. rewrite (IH k eq_refl). reflexivity.
Qed.

(** X14.  A gradient that is returned has [steps] colours, except that
    it is empty when [steps] is not positive or there is no colour to
    start from. *)
Theorem generate_gradient_length colors steps l :
  generate_gradient colors steps = Ok l ->
  Z.of_nat (length l)
    = if Z.of_nat (length colors) =? 0 then 0 else Z.max 0 steps.
Proof.
  unfold generate_gradient. intros H.
  destruct (Z.leb_spec steps 0) as [Hs|Hs].
  { injection H as <-. simpl. destruct (_ =? 0); lia. }
  destruct (Z.eqb_spec steps 1) as [H1|H1].
  { destruct colors as [|c cs]; [discriminate H|].
    injection H as <-. simpl length. subst steps.
    destruct (Z.eqb_spec (Z.of_nat (S (length cs))) 0); lia. }
  destruct (Z.eqb_spec (Z.of_nat (length colors)) 0) as [H0|H0].
  { injection H as <-. reflexivity. }
  destruct (Z.eqb_spec (Z.of_nat (length colors)) 1) as [Hc|Hc].
  { destruct colors as [|c cs]; [discriminate H|].
    injection H as <-. rewrite length_replicate. lia. }
  apply mapM_result_length in H. rewrite H.
  unfold py_range. rewrite length_map, length_seq. lia.
Qed.

(** X14 at a concrete input: three steps between two colours. *)
Lemma generate_gradient_length_witness :
  exists l, generate_gradient ["#000000"; "#FFFFFF"] 3 = Ok l /\
            Z.of_nat (length l) = 3.
Proof.
  eexists. split; [vm_compute; reflexivity|].
  apply (generate_gradient_length ["#000000"; "#FFFFFF"] 3).
  vm_compute. reflexivity.
Defined.

(** The product of 0.0 and a difference of two channels is a zero. *)
Lemma zero_times_difference :
  forallb (fun k =>
    match PyFloat.mul_int (S754_zero false) (k - 255) with
    | Ok (S754_zero _) => true
    | _ => false
    end) (py_range 511) = true.
Proof. vm_cast_no_check (eq_refl true). Qed.

(** A channel plus a zero of either sign is the channel. *)
Lemma channel_plus_zero :
  forallb (fun c =>
    forallb (fun sign =>
      match PyFloat.int_add c (S754_zero sign) ≫= PyFloat.to_int with
      | Ok a => a =? c
      | Raise _ => false
      end) [false; true]) (py_range 256) = true.
Proof. vm_cast_no_check (eq_refl true). Qed.

Lemma blend_channel_zero c1 c2 :
  0 <= c1 <= 255 -> 0 <= c2 <= 255 ->
  blend_channel c1 c2 (S754_zero false) = Ok c1.
Proof.
  intros H1 H2. unfold blend_channel.
  pose proof zero_times_difference as Hmul.
  rewrite forallb_forall in Hmul.
  specialize (Hmul (c2 - c1 + 255)
               (py_range_elem 511 (c2 - c1 + 255) ltac:(lia))).
  replace (c2 - c1 + 255 - 255) with (c2 - c1) in Hmul by lia.
  destruct (PyFloat.mul_int (S754_zero false) (c2 - c1)) as [[sign| | |]|];
    try discriminate.
  pose proof channel_plus_zero as Hadd.
  rewrite forallb_forall in Hadd.
  specialize (Hadd c1 (py_range_elem 256 c1 ltac:(lia))).
  rewrite forallb_forall in Hadd.
  specialize (Hadd sign ltac:(destruct sign; cbn; tauto)).
  unfold mbind, result_bind in *.
  destruct (PyFloat.int_add c1 (S754_zero sign)) as [x|]; [|discriminate].
  destruct (PyFloat.to_int x) as [a|]; [|discriminate].
  apply Z.eqb_eq in Hadd. subst a. reflexivity.
Qed.

(* ================================================================== *)
(** * colors.py: the blend of the gradient *)
(* ================================================================== *)

(** [int(x)] is the truncation of [x] towards zero. *)
Lemma to_int_truncated x n : PyFloat.to_int x = Ok n <-> truncated x n.
Proof.
  destruct x as [s|s| |s m e]; cbn [PyFloat.to_int truncated].
  - split; [intros [= <-]; reflexivity | intros ->; reflexivity].
  - split; [discriminate | contradiction].
  - split; [discriminate | contradiction].
  - destruct e as [|k|k].
    + change (Z.max 0 (- 0)) with 0. change (Z.max 0 0) with 0.
      change (2 ^ 0) with 1. split.
      * intros [= <-]. exists (Z.pos m). split; [reflexivity | lia].
      * intros (a & -> & Ha). destruct s; f_equal; lia.
    + change (Z.max 0 (- Z.pos k)) with 0.
      change (Z.max 0 (Z.pos k)) with (Z.pos k).
      change (2 ^ 0) with 1. split.
      * intros [= <-]. exists (Z.pos m * 2 ^ Z.pos k).
        split; [reflexivity | lia].
      * intros (a & -> & Ha). destruct s; f_equal; lia.
    + change (Z.max 0 (- Z.neg k)) with (Z.pos k).
      change (Z.max 0 (Z.neg k)) with 0.
      change (2 ^ 0) with 1.
      assert (Hp : 0 < 2 ^ Z.pos k) by (apply Z.pow_pos_nonneg; lia).
      split.
      * intros [= <-]. exists (Z.pos m / 2 ^ Z.pos k).
        split; [reflexivity|].
        pose proof (Z.mul_div_le (Z.pos m) _ Hp).
        pose proof (Z.mul_succ_div_gt (Z.pos m) _ Hp). lia.
      * intros (a & -> & Ha).
        assert (Hq : Z.pos m / 2 ^ Z.pos k = a).
        { symmetry.
          apply (Z.div_unique _ _ a (Z.pos m - a * 2 ^ Z.pos k)); lia. }
        rewrite Hq. reflexivity.
Qed.

(** A difference of two channels is a binary64 value: converting it to
    a float and back gives it again. *)
Lemma channel_difference_exact :
  forallb (fun k =>
    match PyFloat.of_int (k - 255) ≫= PyFloat.to_int with
    | Ok n => n =? k - 255
    | Raise _ => false
    end) (py_range 511) = true.
Proof. vm_cast_no_check (eq_refl true). Qed.

(** The blend at the factor 0.5 from the channel 0, and up to the
    channel 255. *)
Lemma blend_channel_half_checked :
  forallb (fun c =>
    match blend_channel 0 c float_half, blend_channel c 255 float_half with
    | Ok a, Ok b => (a =? c / 2) && (b =? (c + 255) / 2)
    | _, _ => false
    end) (py_range 256) = true.
Proof. vm_cast_no_check (eq_refl true). Qed.

Lemma blend_channel_half c :
  0 <= c <= 255 ->
  blend_channel 0 c float_half = Ok (c / 2) /\
  blend_channel c 255 float_half = Ok ((c + 255) / 2).
Proof.
  intros Hc. pose proof blend_channel_half_checked as Hall.
  rewrite forallb_forall in Hall.
  specialize (Hall c (py_range_elem 256 c ltac:(lia))).
  destruct (blend_channel 0 c float_half) as [a|]; [|discriminate].
  destruct (blend_channel c 255 float_half) as [b|]; [|discriminate].
  apply andb_true_iff in Hall as [Ha Hb].
  apply Z.eqb_eq in Ha, Hb. subst. split; reflexivity.
Qed.

Lemma mapM_result_cons {A B} (f : A -> result B) x xs :
  mapM f (x :: xs) = (y ← f x; k ← mapM f xs; Ok (y :: k)).
Proof. reflexivity. Qed.

(** The three steps of a gradient of three colours between two. *)
Lemma gradient_steps_of_three (colors : list string) :
  gradient_step colors 3 1 0
    = (c1 ← py_index colors 0; c2 ← py_index colors 1;
       interpolate_color c1 c2 (S754_zero false)) /\
  gradient_step colors 3 1 1
    = (c1 ← py_index colors 0; c2 ← py_index colors 1;
       interpolate_color c1 c2 float_half) /\
  gradient_step colors 3 1 2 = py_index colors (-1).
Proof. repeat split. Qed.

Lemma generate_gradient_of_three c1 c2 :
  generate_gradient [c1; c2] 3 =
    (first ← interpolate_color c1 c2 (S754_zero false);
     middle ← interpolate_color c1 c2 float_half;
     Ok [first; middle; c2]).
Proof.
  unfold generate_gradient.
  change (py_range 3) with [0; 1; 2].
  change (Z.of_nat (length [c1; c2])) with 2.
  change (3 <=? 0) with false. change (3 =? 1) with false.
  change (2 =? 0) with false. change (2 =? 1) with false.
  change (2 - 1) with 1. cbv beta iota zeta.
  rewrite !mapM_result_cons.
  destruct (gradient_steps_of_three [c1; c2]) as (-> & -> & ->).
  change (mapM (gradient_step [c1; c2] 3 1) []) with (Ok (@nil string)).
  change (py_index [c1; c2] 0) with (Ok c1).
  change (py_index [c1; c2] 1) with (Ok c2).
  change (py_index [c1; c2] (-1)) with (Ok c2).
  unfold mbind, result_bind.
  destruct (interpolate_color c1 c2 (S754_zero false)); [|reflexivity].
  destruct (interpolate_color c1 c2 float_half); reflexivity.
Qed.

Lemma interpolate_color_channels c1 c2 f r1 g1 b1 r2 g2 b2 :
  hex_to_rgb c1 = Ok (r1, g1, b1) ->
  hex_to_rgb c2 = Ok (r2, g2, b2) ->
  interpolate_color c1 c2 f =
    (r ← blend_channel r1 r2 f;
     g ← blend_channel g1 g2 f;
     b ← blend_channel b1 b2 f;
     Ok (rgb_to_hex r g b)).
Proof. intros H1 H2. unfold interpolate_color. rewrite H1, H2. reflexivity. Qed.

(** C8.  [generate_gradient(['#000000', '#FFFFFF'], 3)] is
    [['#000000', '#7F7F7F', '#FFFFFF']]: at the middle step each channel
    blends to [0 + 0.5 * 255 = 127.5], which [int] truncates to 127,
    that is [7F], where rounding would give 128.  In general: a gradient
    of three colours from black to any colour has in the middle the
    colour whose channels are the halves cut to an integer, and one from
    any colour to white the channels [(c + 255) / 2] cut likewise;
    [interpolate_color] blends each channel on its own with the same
    factor; the blend of a channel is the binary64 value
    [c1 + factor * (c2 - c1)], cut towards zero whatever its fraction
    is, and the channels and their differences are exact as floats. *)
Theorem generate_gradient_black_white :
  generate_gradient ["#000000"; "#FFFFFF"] 3
    = Ok ["#000000"; "#7F7F7F"; "#FFFFFF"] /\
  (forall r g b,
     0 <= r <= 255 -> 0 <= g <= 255 -> 0 <= b <= 255 ->
     generate_gradient ["#000000"; rgb_to_hex r g b] 3
       = Ok ["#000000"; rgb_to_hex (r / 2) (g / 2) (b / 2); rgb_to_hex r g b] /\
     generate_gradient [rgb_to_hex r g b; "#FFFFFF"] 3
       = Ok [rgb_to_hex r g b;
             rgb_to_hex ((r + 255) / 2) ((g + 255) / 2) ((b + 255) / 2);
             "#FFFFFF"]) /\
  (forall c1 c2 f r1 g1 b1 r2 g2 b2,
     hex_to_rgb c1 = Ok (r1, g1, b1) ->
     hex_to_rgb c2 = Ok (r2, g2, b2) ->
     interpolate_color c1 c2 f =
       (r ← blend_channel r1 r2 f;
        g ← blend_channel g1 g2 f;
        b ← blend_channel b1 b2 f;
        Ok (rgb_to_hex r g b))) /\
  (forall c1 c2 f x1 d n,
     PyFloat.of_int c1 = Ok x1 ->
     PyFloat.of_int (c2 - c1) = Ok d ->
     (blend_channel c1 c2 f = Ok n <->
      truncated (SFadd PyFloat.prec PyFloat.emax x1
                   (SFmul PyFloat.prec PyFloat.emax f d)) n)) /\
  (forall c, -255 <= c <= 255 ->
     exists x, PyFloat.of_int c = Ok x /\ truncated x c) /\
  (forall x n, PyFloat.to_int x = Ok n <-> truncated x n) /\
  PyFloat.truediv_int 1 2 = Ok float_half /\
  (half ← PyFloat.truediv_int 1 2; blend_channel 0 255 half) = Ok 127 /\
  (half ← PyFloat.truediv_int 1 2; PyFloat.mul_int half 255)
    = Ok (S754_finite false 8972014882652160 (-46)) /\
  PyFloat.to_int (S754_finite false 8972014882652160 (-46)) = Ok 127 /\
  8972014882652160 = 255 * 2 ^ 45 /\
  PyInt.format_02x 127 = "7f".
Proof.
  split; [vm_compute; reflexivity|].
  split.
  { intros r g b Hr Hg Hb.
    pose proof (hex_to_rgb_of_rgb_to_hex r g b Hr Hg Hb) as Hrgb.
    assert (Hblack : hex_to_rgb "#000000" = Ok (0, 0, 0)) by reflexivity.
    assert (Hwhite : hex_to_rgb "#FFFFFF" = Ok (255, 255, 255)) by reflexivity.
    destruct (blend_channel_half r Hr) as [Hr0 Hr1].
    destruct (blend_channel_half g Hg) as [Hg0 Hg1].
    destruct (blend_channel_half b Hb) as [Hb0 Hb1].
    split; rewrite generate_gradient_of_three.
    - rewrite !(interpolate_color_channels _ _ _ _ _ _ _ _ _ Hblack Hrgb).
      rewrite !(blend_channel_zero 0) by lia.
      rewrite Hr0, Hg0, Hb0. reflexivity.
    - rewrite !(interpolate_color_channels _ _ _ _ _ _ _ _ _ Hrgb Hwhite).
      rewrite (blend_channel_zero r 255), (blend_channel_zero g 255),
        (blend_channel_zero b 255) by lia.
      rewrite Hr1, Hg1, Hb1. reflexivity. }
  split; [exact interpolate_color_channels|].
  split.
  { intros c1 c2 f x1 d n H1 Hd. unfold blend_channel, PyFloat.mul_int,
      PyFloat.int_add. rewrite H1, Hd. cbn [mbind result_bind].
    apply to_int_truncated. }
  split.
  { intros c Hc. pose proof channel_difference_exact as Hall.
    rewrite forallb_forall in Hall.
    specialize (Hall (c + 255) (py_range_elem 511 (c + 255) ltac:(lia))).
    replace (c + 255 - 255) with c in Hall by lia.
    unfold mbind, result_bind in Hall.
    destruct (PyFloat.of_int c) as [x|]; [|discriminate].
    exists x. split; [reflexivity|]. apply to_int_truncated.
    destruct (PyFloat.to_int x) as [n|]; [|discriminate].
    apply Z.eqb_eq in Hall. subst n. reflexivity. }
  split; [exact to_int_truncated|].
  repeat split; vm_compute; reflexivity.
Qed.

(** C8 at a concrete input: from black to a colour with odd channels. *)
Lemma generate_gradient_black_white_witness :
  generate_gradient ["#000000"; "#FF8001"] 3
    = Ok ["#000000"; "#7F4000"; "#FF8001"].
Proof.
  destruct generate_gradient_black_white as (_ & H & _).
  exact (proj1 (H 255 128 1 ltac:(lia) ltac:(lia) ltac:(lia))).
Defined.

(** X24.  [interpolate_color] at the factor 0.0 returns the first
    colour, whatever the second is: between two colours written by
    [rgb_to_hex] the floating-point blend [c1 + 0.0 * (c2 - c1)] is
    exactly [c1] in each channel, also when the product is the negative
    zero. *)
Theorem interpolate_color_at_zero r1 g1 b1 r2 g2 b2 :
  0 <= r1 <= 255 -> 0 <= g1 <= 255 -> 0 <= b1 <= 255 ->
  0 <= r2 <= 255 -> 0 <= g2 <= 255 -> 0 <= b2 <= 255 ->
  PyFloat.of_int 0 = Ok (S754_zero false) /\
  PyFloat.mul_int (S754_zero false) (-1) = Ok (S754_zero true) /\
  interpolate_color (rgb_to_hex r1 g1 b1) (rgb_to_hex r2 g2 b2)
    (S754_zero false) = Ok (rgb_to_hex r1 g1 b1).
Proof.
  intros Hr1 Hg1 Hb1 Hr2 Hg2 Hb2.
  split; [reflexivity|]. split; [reflexivity|].
  unfold interpolate_color.
  rewrite !hex_to_rgb_of_rgb_to_hex by assumption.
  cbn [mbind result_bind].
  rewrite (blend_channel_zero r1 r2 Hr1 Hr2), (blend_channel_zero g1 g2 Hg1 Hg2),
    (blend_channel_zero b1 b2 Hb1 Hb2).
  reflexivity.
Qed.

(** X24 at a concrete input: from orange towards teal. *)
Lemma interpolate_color_at_zero_witness :
  interpolate_color "#FF8000" "#4ECDC4" (S754_zero false) = Ok "#FF8000".
Proof.
  apply (interpolate_color_at_zero 255 128 0 78 205 196); lia.
Defined.

(* ================================================================== *)
(** * query.py: formats and identifiers *)
(* ================================================================== *)

(** X15.  [fetch_pdb] checks the format before anything else: a format
    that is not pdb, mmcif or cif in any letter case raises the
    [ValueError] that names the lower-cased format, whatever the
    identifier is and whatever a request would have answered.  The
    formats cif and mmcif request the same address, so they return the
    same; an answered request is returned as it is; [query] is
    [fetch_pdb]. *)
Theorem fetch_pdb_format_first :
  forall urlopen_read : string -> result string,
  (forall pdb_id format,
     PyStr.in_list (PyStr.lower format) ["pdb"; "mmcif"; "cif"] = false ->
     fetch_pdb urlopen_read pdb_id format
       = Raise (ValueError (BadFetchFormat (PyStr.lower format)))) /\
  (forall pdb_id format,
     PyStr.lower format = "cif" ->
     fetch_pdb urlopen_read pdb_id format
       = fetch_pdb urlopen_read pdb_id "mmcif") /\
  (forall pdb_id format body,
     PyStr.in_list (PyStr.lower format) ["pdb"; "mmcif"; "cif"] = true ->
     urlopen_read (fetch_pdb_url pdb_id format) = Ok body ->
     fetch_pdb urlopen_read pdb_id format = Ok body) /\
  (forall pdb_id format,
     query urlopen_read pdb_id format = fetch_pdb urlopen_read pdb_id format).
Proof.
  intros urlopen_read. split; [|split; [|split]].
  - intros pdb_id format Hf. unfold fetch_pdb. cbn zeta. rewrite Hf.
    reflexivity.
  - intros pdb_id format Hf. unfold fetch_pdb. cbn zeta. rewrite Hf.
    reflexivity.
  - intros pdb_id format body Hf Hbody. unfold fetch_pdb, fetch_pdb_url in *.
    cbn zeta. rewrite Hf. cbn [negb].
    unfold PyStr.in_list in Hf. cbn [existsb] in Hf.
    destruct (String.eqb_spec (PyStr.lower format) "pdb") as [Hp|Hp].
    + rewrite Hp in *. cbn [String.eqb Ascii.eqb Bool.eqb] in *.
      rewrite Hbody. reflexivity.
    + destruct (String.eqb_spec (PyStr.lower format) "cif") as [Hc|Hc].
      * cbn [String.eqb Ascii.eqb Bool.eqb]. rewrite Hbody. reflexivity.
      * destruct (String.eqb_spec (PyStr.lower format) "pdb");
          [contradiction|].
        rewrite Hbody. reflexivity.
  - reflexivity.
Qed.

(** X15 at a concrete input: the format xyz, on a network that answers
    every request. *)
Lemma fetch_pdb_format_first_witness :
  fetch_pdb (fun _ => Ok "ATOM") "1UBQ" "XYZ"
    = Raise (ValueError (BadFetchFormat "xyz")).
Proof.
  destruct (fetch_pdb_format_first (fun _ => Ok "ATOM")) as [H _].
  apply (H "1UBQ" "XYZ"). reflexivity.
Defined.

Lemma lstrip_app_space pre x :
  all_space pre = true -> PyStr.lstrip (pre ++ x) = PyStr.lstrip x.
Proof.
  induction pre as [|c pre IH]; simpl; [reflexivity|].
  intros H. apply andb_true_iff in H as [Hc Hs]. rewrite Hc. exact (IH Hs).
Qed.

Lemma rstrip_app_space x post :
  all_space post = true -> PyStr.rstrip (x ++ post) = PyStr.rstrip x.
Proof.
  intros H. induction x as [|c x IH]; simpl.
  - pose proof (PyStrFacts.rstrip_all_space post) as E. rewrite H in E.
    apply PyStrFacts.is_empty_true in E. exact E.
  - rewrite IH. reflexivity.
Qed.

Lemma strip_padding pre x post :
  all_space pre = true -> all_space post = true ->
  PyStr.strip (pre ++ x ++ post) = PyStr.strip x.
Proof.
  intros Hpre Hpost. unfold PyStr.strip.
  rewrite (lstrip_app_space pre _ Hpre).
  rewrite <- !PyStrFacts.strip_comm, (rstrip_app_space x post Hpost).
  reflexivity.
Qed.

Lemma lstrip_lower s :
  PyStr.lstrip (PyStr.lower s) = PyStr.lower (PyStr.lstrip s).
Proof.
  induction s as [|c s IH]; [reflexivity|].
  unfold PyStr.lower in *. simpl.
  rewrite PyStrFacts.lower_char_space.
  destruct (PyStr.is_space c); [exact IH | reflexivity].
Qed.

Lemma rstrip_lower s :
  PyStr.rstrip (PyStr.lower s) = PyStr.lower (PyStr.rstrip s).
Proof.
  induction s as [|c s IH]; [reflexivity|].
  unfold PyStr.lower in *. simpl.
  rewrite PyStrFacts.lower_char_space, IH.
  destruct (PyStr.rstrip s); simpl;
    destruct (PyStr.is_space c); reflexivity.
Qed.

Lemma upper_lower s : PyStr.upper (PyStr.lower s) = PyStr.upper s.
Proof.
  induction s as [|c s IH]; [reflexivity|].
  unfold PyStr.upper, PyStr.lower in *. simpl. rewrite IH. f_equal.
  destruct c as [[] [] [] [] [] [] [] []]; reflexivity.
Qed.

(** The identifier that the fetch functions use: the same for an
    identifier in lower case with whitespace around it. *)
Lemma identifier_normalised pre id post :
  all_space pre = true -> all_space post = true ->
  PyStr.upper (PyStr.strip (pre ++ PyStr.lower id ++ post))
    = PyStr.upper (PyStr.strip id).
Proof.
  intros Hpre Hpost. rewrite (strip_padding _ _ _ Hpre Hpost).
  unfold PyStr.strip. rewrite lstrip_lower, rstrip_lower.
  apply upper_lower.
Qed.

(** X16.  The fetch functions do not tell identifiers apart by letter
    case or by whitespace around them: an identifier written in lower
    case between two runs of whitespace gives the request, and so the
    result or the exception, of the identifier itself. *)
Theorem fetch_identifier_insensitive :
  forall (urlopen_read : string -> result string) pre id post,
  all_space pre = true -> all_space post = true ->
  (forall format,
     fetch_pdb urlopen_read (pre ++ PyStr.lower id ++ post) format
       = fetch_pdb urlopen_read id format) /\
  (forall version,
     fetch_alphafold urlopen_read (pre ++ PyStr.lower id ++ post) version
       = fetch_alphafold urlopen_read id version).
Proof.
  intros urlopen_read pre id post Hpre Hpost.
  pose proof (identifier_normalised pre id post Hpre Hpost) as E.
  split; intros x; unfold fetch_pdb, fetch_alphafold; cbn zeta;
    rewrite E; reflexivity.
Qed.

(** X16 at a concrete input. *)
Lemma fetch_identifier_insensitive_witness :
  fetch_pdb (fun url => Ok url) (" 1ubq" ++ nl) "pdb"
    = fetch_pdb (fun url => Ok url) "1UBQ" "pdb".
Proof.
  apply (fetch_identifier_insensitive (fun url => Ok url) " " "1UBQ" nl);
    reflexivity.
Defined.

(* ================================================================== *)
(** * viewer.py: grid dimensions *)
(* ================================================================== *)

(** The test of X17 on one number. *)
Lemma grid_dimensions_checked :
  forallb (fun n =>
    match _calculate_grid_dimensions n with
    | inr (nrows, ncols) =>
        (1 <=? ncols) && (ncols <=? nrows) && (n <=? nrows * ncols) &&
        ((n =? 0) ||
         ((nrows - 1) * (nrows - 1) <? n) && ((ncols - 1) * nrows <? n))
    | inl _ => false
    end) (py_range 1001) = true.
Proof. vm_cast_no_check (eq_refl true). Qed.

(** X17.  For up to a thousand structures [_calculate_grid_dimensions]
    returns a grid that holds them all and is as small as a square
    start allows: [rows] is the least number whose square reaches the
    count, [cols] the least number of columns of [rows] cells that
    reaches it, so [cols] is at most [rows] and at least 1. *)
Theorem calculate_grid_dimensions_fits n :
  0 <= n <= 1000 ->
  exists nrows ncols,
    _calculate_grid_dimensions n = inr (nrows, ncols) /\
    1 <= ncols <= nrows /\
    n <= nrows * ncols /\
    (0 < n -> (nrows - 1) * (nrows - 1) < n /\ (ncols - 1) * nrows < n).
Proof.
  intros Hn. pose proof grid_dimensions_checked as Hall.
  rewrite forallb_forall in Hall.
  specialize (Hall n (py_range_elem 1001 n ltac:(lia))).
  destruct (_calculate_grid_dimensions n) as [e|[nrows ncols]];
    [discriminate|].
  exists nrows, ncols. split; [reflexivity|].
  apply andb_true_iff in Hall as [Hall Hmin].
  apply andb_true_iff in Hall as [Hall Hfit].
  apply andb_true_iff in Hall as [Hone Hle].
  split; [lia|]. split; [lia|]. intros Hpos.
  apply orb_true_iff in Hmin as [Hmin|Hmin]; [lia|].
  apply andb_true_iff in Hmin as [Hr Hc]. lia.
Qed.

(** X17 at a concrete input: seven structures need a 3 x 3 grid. *)
Lemma calculate_grid_dimensions_fits_witness :
  exists nrows ncols,
    _calculate_grid_dimensions 7 = inr (nrows, ncols) /\
    1 <= ncols <= nrows /\ 7 <= nrows * ncols /\
    (0 < 7 -> (nrows - 1) * (nrows - 1) < 7 /\ (ncols - 1) * nrows < 7).
Proof. apply (calculate_grid_dimensions_fits 7). lia. Defined.

(* ================================================================== *)
(** * viewer.py: the structure handed to the page *)
(* ================================================================== *)

Lemma string_app_cons x (a b : string) :
  (String x a ++ b = String x (a ++ b))%string.
Proof. reflexivity. Qed.

Lemma string_app_assoc (a b c : string) : ((a ++ b) ++ c = a ++ (b ++ c))%string.
Proof.
  induction a as [|x a IH]; [reflexivity|].
  rewrite !string_app_cons, IH. reflexivity.
Qed.

Lemma replace_char_app old new a b :
  replace_char old new (a ++ b)
    = (replace_char old new a ++ replace_char old new b)%string.
Proof.
  induction a as [|x a IH]; [reflexivity|].
  rewrite string_app_cons. cbn [replace_char]. rewrite IH.
  destruct (Ascii.eqb x old); [|reflexivity].
  rewrite string_app_assoc. reflexivity.
Qed.

Lemma remove_char_app ch a b :
  PyStr.remove_char ch (a ++ b)
    = (PyStr.remove_char ch a ++ PyStr.remove_char ch b)%string.
Proof.
  induction a as [|x a IH]; [reflexivity|].
  rewrite string_app_cons. cbn [PyStr.remove_char]. rewrite IH.
  destruct (Ascii.eqb x ch); reflexivity.
Qed.

(** The escaping works character by character. *)
Lemma js_escape_cons c s :
  js_escape (String c s) = (js_escape (String c "") ++ js_escape s)%string.
Proof.
  change (String c s) with (String c "" ++ s)%string.
  unfold js_escape. rewrite !replace_char_app. reflexivity.
Qed.

Lemma js_unescape_char c s :
  js_unescape (js_escape (String c "") ++ s)
    = option_map (String c) (js_unescape s).
Proof. destruct c as [[] [] [] [] [] [] [] []]; reflexivity. Qed.

Lemma js_escape_char_no_break c :
  PyStr.remove_char newline (js_escape (String c ""))
    = js_escape (String c "") /\
  PyStr.remove_char carriage_return (js_escape (String c ""))
    = js_escape (String c "").
Proof. destruct c as [[] [] [] [] [] [] [] []]; split; reflexivity. Qed.

(** X18.  The escaping of the structure text loses nothing and leaves
    no line break: reading the four escapes back gives the text again,
    so two different texts never escape to the same one, and the escaped
    text holds no line feed and no carriage return. *)
Theorem js_escape_reversible :
  (forall s, js_unescape (js_escape s) = Some s) /\
  (forall a b, js_escape a = js_escape b -> a = b) /\
  (forall s, PyStr.remove_char newline (js_escape s) = js_escape s /\
             PyStr.remove_char carriage_return (js_escape s) = js_escape s).
Proof.
  assert (Hback : forall s, js_unescape (js_escape s) = Some s).
  { induction s as [|c s IH]; [reflexivity|].
    rewrite js_escape_cons, js_unescape_char, IH. reflexivity. }
  split; [exact Hback|]. split.
  - intros a b Hab. pose proof (Hback a) as Ha. rewrite Hab, Hback in Ha.
    congruence.
  - induction s as [|c s [IHn IHr]]; [split; reflexivity|].
    destruct (js_escape_char_no_break c) as [Hn Hr].
    rewrite js_escape_cons, !remove_char_app, IHn, IHr, Hn, Hr.
    split; reflexivity.
Qed.

(** X19.  In a viewer that keeps its invariant, the structure handed to
    the page in single-view mode is the last one of [models], with its
    text escaped, or the empty text with format pdb when there is none;
    reading it never raises.  After [addModel] has returned in linear
    mode it is the structure just added; after [clear] it is the empty
    one. *)
Theorem current_structure_last :
  (forall self,
     viewer_invariant self ->
     current_structure self =
       match last (models self) with
       | Some m => Ok (js_escape (data m), format m)
       | None => Ok ("", "pdb")
       end) /\
  (forall self text fmt_arg keep viewer name fmt,
     viewergrid self = None ->
     resolved_format text fmt_arg = Ok fmt ->
     current_structure (fst (addModel text fmt_arg keep viewer name self))
       = Ok (js_escape text, fmt)) /\
  (forall self, current_structure (clear self) = Ok ("", "pdb")).
Proof.
  assert (Hlast : forall self,
     current_model_index self = Z.of_nat (length (models self)) - 1 ->
     current_structure self =
       match last (models self) with
       | Some m => Ok (js_escape (data m), format m)
       | None => Ok ("", "pdb")
       end).
  { intros self Hidx. unfold current_structure. cbn zeta. rewrite Hidx.
    rewrite last_lookup.
    destruct (models self) as [|m0 ms] eqn:Hm; [reflexivity|].
    set (l := m0 :: ms) in *.
    assert (Hlen : (0 < length l)%nat) by (unfold l; simpl; lia).
    replace ((0 <=? Z.of_nat (length l) - 1) &&
             (Z.of_nat (length l) - 1 <? Z.of_nat (length l))) with true by lia.
    destruct (lookup_lt_is_Some_2 l (pred (length l))) as [m Hl]; [lia|].
    rewrite Hl.
    rewrite (py_index_lookup l (Z.of_nat (length l) - 1) m);
      [reflexivity | lia |].
    replace (Z.to_nat (Z.of_nat (length l) - 1)) with (pred (length l)) by lia.
    exact Hl. }
  split; [|split].
  - intros self Hinv. apply Hlast. apply Hinv.
  - intros self text fmt_arg keep viewer name fmt Hv Hf.
    rewrite (addModel_linear self text fmt_arg keep viewer name fmt Hv Hf).
    cbn zeta. cbn [fst]. rewrite Hlast by reflexivity.
    cbn. rewrite last_snoc. reflexivity.
  - intros self. reflexivity.
Qed.

(** X19 at a concrete input: a text of two lines in a fresh viewer. *)
Lemma current_structure_last_witness :
  current_structure (view None) = Ok ("", "pdb") /\
  current_structure
    (fst (addModel ("ATOM" ++ nl ++ "END") None false None None (view None)))
    = Ok ("ATOM\nEND", "pdb").
Proof.
  destruct current_structure_last as (Hlast & Hadd & _). split.
  - rewrite (Hlast (view None) (init_invariant 800 600 None false)).
    reflexivity.
  - apply (Hadd (view None) ("ATOM" ++ nl ++ "END") None false None None "pdb");
      reflexivity.
Defined.

(* ================================================================== *)
(** * query.py: search *)
(* ================================================================== *)

Lemma identifiers_all entries ids :
  Forall2 (fun entry id => json_getitem entry "identifier" = inr id)
    entries ids ->
  identifiers entries = inr ids.
Proof.
  induction 1 as [|entry id entries ids Hid _ IH]; [reflexivity|].
  cbn [identifiers]. rewrite Hid, IH. reflexivity.
Qed.

Lemma identifiers_one_missing entries :
  Exists (fun entry => exists e, json_getitem entry "identifier" = inl e)
    entries ->
  exists e, identifiers entries = inl e.
Proof.
  induction 1 as [entry entries [e He]|entry entries _ [e IH]];
    cbn [identifiers].
  - rewrite He. eauto.
  - destruct (json_getitem entry "identifier") as [e'|x]; [eauto|].
    rewrite IH. eauto.
Qed.

Lemma read_result_set_entries d entries :
  dict_get d "result_set" = Some (JArr entries) ->
  read_result_set (JObj d) = identifiers entries.
Proof.
  intros Hd. unfold read_result_set, json_contains, json_getitem.
  rewrite Hd. rewrite bool_decide_eq_true_2 by eauto.
  destruct entries; reflexivity.
Qed.

(** X20.  What [search_pdb] returns for the answer of the search
    service.  A request that raises gives the empty list and one printed
    line.  An answer whose [result_set] is a list of objects that all
    have an [identifier] gives these identifiers in order, all of them,
    however many [max_results] asked for.  One entry without
    [identifier] makes the whole result the empty list, with one printed
    line.  An answer without [result_set] gives the empty list and
    prints nothing. *)
Theorem search_pdb_results :
  forall (post_query : string -> string -> Z -> result json)
         query_text max_results,
  (forall e,
     post_query search_url query_text max_results = Raise e ->
     exists line,
       search_pdb post_query query_text max_results = ([], [line])) /\
  (forall d entries ids,
     post_query search_url query_text max_results = Ok (JObj d) ->
     dict_get d "result_set" = Some (JArr entries) ->
     Forall2 (fun entry id => json_getitem entry "identifier" = inr id)
       entries ids ->
     search_pdb post_query query_text max_results = (ids, [])) /\
  (forall d entries,
     post_query search_url query_text max_results = Ok (JObj d) ->
     dict_get d "result_set" = Some (JArr entries) ->
     Exists (fun entry => exists e, json_getitem entry "identifier" = inl e)
       entries ->
     exists e,
       search_pdb post_query query_text max_results
         = ([], [SearchErrorLookup e])) /\
  (forall d,
     post_query search_url query_text max_results = Ok (JObj d) ->
     dict_get d "result_set" = None ->
     search_pdb post_query query_text max_results = ([], [])).
Proof.
  intros post_query query_text max_results. unfold search_pdb.
  split; [|split; [|split]].
  - intros e ->. destruct e; eauto.
  - intros d entries ids -> Hd Hall.
    rewrite (read_result_set_entries d entries Hd),
      (identifiers_all entries ids Hall). reflexivity.
  - intros d entries -> Hd Hone.
    rewrite (read_result_set_entries d entries Hd).
    destruct (identifiers_one_missing entries Hone) as [e ->]. eauto.
  - intros d -> Hd. unfold read_result_set, json_contains. rewrite Hd.
    rewrite bool_decide_eq_false_2 by (intros [x Hx]; discriminate).
    reflexivity.
Qed.

(** X20 at a concrete input: two entries answered to a search for one. *)
Lemma search_pdb_results_witness :
  search_pdb
    (fun _ _ _ =>
       Ok (JObj [("result_set",
                  JArr [JObj [("identifier", JStr "1UBQ")];
                        JObj [("identifier", JStr "1D3Z")]])]))
    "ubiquitin" 1
  = ([JStr "1UBQ"; JStr "1D3Z"], []).
Proof.
  eapply search_pdb_results; [reflexivity | reflexivity |].
  repeat constructor.
Defined.

(* ================================================================== *)
(** * viewer.py: no call empties a cell *)
(* ================================================================== *)




(* ================================================================== *)
(** * viewer.py: a format passed to addModel *)
(* ================================================================== *)

Lemma in_list_In x l : PyStr.in_list x l = true <-> In x l.
Proof.
  unfold PyStr.in_list. rewrite existsb_exists. split.
  - intros (y & Hy & E). apply String.eqb_eq in E. subst y. exact Hy.
  - intros H. exists x. split; [exact H | apply String.eqb_refl].
Qed.

(** X22.  A format passed to [addModel] is taken by its name alone, in
    any letter case, and the text is not looked at: pdb and sdf are
    stored under their lower-case name, cif and mmcif as mmcif, and any
    other name raises [ValueError] with the viewer unchanged.  In linear
    mode the placement argument plays no part: the call does what the
    call without placement does, even for a placement that no grid
    could hold. *)
Theorem addModel_explicit_format self text f keep viewer name :
  viewergrid self = None ->
  (In (PyStr.lower f) ["pdb"; "sdf"; "cif"; "mmcif"] ->
   exists self' m,
     addModel text (Some f) keep viewer name self = (self', Ok tt) /\
     last (models self') = Some m /\ data m = text /\
     format m = if PyStr.in_list (PyStr.lower f) ["cif"; "mmcif"]
                then "mmcif" else PyStr.lower f) /\
  (~ In (PyStr.lower f) ["pdb"; "sdf"; "cif"; "mmcif"] ->
   addModel text (Some f) keep viewer name self
     = (self, Raise (ValueError (UnsupportedFormat (PyStr.lower f))))) /\
  addModel text (Some f) keep viewer name self
    = addModel text (Some f) keep None name self.
Proof.
  intros Hv.
  assert (Hres : resolved_format text (Some f) =
            if PyStr.in_list (PyStr.lower f) ["cif"; "mmcif"] then Ok "mmcif"
            else if PyStr.in_list (PyStr.lower f) ["pdb"; "sdf"]
                 then Ok (PyStr.lower f)
                 else Raise (ValueError (UnsupportedFormat (PyStr.lower f)))).
  { unfold resolved_format, normalize_format. cbn zeta.
    destruct (PyStr.in_list (PyStr.lower f) ["cif"; "mmcif"]); [reflexivity|].
    destruct (PyStr.in_list (PyStr.lower f) ["pdb"; "sdf"]); reflexivity. }
  destruct (PyStr.in_list (PyStr.lower f) ["cif"; "mmcif"]) eqn:E1;
    [|destruct (PyStr.in_list (PyStr.lower f) ["pdb"; "sdf"]) eqn:E2].
  - split; [|split].
    + intros _. rewrite (addModel_linear _ _ _ _ _ _ _ Hv Hres). cbn zeta.
      eexists. eexists. split; [reflexivity|].
      cbn. rewrite last_snoc. repeat split.
    + intros Hn. exfalso. apply Hn. apply in_list_In in E1.
      cbn [In] in *. tauto.
    + rewrite !(addModel_linear _ _ _ _ _ _ _ Hv Hres). reflexivity.
  - split; [|split].
    + intros _. rewrite (addModel_linear _ _ _ _ _ _ _ Hv Hres). cbn zeta.
      eexists. eexists. split; [reflexivity|].
      cbn. rewrite last_snoc. repeat split.
    + intros Hn. exfalso. apply Hn. apply in_list_In in E2.
      cbn [In] in *. tauto.
    + rewrite !(addModel_linear _ _ _ _ _ _ _ Hv Hres). reflexivity.
  - split; [|split].
    + intros Hin. exfalso.
      assert (H1 : ~ In (PyStr.lower f) ["cif"; "mmcif"])
        by (rewrite <- in_list_In; congruence).
      assert (H2 : ~ In (PyStr.lower f) ["pdb"; "sdf"])
        by (rewrite <- in_list_In; congruence).
      cbn [In] in *. tauto.
    + intros _. apply addModel_bad_format. exact Hres.
    + rewrite !(addModel_bad_format _ _ _ _ _ _ _ Hres). reflexivity.
Qed.

(** X22 at a concrete input: an mmCIF text passed as [PDB], with a
    placement, to a viewer in linear mode. *)
Lemma addModel_explicit_format_witness :
  exists self' m,
    addModel "data_1UBQ" (Some "PDB") false (Some (7, 7)) None (view None)
      = (self', Ok tt) /\
    last (models self') = Some m /\ data m = "data_1UBQ" /\ format m = "pdb".
Proof.
  apply (addModel_explicit_format (view None) "data_1UBQ" "PDB" false
           (Some (7, 7)) None eq_refl).
  cbn. tauto.
Defined.

(** X23.  A viewer in grid mode keeps its structures in the grid only:
    [models] stays empty, so [getModel] returns [None] at every index,
    the current index stays -1, and the structure of the single view is
    the empty one. *)
Theorem grid_mode_hides_models self nrows ncols :
  viewer_invariant self ->
  viewergrid self = Some (nrows, ncols) ->
  (forall model_id, getModel self model_id = Ok None) /\
  current_model_index self = -1 /\
  current_structure self = Ok ("", "pdb").
Proof.
  intros [Hidx Hmode _ _ _ _] Hv. rewrite Hv in Hmode.
  destruct Hmode as (_ & Hm & _). rewrite Hm in Hidx.
  change (Z.of_nat (length (@nil Model)) - 1) with (-1) in Hidx.
  split; [|split; [exact Hidx|]].
  - intros model_id. unfold getModel. rewrite Hm.
    change (Z.of_nat (length (@nil Model))) with 0.
    destruct (Z.leb_spec 0 model_id), (Z.ltb_spec model_id 0);
      try reflexivity; lia.
  - unfold current_structure. cbn zeta. rewrite Hidx. reflexivity.
Qed.

(** X23 at a concrete input: a 2 x 2 grid after one structure. *)
Lemma grid_mode_hides_models_witness :
  getModel (fst (addModel "ATOM" None false None None (view (Some (2, 2))))) 0
    = Ok None.
Proof.
  apply (grid_mode_hides_models _ 2 2).
  - apply addModel_invariant. exact (init_invariant 800 600 (Some (2, 2)) false).
  - reflexivity.
Defined.
